(** * DataFusion: merge engine and transformation pipeline

    A shallow embedding of the file merger ([src/controllers/file_merger.py]),
    the reader ([src/utils/file_handlers.py]), the processors
    ([src/utils/data_processors.py]) and the transformer plug-ins
    ([src/plugins/data_transformers/]).

    Tables are pandas data frames.  The parts of pandas, difflib, chardet and
    of the Python runtime that the program only calls are either modelled by
    small executable definitions (module [Pd]) or taken as variables of the
    section [DataFusion]. *)

From Stdlib Require Import QArith Qround Qabs ZArith Ascii String List Lia Lqa Sorted.
From stdpp Require Import base strings list pretty gmap.

Local Open Scope string_scope.

(** ** Python strings *)

Module PyStr.

Definition is_upper (a : ascii) : bool :=
  (65 <=? nat_of_ascii a)%nat && (nat_of_ascii a <=? 90)%nat.

Definition lower_ascii (a : ascii) : ascii :=
  if is_upper a then ascii_of_nat (nat_of_ascii a + 32) else a.

(** [str.lower], on the ASCII range. *)
Fixpoint lower (s : string) : string :=
  match s with
  | EmptyString => EmptyString
  | String a r => String (lower_ascii a) (lower r)
  end.

Definition is_lower (a : ascii) : bool :=
  (97 <=? nat_of_ascii a)%nat && (nat_of_ascii a <=? 122)%nat.

Definition upper_ascii (a : ascii) : ascii :=
  if is_lower a then ascii_of_nat (nat_of_ascii a - 32) else a.

(** [str.upper], on the ASCII range. *)
Fixpoint upper (s : string) : string :=
  match s with
  | EmptyString => EmptyString
  | String a r => String (upper_ascii a) (upper r)
  end.

(** [needle in hay] *)
Fixpoint contains (needle hay : string) : bool :=
  String.prefix needle hay ||
  match hay with
  | EmptyString => false
  | String _ r => contains needle r
  end.

Definition startswith (p s : string) : bool := String.prefix p s.

(** [s.count(d)] for a one-character [d]. *)
Fixpoint count (d : ascii) (s : string) : nat :=
  match s with
  | EmptyString => 0
  | String a r => (if Ascii.eqb a d then 1 else 0) + count d r
  end.

(** [s[:n]] *)
Fixpoint take (n : nat) (s : string) : string :=
  match n, s with
  | S k, String a r => String a (take k r)
  | _, _ => EmptyString
  end.

(** [s.split(sep)] for a one-character separator: never the empty list. *)
Fixpoint split (sep : ascii) (s : string) : list string :=
  match s with
  | EmptyString => [EmptyString]
  | String a r =>
      if Ascii.eqb a sep then EmptyString :: split sep r
      else match split sep r with
           | t :: ts => String a t :: ts
           | [] => [String a EmptyString]
           end
  end.

Definition is_space (a : ascii) : bool :=
  let n := nat_of_ascii a in
  ((9 <=? n)%nat && (n <=? 13)%nat) || ((28 <=? n)%nat && (n <=? 32)%nat).

Fixpoint lstrip (s : string) : string :=
  match s with
  | EmptyString => EmptyString
  | String a r => if is_space a then lstrip r else s
  end.

Fixpoint rstrip (s : string) : string :=
  match s with
  | EmptyString => EmptyString
  | String a r =>
      match rstrip r with
      | EmptyString => if is_space a then EmptyString else String a EmptyString
      | r' => String a r'
      end
  end.

Definition strip (s : string) : string := rstrip (lstrip s).

(** [s.lstrip('.')] *)
Fixpoint lstrip_dot (s : string) : string :=
  match s with
  | String "." r => lstrip_dot r
  | _ => s
  end.

(** [sep.join(l)] *)
Fixpoint join (sep : string) (l : list string) : string :=
  match l with
  | [] => EmptyString
  | [x] => x
  | x :: r => x +:+ sep +:+ join sep r
  end.

Definition is_digit (a : ascii) : bool :=
  (48 <=? nat_of_ascii a)%nat && (nat_of_ascii a <=? 57)%nat.

Fixpoint all_digits (s : string) : bool :=
  match s with
  | EmptyString => true
  | String a r => is_digit a && all_digits r
  end.

(** [s.isdigit()], on the ASCII range. *)
Definition isdigit (s : string) : bool :=
  match s with EmptyString => false | _ => all_digits s end.

(** [s.replace(".", "", 1)] *)
Fixpoint remove_first_dot (s : string) : string :=
  match s with
  | EmptyString => EmptyString
  | String a r => if Ascii.eqb a "." then r else String a (remove_first_dot r)
  end.

(** The leading decimal digits of [s], most significant first, and the
    rest of [s]. *)
Fixpoint digits_prefix (s : string) : list nat * string :=
  match s with
  | EmptyString => ([], EmptyString)
  | String a r =>
      if is_digit a then
        let '(ds, rest) := digits_prefix r in ((nat_of_ascii a - 48)%nat :: ds, rest)
      else ([], s)
  end.

Definition digits_value (ds : list nat) : Z :=
  fold_left (fun acc d => (10 * acc + Z.of_nat d)%Z) ds 0%Z.

Definition pow10 (n : nat) : positive := Nat.iter n (Pos.mul 10) 1%positive.

Definition unsigned_decimal (s : string) : option Q :=
  let '(ip, rest) := digits_prefix s in
  match rest with
  | EmptyString =>
      match ip with [] => None | _ => Some (inject_Z (digits_value ip)) end
  | String "." r =>
      let '(fp, rest') := digits_prefix r in
      match rest', (ip ++ fp)%list with
      | EmptyString, _ :: _ =>
          Some (Qmake (digits_value (ip ++ fp)%list) (pow10 (length fp)))
      | _, _ => None
      end
  | _ => None
  end.

(** [float(s)] on plain decimal literals: optional sign, digits, optional
    fraction, surrounding blanks ignored.  Exponents, [inf] and [nan] are
    outside this model and read as a parse failure ([None] stands for the
    [ValueError] of [float]). *)
Definition float (s : string) : option Q :=
  match strip s with
  | String "-" r => option_map Qopp (unsigned_decimal r)
  | String "+" r => unsigned_decimal r
  | t => unsigned_decimal t
  end.

(** [x in l] on a list of strings. *)
Definition mem (x : string) (l : list string) : bool :=
  existsb (String.eqb x) l.

End PyStr.

(** ** Exceptions and results *)

(** A raised Python exception: the class the program distinguishes on
    ([re.error] is caught apart from the others) and [str(e)]. *)
Inductive exn : Type :=
| ValueError (msg : string)
| ReError (msg : string)
| OtherError (msg : string).

Definition exn_msg (e : exn) : string :=
  match e with ValueError m | ReError m | OtherError m => m end.

Inductive Result (A : Type) : Type :=
| Ok (a : A)
| Raise (e : exn).
Arguments Ok {A} a.
Arguments Raise {A} e.

(** ** Tables: the part of pandas the program relies on

    Row labels are positional throughout (the program never sets an index),
    so a column is the list of its cells.  The model is that of well-formed
    tables ([wf_df]): every column has [nrows] cells and, as in the data
    model, labels are unique within a table. *)

Module Pd.

Inductive Cell : Type :=
| CInt (z : Z)
| CFloat (q : Q)
| CBool (b : bool)
| CText (s : string)
| CTime (t : Z)
| CInterval (lo hi : Q) (closed_right : bool)
| NaN.

Definition isna (c : Cell) : bool :=
  match c with NaN => true | _ => false end.

(** The number a cell of a numeric or boolean column stands for. *)
Definition cell_num (c : Cell) : option Q :=
  match c with
  | CInt z => Some (inject_Z z)
  | CFloat q => Some q
  | CBool b => Some (if b then 1%Q else 0%Q)
  | _ => None
  end.

(** Equality of cells as hashing of values sees it: numbers by value,
    missing cells alike. *)
Definition cell_eqb (a b : Cell) : bool :=
  match cell_num a, cell_num b with
  | Some x, Some y => Qeq_bool x y
  | None, None =>
      match a, b with
      | CText s, CText t => String.eqb s t
      | CTime s, CTime t => Z.eqb s t
      | CInterval l h r, CInterval l' h' r' =>
          Qeq_bool l l' && Qeq_bool h h' && Bool.eqb r r'
      | NaN, NaN => true
      | _, _ => false
      end
  | _, _ => false
  end.

(** A column: its cells and, for a categorical column, its categories. *)
Record Series : Type := mkSeries {
  data : list Cell;
  cats : option (list Cell)
}.

Definition plain (l : list Cell) : Series := mkSeries l None.

Record DataFrame : Type := mkDF {
  nrows : nat;
  cols : list (string * Series)
}.

Definition wf_df (d : DataFrame) : Prop :=
  NoDup (map fst (cols d)) ∧
  Forall (fun p => length (data (snd p)) = nrows d) (cols d).

(** [df.columns] *)
Definition columns (d : DataFrame) : list string := map fst (cols d).

(** [df.shape[1]] *)
Definition ncols (d : DataFrame) : nat := length (cols d).

(** [df.empty] *)
Definition empty (d : DataFrame) : bool :=
  (nrows d =? 0)%nat || (ncols d =? 0)%nat.

(** [df[c]]; [None] stands for the [KeyError]. *)
Definition getitem (d : DataFrame) (c : string) : option Series :=
  option_map snd (find (fun p => String.eqb (fst p) c) (cols d)).

(** [df[c] = s]: overwrite the column labelled [c] or add it last. *)
Definition setitem (d : DataFrame) (c : string) (s : Series) : DataFrame :=
  if PyStr.mem c (columns d)
  then mkDF (nrows d)
            (map (fun p => if String.eqb (fst p) c then (c, s) else p) (cols d))
  else mkDF (nrows d) (cols d ++ [(c, s)]).

(** [df.columns = [f(col) for col in df.columns]] *)
Definition relabel (f : string -> string) (d : DataFrame) : DataFrame :=
  mkDF (nrows d) (map (fun p => (f (fst p), snd p)) (cols d)).

(** The cell of column [c] in row [r]. *)
Definition cell (d : DataFrame) (c : string) (r : nat) : option Cell :=
  match getitem d c with
  | Some s => nth_error (data s) r
  | None => None
  end.

(** *** Missing values *)

Definition fill_cell (v : Cell) (c : Cell) : Cell := if isna c then v else c.

(** [s.fillna(v)] *)
Definition series_fillna (v : Cell) (s : Series) : Series :=
  if isna v then s else mkSeries (map (fill_cell v) (data s)) (cats s).

(** [df.fillna(v)] *)
Definition fillna (v : Cell) (d : DataFrame) : DataFrame :=
  mkDF (nrows d) (map (fun p => (fst p, series_fillna v (snd p))) (cols d)).

Fixpoint ffill_cells (last : Cell) (l : list Cell) : list Cell :=
  match l with
  | [] => []
  | c :: r => let c' := fill_cell last c in c' :: ffill_cells c' r
  end.

(** [df.fillna(method='ffill')] *)
Definition ffill (d : DataFrame) : DataFrame :=
  mkDF (nrows d)
       (map (fun p => (fst p, mkSeries (ffill_cells NaN (data (snd p))) (cats (snd p))))
            (cols d)).

(** [df.fillna(method='bfill')] *)
Definition bfill (d : DataFrame) : DataFrame :=
  mkDF (nrows d)
       (map (fun p => (fst p,
                       mkSeries (rev (ffill_cells NaN (rev (data (snd p))))) (cats (snd p))))
            (cols d)).

(** A column that [select_dtypes(include=[np.number])] keeps. *)
Definition is_numeric (s : Series) : bool :=
  match cats s with
  | Some _ => false
  | None =>
      forallb (fun c => match c with CInt _ | CFloat _ | NaN => true | _ => false end)
              (data s)
  end.

Definition numeric_columns (d : DataFrame) : list string :=
  map fst (List.filter (fun p => is_numeric (snd p)) (cols d)).

(** [len(s.dropna())] *)
Definition count_notna (s : Series) : nat :=
  length (List.filter (fun c => negb (isna c)) (data s)).

Fixpoint distinct (l : list Cell) : list Cell :=
  match l with
  | [] => []
  | c :: r => c :: List.filter (fun x => negb (cell_eqb c x)) (distinct r)
  end.

(** [s.nunique()] *)
Definition nunique (s : Series) : nat :=
  length (distinct (List.filter (fun c => negb (isna c)) (data s))).

(** *** Duplicated rows *)

Definition row_at (cs : list (list Cell)) (i : nat) : list Cell :=
  map (fun l => nth i l NaN) cs.

Fixpoint row_eqb (a b : list Cell) : bool :=
  match a, b with
  | [], [] => true
  | x :: a', y :: b' => cell_eqb x y && row_eqb a' b'
  | _, _ => false
  end.

(** [duplicated(keep='first')] over the rows [rows], given those seen. *)
Fixpoint duplicated_from (seen rows : list (list Cell)) : list bool :=
  match rows with
  | [] => []
  | r :: rest =>
      let dup := existsb (row_eqb r) seen in
      dup :: duplicated_from (if dup then seen else r :: seen) rest
  end.

(** The columns duplicates are judged on: all of them, or the [subset]. *)
Definition key_columns (subset : option (list string)) (d : DataFrame)
  : list (list Cell) :=
  match subset with
  | None => map (fun p => data (snd p)) (cols d)
  | Some names =>
      map (fun p => data (snd p))
          (List.filter (fun p => PyStr.mem (fst p) names) (cols d))
  end.

(** [df.duplicated(subset=subset, keep='first')] *)
Definition duplicated (subset : option (list string)) (d : DataFrame) : list bool :=
  duplicated_from [] (map (row_at (key_columns subset d)) (seq 0 (nrows d))).

Fixpoint select {A : Type} (mask : list bool) (l : list A) : list A :=
  match mask, l with
  | m :: mask', x :: l' => if m then x :: select mask' l' else select mask' l'
  | _, _ => []
  end.

(** [df[mask]] *)
Definition filter_rows (mask : list bool) (d : DataFrame) : DataFrame :=
  mkDF (length (List.filter (fun b => b) mask))
       (map (fun p => (fst p, mkSeries (select mask (data (snd p))) (cats (snd p))))
            (cols d)).

(** [df.drop_duplicates(subset=subset)] *)
Definition drop_duplicates (subset : option (list string)) (d : DataFrame)
  : DataFrame :=
  filter_rows (map negb (duplicated subset d)) d.

(** *** Renaming and concatenation *)

(** [d.get(k, k)] on a dict kept as an association list. *)
Definition dict_get_default (m : list (string * string)) (k : string) : string :=
  match find (fun p => String.eqb (fst p) k) m with
  | Some p => snd p
  | None => k
  end.

(** [df.rename(columns=m)] *)
Definition rename (m : list (string * string)) (d : DataFrame) : DataFrame :=
  relabel (dict_get_default m) d.

Definition add_label (acc : list string) (c : string) : list string :=
  if PyStr.mem c acc then acc else acc ++ [c].

(** The labels of all the tables, each once, in the order first seen. *)
Definition union_columns (dfs : list DataFrame) : list string :=
  fold_left (fun acc d => fold_left add_label (columns d) acc) dfs [].

(** The cells a table contributes to column [c] of a concatenation. *)
Definition column_or_nan (c : string) (d : DataFrame) : list Cell :=
  match getitem d c with
  | Some s => data s
  | None => repeat NaN (nrows d)
  end.

(** [pd.concat(dfs, ignore_index=True)] for tables whose labels are
    distinct ([wf_df]); a repeated label of a table is looked up at its
    first column only. *)
Definition concat (dfs : list DataFrame) : Result DataFrame :=
  match dfs with
  | [] => Raise (ValueError "No objects to concatenate")
  | _ =>
      Ok (mkDF (list_sum (map nrows dfs))
               (map (fun c => (c, plain (flat_map (column_or_nan c) dfs)))
                    (union_columns dfs)))
  end.

(** *** Binning on given edges *)

Definition Qlt_bool (x y : Q) : bool := negb (Qle_bool y x).

Fixpoint non_decreasing (l : list Q) : bool :=
  match l with
  | x :: ((y :: _) as r) => Qle_bool x y && non_decreasing r
  | _ => true
  end.

Fixpoint has_repeat (l : list Q) : bool :=
  match l with
  | [] => false
  | x :: r => existsb (Qeq_bool x) r || has_repeat r
  end.

Fixpoint has_repeat_str (l : list string) : bool :=
  match l with
  | [] => false
  | x :: r => PyStr.mem x r || has_repeat_str r
  end.

(** [bins.searchsorted(x, side)], with [side='left'] when [right]. *)
Definition searchsorted (bins : list Q) (right : bool) (x : Q) : nat :=
  length (List.filter (fun b => if right then Qlt_bool b x else Qle_bool b x) bins).

(** The intervals between consecutive edges. *)
Fixpoint intervals (right : bool) (bins : list Q) : list Cell :=
  match bins with
  | lo :: ((hi :: _) as r) => CInterval lo hi right :: intervals right r
  | _ => []
  end.

(** With [include_lowest] and right-closed bins the first interval is
    widened to the left by the display precision (three digits). *)
Definition widen_first (right : bool) (l : list Cell) : list Cell :=
  match l with
  | CInterval lo hi r :: rest =>
      if right then CInterval (lo - (1 # 1000))%Q hi r :: rest else l
  | _ => l
  end.

Definition bin_code (bins : list Q) (right : bool) (x : Q) : option nat :=
  let id := match bins with
            | b0 :: _ => if Qeq_bool x b0 then 1 else searchsorted bins right x
            | [] => searchsorted bins right x
            end in
  if (id =? 0)%nat || (id =? length bins)%nat then None else Some (id - 1).

(** [pd.cut(x, bins=edges, labels=labels, include_lowest=True, right=right)]
    for a list of edges: the result is categorical, with one category per
    pair of consecutive edges. *)
Definition cut (x : list (option Q)) (bins : list Q)
           (labels : option (list string)) (right : bool) : Result Series :=
  if negb (non_decreasing bins) then
    Raise (ValueError "bins must increase monotonically.")
  else if has_repeat bins && negb (length bins =? 2)%nat then
    Raise (ValueError "Bin edges must be unique")
  else
    let categories :=
      match labels with
      | None => Some (widen_first right (intervals right bins))
      | Some ls =>
          if negb (length ls =? length bins - 1)%nat then None
          else if has_repeat_str ls then None
          else Some (map CText ls)
      end in
    match categories with
    | None =>
        Raise (ValueError
                 (match labels with
                  | Some ls =>
                      if negb (length ls =? length bins - 1)%nat
                      then "Bin labels must be one fewer than the number of bin edges"
                      else "labels must be unique if ordered=True; pass ordered=False for duplicate labels"
                  | None => ""
                  end))
    | Some cs =>
        Ok (mkSeries
              (map (fun v =>
                      match v with
                      | Some q =>
                          match bin_code bins right q with
                          | Some k => nth k cs NaN
                          | None => NaN
                          end
                      | None => NaN
                      end) x)
              (Some cs))
    end.

End Pd.

(** ** Programs with state and exceptions

    [Prog S A] is a computation over a state [S] that returns an [A] or
    raises; the state at the time of a raise is kept. *)

Definition Prog (S A : Type) : Type := S -> Result A * S.

Definition prog_ret {S A : Type} (a : A) : Prog S A := fun s => (Ok a, s).

Definition prog_bind {S A B : Type} (m : Prog S A) (k : A -> Prog S B) : Prog S B :=
  fun s => match m s with
           | (Ok a, s') => k a s'
           | (Raise e, s') => (Raise e, s')
           end.

Definition prog_raise {S A : Type} (e : exn) : Prog S A := fun s => (Raise e, s).

Definition prog_get {S : Type} : Prog S S := fun s => (Ok s, s).

Definition prog_modify {S : Type} (f : S -> S) : Prog S unit := fun s => (Ok tt, f s).

(** [try: m except E as e: h(e)] for the exceptions [E] selected by [sel]. *)
Definition prog_try {S A : Type} (sel : exn -> bool) (m : Prog S A)
           (h : exn -> Prog S A) : Prog S A :=
  fun s => match m s with
           | (Raise e, s') => if sel e then h e s' else (Raise e, s')
           | r => r
           end.

(** A value or an exception of a library call, inside a program. *)
Definition prog_lift {S A : Type} (r : Result A) : Prog S A := fun s => (r, s).

Definition any_exception (e : exn) : bool := true.

Definition is_re_error (e : exn) : bool :=
  match e with ReError _ => true | _ => false end.

Definition is_value_error (e : exn) : bool :=
  match e with ValueError _ => true | _ => false end.

Declare Scope prog_scope.
Delimit Scope prog_scope with prog.
Notation "x <- m ;; k" := (prog_bind m (fun x => k))
  (at level 100, m at next level, right associativity) : prog_scope.
Notation "m ;;; k" := (prog_bind m (fun _ => k))
  (at level 100, right associativity) : prog_scope.

(** ** Values the program exchanges with its callers *)

(** A Streamlit [UploadedFile]: the reader always starts at offset 0. *)
Record UploadedFile : Type := mkFile {
  file_name : string;
  file_type : string;
  file_size : N;
  file_bytes : string
}.

(** The keyword arguments [read_file] forwards to the pandas readers. *)
Record ReadKwargs : Type := mkKw {
  kw_encoding : option string;
  kw_sep : option string;
  kw_delimiter : option string
}.

(** A parsed JSON document, as far as [read_file] looks into it: a list,
    a dictionary whose values are lists or not, or any other value.  [V] is
    the type of the JSON values below that level. *)
Inductive Json (V : Type) : Type :=
| JList (items : list V)
| JDict (fields : list (string * (list V + V)))
| JScalar (v : V).
Arguments JList {V} items.
Arguments JDict {V} fields.
Arguments JScalar {V} v.

(** The options dictionary built by [render_merge_options]; the key
    [matching_threshold] may be absent. *)
Record MergeOptions : Type := mkOptions {
  merge_method : string;
  join_key : option string;
  join_type : string;
  matching_columns : bool;
  output_filename : string;
  ignore_case : bool;
  handle_duplicates : bool;
  fill_missing : bool;
  fill_method : option string;
  fill_value : option string;
  matching_threshold : option Q
}.

Definition set_join_key (k : option string) (o : MergeOptions) : MergeOptions :=
  mkOptions (merge_method o) k (join_type o) (matching_columns o)
            (output_filename o) (ignore_case o) (handle_duplicates o)
            (fill_missing o) (fill_method o) (fill_value o) (matching_threshold o).

(** What the program shows through Streamlit, in order. *)
Inductive UiEvent : Type :=
| StSpinner (msg : string)
| StProgress (done total : nat)
| StProgressEmpty
| StWrite (msg : string)
| StInfo (msg : string)
| StWarning (msg : string)
| StSuccess (msg : string)
| StSubheader (msg : string)
| StExpander (title : string).

(** The state [process_files] runs in: the caller's options dictionary
    (shared, so that assignments to it are seen by the caller), the
    Streamlit output and the session state. *)
Record World : Type := mkWorld {
  w_options : MergeOptions;
  w_ui : list UiEvent;
  w_merged_df : option Pd.DataFrame;
  w_last_merge_time : option string
}.

Definition emit (e : UiEvent) : Prog World unit :=
  prog_modify (fun w => mkWorld (w_options w) (w_ui w ++ [e])
                                (w_merged_df w) (w_last_merge_time w)).

Definition options : Prog World MergeOptions :=
  fun w => (Ok (w_options w), w).

Definition assign_join_key (k : option string) : Prog World unit :=
  prog_modify (fun w => mkWorld (set_join_key k (w_options w)) (w_ui w)
                                (w_merged_df w) (w_last_merge_time w)).

Definition save_session (d : Pd.DataFrame) (t : string) : Prog World unit :=
  prog_modify (fun w => mkWorld (w_options w) (w_ui w) (Some d) (Some t)).

(** The controller's configuration ([FileMerger.__init__]). *)
Record FileMerger : Type := mkMerger {
  max_file_size_mb : N;
  export_formats : list string
}.

Definition supported_formats : list (string * string) :=
  [("csv", "CSV File"); ("xlsx", "Excel File (XLSX)");
   ("xls", "Excel File (XLS)"); ("json", "JSON File")].

(** Truth value of an optional string: [None] and [''] are false. *)
Definition truthy (s : option string) : bool :=
  match s with
  | Some (String _ _) => true
  | _ => false
  end.

(** [str(x)] for an optional string. *)
Definition str_opt (s : option string) : string :=
  match s with Some x => x | None => "None" end.

(** [x == s] for an optional string [x]. *)
Definition is_str (x : option string) (s : string) : bool :=
  match x with Some v => String.eqb v s | None => false end.

(** *** File names *)

Fixpoint rfind_dot (s : string) : option nat :=
  match s with
  | EmptyString => None
  | String a r =>
      match rfind_dot r with
      | Some i => Some (S i)
      | None => if Ascii.eqb a "." then Some 0%nat else None
      end
  end.

(** The last component of a path. *)
Definition path_name (p : string) : string :=
  List.last (List.filter (fun c => negb (String.eqb c EmptyString)) (PyStr.split "/" p))
            EmptyString.

(** [Path(p).suffix] *)
Definition path_suffix (p : string) : string :=
  let n := path_name p in
  match rfind_dot n with
  | Some i =>
      if (0 <? i)%nat && (i <? String.length n - 1)%nat
      then String.substring i (String.length n - i) n
      else EmptyString
  | None => EmptyString
  end.

(** [Path(name).suffix.lower().lstrip('.')] *)
Definition file_extension (name : string) : string :=
  PyStr.lstrip_dot (PyStr.lower (path_suffix name)).

(** *** Delimiter detection ([read_file], CSV branch) *)

Definition potential_delimiters : list ascii :=
  [","%char; ";"%char; ascii_of_nat 9; "|"%char].

(** [max(l, key=key)]: the first element whose key is maximal. *)
Fixpoint max_by {A : Type} (key : A -> nat) (best : A) (l : list A) : A :=
  match l with
  | [] => best
  | x :: r => max_by key (if (key best <? key x)%nat then x else best) r
  end.

Definition likely_delimiter (sample : string) : ascii :=
  max_by (fun d => PyStr.count d sample) ","%char
         [";"%char; ascii_of_nat 9; "|"%char].

(** The keyword arguments after delimiter detection on the decoded sample. *)
Definition sniff_delimiter (sample : string) (kw : ReadKwargs) : ReadKwargs :=
  let likely := likely_delimiter sample in
  if (5 <? PyStr.count likely sample)%nat
  then mkKw (kw_encoding kw) (Some (String likely EmptyString)) (kw_delimiter kw)
  else kw.

(** The delimiter [pd.read_csv] splits on, given its keyword arguments:
    [sep], else its alias [delimiter], else the comma. *)
Definition csv_delimiter (kw : ReadKwargs) : string :=
  match kw_sep kw, kw_delimiter kw with
  | Some d, _ => d
  | None, Some d => d
  | None, None => ","
  end.

Local Open Scope prog_scope.

Section DataFusion.

Set Default Proof Using "Type".

(** *** What the program calls and does not define *)

(** [bytes.decode(encoding)] *)
Variable decode : string -> string -> Result string.
(** [chardet.detect(sample)]: the encoding and the confidence. *)
Variable chardet_detect : string -> Result (option string * Q).
(** The pandas readers, on the whole buffer. *)
Variable pd_read_csv : UploadedFile -> ReadKwargs -> Result Pd.DataFrame.
Variable pd_read_excel : UploadedFile -> ReadKwargs -> Result Pd.DataFrame.
Variable pd_read_json : UploadedFile -> ReadKwargs -> Result Pd.DataFrame.
(** [json.load], [pd.json_normalize] and [pd.DataFrame([content])]. *)
Variable JsonValue : Type.
Variable json_load : string -> Result (Json JsonValue).
Variable pd_json_normalize : list JsonValue -> Result Pd.DataFrame.
Variable pd_frame_of_record :
  list (string * (list JsonValue + JsonValue)) -> Result Pd.DataFrame.
(** [SequenceMatcher(None, a, b).ratio()] *)
Variable ratio : string -> string -> Q.
(** [s.mean()], [s.median()] and [s.mode()]. *)
Variable series_mean : Pd.Series -> Pd.Cell.
Variable series_median : Pd.Series -> Pd.Cell.
Variable series_mode : Pd.Series -> list Pd.Cell.
(** [pd.merge(left, right, on=key, how=how, suffixes=(None, suffix))] *)
Variable pd_merge :
  Pd.DataFrame -> Pd.DataFrame -> option string -> string -> string ->
  Result Pd.DataFrame.
(** The order in which a Python set of strings is iterated. *)
Variable set_order : list string -> list string.
(** [datetime.now().strftime("%Y-%m-%d %H:%M:%S")] *)
Variable now : string.

(** *** Reader ([src/utils/file_handlers.py]) *)

Definition detect_encoding (f : UploadedFile) : string :=
  match chardet_detect (PyStr.take (100 * 100) (file_bytes f)) with
  | Ok (Some enc, confidence) =>
      if Pd.Qlt_bool confidence (7 # 10) then "utf-8" else enc
  | Ok (None, _) => "utf-8"
  | Raise _ => "utf-8"
  end.

(** The keyword arguments [read_file] hands to [pd.read_csv]. *)
Definition csv_kwargs (f : UploadedFile) (kw : ReadKwargs) : Result ReadKwargs :=
  match kw_delimiter kw, kw_sep kw with
  | None, None =>
      match decode (match kw_encoding kw with Some e => e | None => "utf-8" end)
                   (PyStr.take 4096 (file_bytes f)) with
      | Ok sample => Ok (sniff_delimiter sample kw)
      | Raise e => Raise e
      end
  | _, _ => Ok kw
  end.

Definition result_map {A B : Type} (g : A -> B) (r : Result A) : Result B :=
  match r with Ok a => Ok (g a) | Raise e => Raise e end.

Fixpoint first_list {V : Type} (fields : list (string * (list V + V)))
  : option (list V) :=
  match fields with
  | [] => None
  | (_, inl items) :: _ => Some items
  | (_, inr _) :: r => first_list r
  end.

Definition read_json (f : UploadedFile) (kw : ReadKwargs)
  : Result (option Pd.DataFrame) :=
  match pd_read_json f kw with
  | Ok d => Ok (Some d)
  | Raise (ValueError _) =>
      match json_load (file_bytes f) with
      | Raise e => Raise e
      | Ok (JList items) => result_map Some (pd_json_normalize items)
      | Ok (JDict fields) =>
          match first_list fields with
          | Some items => result_map Some (pd_json_normalize items)
          | None => result_map Some (pd_frame_of_record fields)
          end
      | Ok (JScalar _) => Raise (ValueError "Unsupported JSON structure")
      end
  | Raise e => Raise e
  end.

Definition read_file (f : UploadedFile) (ext : string) (kw : ReadKwargs)
  : Result (option Pd.DataFrame) :=
  if String.eqb ext "csv" then
    match csv_kwargs f kw with
    | Ok kw' => result_map Some (pd_read_csv f kw')
    | Raise e => Raise e
    end
  else if PyStr.mem ext ["xlsx"; "xls"] then
    result_map Some (pd_read_excel f kw)
  else if String.eqb ext "json" then read_json f kw
  else Ok None.

(** *** Column reconciler ([suggest_column_mapping]) *)

Definition similarity (a b : string) : Q :=
  ratio (PyStr.lower a) (PyStr.lower b).

(** Insertion before the first element whose key is not larger: with
    [fold_right] this is [sorted(..., reverse=True)], equal keys keeping
    their order. *)
Fixpoint insert_desc (key : string -> Q) (x : string) (l : list string)
  : list string :=
  match l with
  | [] => [x]
  | y :: r => if Qle_bool (key y) (key x) then x :: l else y :: insert_desc key x r
  end.

Definition sorted_desc (key : string -> Q) (l : list string) : list string :=
  fold_right (insert_desc key) [] l.

(** [suggest_column_mapping(source, target_columns, threshold)] for a
    string [source]. *)
Definition suggest_column_mapping (source : string) (target_columns : list string)
           (threshold : Q) : list string :=
  sorted_desc (similarity source)
    (List.filter (fun target => Qle_bool threshold (similarity source target))
                 target_columns).

(** [d[k] = v] on a dict kept in insertion order. *)
Definition dict_set {V : Type} (m : list (string * V)) (k : string) (v : V)
  : list (string * V) :=
  if PyStr.mem k (map fst m)
  then map (fun p => if String.eqb (fst p) k then (k, v) else p) m
  else m ++ [(k, v)].

Definition best_match (threshold : Q) (src_col : string) (target_columns : list string)
  : option string :=
  fst (fold_left
         (fun st tgt_col =>
            let sim := similarity src_col tgt_col in
            if Pd.Qlt_bool (snd st) sim && Qle_bool threshold sim
            then (Some tgt_col, sim) else st)
         target_columns (None, 0%Q)).

(** [suggest_column_mapping(source, target_columns, threshold)] for a
    list [source]. *)
Definition suggest_column_mappings (source target_columns : list string)
           (threshold : Q) : list (string * string) :=
  fold_left
    (fun mapping src_col =>
       match best_match threshold src_col target_columns with
       | Some (String _ _ as m) => dict_set mapping src_col m
       | _ => mapping
       end)
    source [].

(** *** Loading ([FileMerger.load_data]) *)

Definition load_data (m : FileMerger) (f : UploadedFile)
  : option Pd.DataFrame * option string :=
  if (max_file_size_mb m * 1024 * 1024 <? file_size f)%N then
    (None, Some ("File " +:+ file_name f +:+ " exceeds the maximum allowed size of "
                 +:+ pretty (max_file_size_mb m) +:+ "MB."))
  else
    let ext := file_extension (file_name f) in
    if negb (PyStr.mem ext (map fst supported_formats)) then
      (None, Some ("Unsupported file format: " +:+ ext +:+ ". Supported formats: "
                   +:+ PyStr.join ", " (map fst supported_formats)))
    else
      let encoding := if String.eqb ext "csv" then Some (detect_encoding f) else None in
      match read_file f ext (mkKw encoding None None) with
      | Ok (Some df) =>
          if Pd.empty df
          then (None, Some ("File " +:+ file_name f +:+ " is empty or could not be read."))
          else (Some df, None)
      | Ok None =>
          (None, Some ("File " +:+ file_name f +:+ " is empty or could not be read."))
      | Raise e =>
          (None, Some ("Error loading file " +:+ file_name f +:+ ": " +:+ exn_msg e))
      end.

(** *** Merging ([FileMerger.process_files]) *)

(** The locals of the loading loop. *)
Record Loaded : Type := mkLoaded {
  l_dfs : list Pd.DataFrame;
  l_file_names : list string;
  l_error_messages : list string;
  l_all_columns : list string
}.

Definition is_join (o : MergeOptions) : bool :=
  PyStr.startswith "Join" (merge_method o).

(** [options["join_key"] in df.columns] *)
Definition key_in_columns (o : MergeOptions) (df : Pd.DataFrame) : bool :=
  match join_key o with
  | Some k => PyStr.mem k (Pd.columns df)
  | None => false
  end.

Definition quoted (s : string) : string := "'" +:+ s +:+ "'".

Definition missing_key_message (name key : string) : string :=
  "File '" +:+ name +:+ "' is missing the key column '" +:+ key +:+ "'".

Definition similar_columns_message (shown : list string) : string :=
  "  - Similar columns found: " +:+ PyStr.join ", " (map quoted shown).

(** The diagnostics for a table that lacks the key: the error and, when
    the reconciler finds similar labels, the first three of them. *)
Definition missing_key_diagnostics (name key : string) (cols : list string)
  : list string :=
  missing_key_message name key ::
  match suggest_column_mapping key cols (8 # 10) with
  | [] => []
  | similar_cols => [similar_columns_message (firstn 3 similar_cols)]
  end.

(** One turn of the loop over the uploaded files. *)
Definition load_step (m : FileMerger) (total i : nat) (f : UploadedFile)
           (acc : Loaded) : Prog World Loaded :=
  emit (StProgress (i + 1) total) ;;;
  match load_data m f with
  | (_, Some (String _ _ as error)) =>
      prog_ret (mkLoaded (l_dfs acc) (l_file_names acc)
                         (l_error_messages acc ++ [error]) (l_all_columns acc))
  | (Some df, _) =>
      if negb (Pd.empty df) then
        emit (StWrite ("Loaded '" +:+ file_name f +:+ "' - " +:+ pretty (Pd.nrows df)
                       +:+ " rows, " +:+ pretty (Pd.ncols df) +:+ " columns")) ;;;
        o <- options ;;
        df <- (if ignore_case o then
                 (if truthy (join_key o)
                  then assign_join_key (option_map PyStr.lower (join_key o))
                  else prog_ret tt) ;;;
                 prog_ret (Pd.relabel PyStr.lower df)
               else prog_ret df) ;;
        o <- options ;;
        if is_join o && negb (key_in_columns o df) then
          prog_ret (mkLoaded (l_dfs acc) (l_file_names acc)
                             (l_error_messages acc ++
                              missing_key_diagnostics (file_name f) (str_opt (join_key o))
                                                      (Pd.columns df))
                             (l_all_columns acc))
        else
          prog_ret (mkLoaded (l_dfs acc ++ [df]) (l_file_names acc ++ [file_name f])
                             (l_error_messages acc)
                             (fold_left Pd.add_label (Pd.columns df) (l_all_columns acc)))
      else prog_ret acc
  | (None, _) => prog_ret acc
  end.

Fixpoint load_loop (m : FileMerger) (total i : nat) (files : list UploadedFile)
         (acc : Loaded) : Prog World Loaded :=
  match files with
  | [] => prog_ret acc
  | f :: rest =>
      acc' <- load_step m total i f acc ;;
      load_loop m total (S i) rest acc'
  end.

(** [df[col] = g(df[col])] *)
Definition update_column (g : Pd.Series -> Pd.Series) (df : Pd.DataFrame)
           (col : string) : Pd.DataFrame :=
  match Pd.getitem df col with
  | Some s => Pd.setitem df col (g s)
  | None => df
  end.

(** [df.fillna(value)] for the custom value: a number when the text
    reads as one, else the text itself. *)
Definition fill_custom (v : string) (df : Pd.DataFrame) : Pd.DataFrame :=
  if PyStr.isdigit (PyStr.remove_first_dot v) then
    match PyStr.float v with
    | Some q => Pd.fillna (Pd.CFloat q) df
    | None => Pd.fillna (Pd.CText v) df
    end
  else Pd.fillna (Pd.CText v) df.

Definition first_mode (s : Pd.Series) : Pd.Cell :=
  match series_mode s with
  | v :: _ => v
  | [] => Pd.NaN
  end.

(** Filling of missing values, as selected by the options. *)
Definition fill_stage (o : MergeOptions) (df : Pd.DataFrame) : Result Pd.DataFrame :=
  let meth := fill_method o in
  if fill_missing o && negb (is_str meth "None (keep NaN)") then
    if is_str meth "Zero" then Ok (Pd.fillna (Pd.CInt 0) df)
    else if is_str meth "Mean" then
      Ok (fold_left (update_column (fun s => Pd.series_fillna (series_mean s) s))
                    (Pd.numeric_columns df) df)
    else if is_str meth "Median" then
      Ok (fold_left (update_column (fun s => Pd.series_fillna (series_median s) s))
                    (Pd.numeric_columns df) df)
    else if is_str meth "Mode" then
      Ok (fold_left (update_column (fun s => Pd.series_fillna (first_mode s) s))
                    (Pd.columns df) df)
    else if is_str meth "Forward fill" then Ok (Pd.ffill df)
    else if is_str meth "Backward fill" then Ok (Pd.bfill df)
    else if is_str meth "Custom value" then
      match fill_value o with
      | Some v => Ok (fill_custom v df)
      | None => Raise (ValueError "Must specify a fill 'value' or 'method'.")
      end
    else Ok df
  else Ok df.

(** Removal of duplicated rows, as selected by the options. *)
Definition duplicates_stage (o : MergeOptions) (name : string) (df : Pd.DataFrame)
  : Prog World Pd.DataFrame :=
  if handle_duplicates o then
    let original_rows := Pd.nrows df in
    let df' := if is_join o && key_in_columns o df
               then Pd.drop_duplicates (option_map (fun k => [k]) (join_key o)) df
               else Pd.drop_duplicates None df in
    let dropped_rows := (original_rows - Pd.nrows df')%nat in
    (if (0 <? dropped_rows)%nat
     then emit (StInfo ("Removed " +:+ pretty dropped_rows +:+ " duplicate rows from '"
                        +:+ name +:+ "'"))
     else prog_ret tt) ;;;
    prog_ret df'
  else prog_ret df.

Fixpoint clean_loop (o : MergeOptions) (dfs : list Pd.DataFrame) (names : list string)
  : Prog World (list Pd.DataFrame) :=
  match dfs with
  | [] => prog_ret []
  | df :: rest =>
      df1 <- prog_lift (fill_stage o df) ;;
      df2 <- duplicates_stage o (hd EmptyString names) df1 ;;
      rest' <- clean_loop o rest (tl names) ;;
      prog_ret (df2 :: rest')
  end.

Definition shape_message (d : Pd.DataFrame) : string :=
  "Result has " +:+ pretty (Pd.nrows d) +:+ " rows and " +:+ pretty (Pd.ncols d)
  +:+ " columns.".

(** The renaming of a later table's labels onto those of the first. *)
Definition rename_dict (first_columns columns : list string) (threshold : Q)
  : list (string * string) :=
  fold_left
    (fun d p => if String.eqb (fst p) (snd p) then d else dict_set d (snd p) (fst p))
    (suggest_column_mappings first_columns columns threshold) [].

Definition match_columns (o : MergeOptions) (first : Pd.DataFrame)
           (name : string) (df : Pd.DataFrame)
  : Pd.DataFrame * list (string * list (string * string)) :=
  let threshold := match matching_threshold o with
                   | Some t => (t / 100)%Q
                   | None => (8 # 10)%Q
                   end in
  match rename_dict (Pd.columns first) (Pd.columns df) threshold with
  | [] => (df, [])
  | d => (Pd.rename d df, [(name, d)])
  end.

Fixpoint show_mappings (l : list (string * list (string * string))) : Prog World unit :=
  match l with
  | [] => prog_ret tt
  | (file, mappings) :: rest =>
      emit (StWrite ("**" +:+ file +:+ "**:")) ;;;
      fold_right
        (fun p k => emit (StWrite ("  - '" +:+ fst p +:+ "' → '" +:+ snd p +:+ "'")) ;;; k)
        (prog_ret tt) mappings ;;;
      show_mappings rest
  end.

(** The sequence of joins onto the first table; [i] is the 1-based rank
    of the next table. *)
Fixpoint merge_loop (key : option string) (how : string) (i : nat)
         (merged_df : Pd.DataFrame) (rest : list Pd.DataFrame) : Result Pd.DataFrame :=
  match rest with
  | [] => Ok merged_df
  | df :: rest' =>
      match pd_merge merged_df df key how ("_" +:+ pretty i) with
      | Ok merged' => merge_loop key how (S i) merged' rest'
      | Raise e => Raise e
      end
  end.

(** The labels present in every table ([set.intersection]). *)
Definition common_columns (dfs : list Pd.DataFrame) : list string :=
  match dfs with
  | [] => []
  | d :: rest =>
      fold_left Pd.add_label
        (List.filter (fun c => forallb (fun d' => PyStr.mem c (Pd.columns d')) rest)
                     (Pd.columns d))
        []
  end.

(** A label whose values, missing ones aside, are distinct in each table. *)
Definition is_potential_key (dfs : list Pd.DataFrame) (col : string) : bool :=
  forallb (fun df => match Pd.getitem df col with
                     | Some s => (Pd.nunique s =? Pd.count_notna s)%nat
                     | None => false
                     end) dfs.

Definition join_merge (o : MergeOptions) (dfs : list Pd.DataFrame)
           (names : list string) : Prog World Pd.DataFrame :=
  match dfs with
  | [] => prog_raise (OtherError "list index out of range")
  | first :: rest =>
      rest' <- (if matching_columns o then
                  emit (StInfo "Applying column name matching...") ;;;
                  let matched := map (fun p => match_columns o first (fst p) (snd p))
                                     (combine (tl names) rest) in
                  let column_mappings := flat_map snd matched in
                  (match column_mappings with
                   | [] => prog_ret tt
                   | _ => emit (StExpander "Column Mappings Applied") ;;;
                          show_mappings column_mappings
                   end) ;;;
                  prog_ret (map fst matched)
                else prog_ret rest) ;;
      merged_df <- prog_lift (merge_loop (join_key o) (join_type o) 1 first rest') ;;
      emit (StSuccess ("Successfully merged " +:+ pretty (length dfs)
                       +:+ " files horizontally on key '" +:+ str_opt (join_key o)
                       +:+ "'. " +:+ shape_message merged_df)) ;;;
      prog_ret merged_df
  end.

Definition smart_merge (dfs : list Pd.DataFrame) : Prog World Pd.DataFrame :=
  emit (StInfo "Analyzing files for smart merge...") ;;;
  match dfs with
  | [only] =>
      emit (StSuccess "Only one file provided. No merging needed.") ;;;
      prog_ret only
  | _ =>
      match common_columns dfs with
      | [] =>
          merged_df <- prog_lift (Pd.concat dfs) ;;
          emit (StWarning "No common columns found across files. Performing vertical append instead.") ;;;
          prog_ret merged_df
      | common_cols =>
          match List.filter (is_potential_key dfs) (set_order common_cols) with
          | key_col :: _ =>
              emit (StInfo ("Automatically selected '" +:+ key_col
                            +:+ "' as the key column for joining.")) ;;;
              merged_df <- prog_lift (merge_loop (Some key_col) "outer" 1
                                                 (hd (Pd.mkDF 0 []) dfs) (tl dfs)) ;;
              emit (StSuccess ("Successfully merged " +:+ pretty (length dfs)
                               +:+ " files using smart join on '" +:+ key_col
                               +:+ "'. " +:+ shape_message merged_df)) ;;;
              prog_ret merged_df
          | [] =>
              merged_df <- prog_lift (Pd.concat dfs) ;;
              emit (StWarning "No suitable key columns found. Performing vertical append instead.") ;;;
              prog_ret merged_df
          end
      end
  end.

(** The merge proper, on the cleaned tables. *)
Definition merge_tables (o : MergeOptions) (dfs : list Pd.DataFrame)
           (names : list string) : Prog World Pd.DataFrame :=
  emit (StSubheader "Merging Files") ;;;
  if String.eqb (merge_method o) "Append (stack vertically)" then
    merged_df <- prog_lift (Pd.concat dfs) ;;
    emit (StSuccess ("Successfully merged " +:+ pretty (length dfs)
                     +:+ " files vertically. " +:+ shape_message merged_df)) ;;;
    prog_ret merged_df
  else if String.eqb (merge_method o) "Join on key column (merge horizontally)" then
    join_merge o dfs names
  else if String.eqb (merge_method o) "Smart merge (auto-detect)" then
    smart_merge dfs
  else
    prog_raise (OtherError "local variable 'merged_df' referenced before assignment").

(** The cleaning and the merge of the loaded tables, the body of
    [if len(dfs) > 0]. *)
Definition merge_phase (dfs : list Pd.DataFrame) (file_names : list string)
  : Prog World (option Pd.DataFrame * option (list string)) :=
  o <- options ;;
  dfs <- clean_loop o dfs file_names ;;
  merged_df <- merge_tables o dfs file_names ;;
  save_session merged_df now ;;;
  prog_ret (Some merged_df, None).

(** [process_files(uploaded_files, options)]: the merged table or [None],
    and the error messages or [None]. *)
Definition process_files (m : FileMerger) (uploaded_files : list UploadedFile)
  : Prog World (option Pd.DataFrame * option (list string)) :=
  match uploaded_files with
  | [] => prog_ret (None, Some ["No files uploaded"])
  | _ =>
      o <- options ;;
      if is_join o && negb (truthy (join_key o)) then
        prog_ret (None, Some ["Please specify a key column for joining"])
      else
        emit (StSpinner "Loading and processing files...") ;;;
        acc <- load_loop m (length uploaded_files) 0 uploaded_files
                         (mkLoaded [] [] [] []) ;;
        emit StProgressEmpty ;;;
        match l_error_messages acc with
        | _ :: _ => prog_ret (None, Some (l_error_messages acc))
        | [] =>
            match l_dfs acc with
            | _ :: _ => merge_phase (l_dfs acc) (l_file_names acc)
            | [] => prog_ret (None, Some ["No valid dataframes to merge"])
            end
        end
  end.

(** *** Tables as objects

    The transformers and the cleaning stage receive a table by reference.
    [Heap] holds the tables by address; [df.copy()] and every pandas call
    that returns a new table allocate, [result[c] = s] and
    [result.columns = ...] update in place. *)

Abbreviation Heap := (list Pd.DataFrame) (only parsing).
Abbreviation ref := nat (only parsing).

Definition df_read (r : ref) : Prog Heap Pd.DataFrame :=
  fun h => match h !! r with
           | Some d => (Ok d, h)
           | None => (Raise (OtherError "no such object"), h)
           end.

(** A new table object holding [d]. *)
Definition df_new (d : Pd.DataFrame) : Prog Heap ref :=
  fun h => (Ok (length h), (h ++ [d])%list).

(** [df.copy()] *)
Definition df_copy (r : ref) : Prog Heap ref :=
  d <- df_read r ;; df_new d.

(** In-place update of the table at [r]. *)
Definition df_update (r : ref) (g : Pd.DataFrame -> Pd.DataFrame) : Prog Heap unit :=
  fun h => match h !! r with
           | Some d => (Ok tt, <[r := g d]> h)
           | None => (Raise (OtherError "no such object"), h)
           end.

(** [result[c]] *)
Definition df_getitem (r : ref) (c : string) : Prog Heap Pd.Series :=
  d <- df_read r ;;
  match Pd.getitem d c with
  | Some s => prog_ret s
  | None => prog_raise (OtherError (quoted c))
  end.

(** [result[c] = s] *)
Definition df_setitem (r : ref) (c : string) (s : Pd.Series) : Prog Heap unit :=
  df_update r (fun d => Pd.setitem d c s).

(** [c in result.columns], for a parameter that may be [None]. *)
Definition has_column (d : Pd.DataFrame) (c : option string) : bool :=
  match c with
  | Some c => PyStr.mem c (Pd.columns d)
  | None => false
  end.

Fixpoint for_each {S A : Type} (l : list A) (body : A -> Prog S unit) : Prog S unit :=
  match l with
  | [] => prog_ret tt
  | x :: r => body x ;;; for_each r body
  end.

(** *** Cleaning stage ([clean_dataframe]) *)

(** The cleaning options; [None] is an absent key. *)
Record CleanOptions : Type := mkClean {
  co_ignore_case : option bool;
  co_fill_method : option string;
  co_fill_value : option string;
  co_handle_duplicates : option bool;
  co_join_key : option string
}.

Definition get_default {A : Type} (o : option A) (d : A) : A :=
  match o with Some a => a | None => d end.

(** [result[col] = result[col].fillna(stat(result[col]))] *)
Definition fill_column_with (stat : Pd.Series -> Pd.Cell) (result : ref) (col : string)
  : Prog Heap unit :=
  s <- df_getitem result col ;;
  df_setitem result col (Pd.series_fillna (stat s) s).

Definition clean_dataframe (df : ref) (opts : option CleanOptions) : Prog Heap ref :=
  let opts := get_default opts (mkClean None None None None None) in
  let meth := co_fill_method opts in
  result <- df_copy df ;;
  (if get_default (co_ignore_case opts) true
   then df_update result (Pd.relabel PyStr.lower)
   else prog_ret tt) ;;;
  result <-
    (if truthy meth && negb (is_str meth "None (keep NaN)") then
       d <- df_read result ;;
       if is_str meth "Zero" then df_new (Pd.fillna (Pd.CInt 0) d)
       else if is_str meth "Mean" then
         for_each (Pd.numeric_columns d) (fill_column_with series_mean result) ;;;
         prog_ret result
       else if is_str meth "Median" then
         for_each (Pd.numeric_columns d) (fill_column_with series_median result) ;;;
         prog_ret result
       else if is_str meth "Mode" then
         for_each (Pd.columns d) (fill_column_with first_mode result) ;;;
         prog_ret result
       else if is_str meth "Forward fill" then df_new (Pd.ffill d)
       else if is_str meth "Backward fill" then df_new (Pd.bfill d)
       else if is_str meth "Custom value" then
         match co_fill_value opts with
         | Some v => df_new (fill_custom v d)
         | None => prog_ret result
         end
       else prog_ret result
     else prog_ret result) ;;
  if get_default (co_handle_duplicates opts) false then
    d <- df_read result ;;
    if truthy (co_join_key opts) && has_column d (co_join_key opts)
    then df_new (Pd.drop_duplicates (option_map (fun k => [k]) (co_join_key opts)) d)
    else df_new (Pd.drop_duplicates None d)
  else prog_ret result.

(** *** Numeric columns *)

(** [pd.to_numeric] on a text cell (a number or nothing). *)
Variable text_to_number : string -> option Q.
(** [s.std()] *)
Variable series_std : list (option Q) -> option Q.
(** [np.finfo(float).eps] *)
Variable float_eps : Q.
(** An element-wise numpy function, by name, and [x ** y]. *)
Variable np_apply : string -> Q -> Pd.Cell.
Variable np_power : option Q -> option Q -> Pd.Cell.
(** A row-wise aggregate of a numeric table, by name. *)
Variable agg_row : string -> list (option Q) -> Pd.Cell.
(** [pd.cut(x, bins=n, ...)] and [pd.qcut(x, q=n, ..., duplicates='drop')]. *)
Variable pd_cut_width :
  list (option Q) -> Z -> option (list string) -> bool -> Result Pd.Series.
Variable pd_qcut : list (option Q) -> Z -> option (list string) -> Result Pd.Series.

Definition to_numeric_cell (c : Pd.Cell) : option Q :=
  match c with
  | Pd.CInt z => Some (inject_Z z)
  | Pd.CFloat q => Some q
  | Pd.CBool b => Some (if b then 1%Q else 0%Q)
  | Pd.CText s => text_to_number s
  | Pd.CTime t => Some (inject_Z t)
  | Pd.CInterval _ _ _ => None
  | Pd.NaN => None
  end.

(** [pd.to_numeric(s, errors='coerce')]: a number or missing, per row. *)
Definition to_numeric (s : Pd.Series) : list (option Q) :=
  map to_numeric_cell (Pd.data s).

Definition float_cell (v : option Q) : Pd.Cell :=
  match v with Some q => Pd.CFloat q | None => Pd.NaN end.

(** The float column of a list of numbers. *)
Definition float_series (l : list (option Q)) : Pd.Series :=
  Pd.plain (map float_cell l).

Definition is_none {A : Type} (o : option A) : bool :=
  match o with None => true | Some _ => false end.

Definition present (l : list (option Q)) : list Q :=
  flat_map (fun v => match v with Some q => [q] | None => [] end) l.

Definition Qmin' (a b : Q) : Q := if Qle_bool a b then a else b.
Definition Qmax' (a b : Q) : Q := if Qle_bool a b then b else a.

(** [s.min()], [s.max()] and [s.mean()], missing values skipped. *)
Definition series_min (l : list (option Q)) : option Q :=
  match present l with
  | [] => None
  | q :: r => Some (fold_left Qmin' r q)
  end.

Definition series_max (l : list (option Q)) : option Q :=
  match present l with
  | [] => None
  | q :: r => Some (fold_left Qmax' r q)
  end.

Definition numeric_mean (l : list (option Q)) : option Q :=
  match present l with
  | [] => None
  | q :: r => Some (fold_left Qplus r q / inject_Z (Z.of_nat (length (q :: r))))%Q
  end.

(** [pd.Series(v, index=numeric_data.index)] *)
Definition constant_series (v : Pd.Cell) (l : list (option Q)) : Pd.Series :=
  Pd.plain (map (fun _ => v) l).

Definition map_numeric (g : Q -> Q) (l : list (option Q)) : Pd.Series :=
  float_series (map (option_map g) l).

Record ScalingParams : Type := mkScaling {
  sc_column : option string;
  sc_method : option string;
  sc_min_value : option Q;
  sc_max_value : option Q;
  sc_create_new_column : option bool;
  sc_new_column_name : option string
}.

Definition column_not_found (what : string) (column : option string) : exn :=
  ValueError (what +:+ " '" +:+ str_opt column +:+ "' not found in dataframe").

(** The body of the [try] of [NumericScalingTransformer.transform]: the
    scaled column.  The numbers are exact rationals where the source
    computes in 64-bit floats and integers: which branch is taken and
    which column is written are those of the source, the values are the
    source's only up to rounding, overflow and wrap-around. *)
Definition scaled_data (method : string) (min_value max_value : Q)
           (numeric_data : list (option Q)) : Result Pd.Series :=
  match series_min numeric_data, series_max numeric_data with
  | Some min_val, Some max_val =>
      if String.eqb method "min_max" then
        if Qeq_bool min_val max_val
        then Ok (constant_series (Pd.CFloat (1 # 2)) numeric_data)
        else Ok (map_numeric (fun x => (x - min_val) / (max_val - min_val))%Q numeric_data)
      else if String.eqb method "z_score" then
        match numeric_mean numeric_data, series_std numeric_data with
        | Some mean, Some std =>
            if Qeq_bool std 0
            then Ok (constant_series (Pd.CInt 0) numeric_data)
            else Ok (map_numeric (fun x => (x - mean) / std)%Q numeric_data)
        | _, _ => Ok (constant_series Pd.NaN numeric_data)
        end
      else if String.eqb method "max_abs" then
        let max_abs := Qmax' (Qabs min_val) (Qabs max_val) in
        if Qeq_bool max_abs 0
        then Ok (constant_series (Pd.CInt 0) numeric_data)
        else Ok (map_numeric (fun x => x / max_abs)%Q numeric_data)
      else if String.eqb method "custom_range" then
        if Qeq_bool min_val max_val
        then Ok (constant_series (Pd.CFloat ((min_value + max_value) / 2)%Q) numeric_data)
        else Ok (map_numeric
                   (fun x => (x - min_val) / (max_val - min_val)
                             * (max_value - min_value) + min_value)%Q
                   numeric_data)
      else Raise (OtherError "local variable 'scaled_data' referenced before assignment")
  | _, _ => Raise (OtherError "local variable 'scaled_data' referenced before assignment")
  end.

Definition scaling_transform (df : ref) (params : ScalingParams) : Prog Heap ref :=
  result <- df_copy df ;;
  let column := sc_column params in
  let method := get_default (sc_method params) "min_max" in
  let min_value := get_default (sc_min_value params) 0%Q in
  let max_value := get_default (sc_max_value params) 100%Q in
  let create_new_column := get_default (sc_create_new_column params) true in
  let new_column_name := get_default (sc_new_column_name params) EmptyString in
  d <- df_read result ;;
  if negb (has_column d column) then prog_raise (column_not_found "Column" column)
  else
    s <- df_getitem result (str_opt column) ;;
    let numeric_data := to_numeric s in
    if forallb is_none numeric_data then
      prog_raise (ValueError ("Column '" +:+ str_opt column
                              +:+ "' does not contain valid numeric data"))
    else
      let new_column_name :=
        if create_new_column && negb (truthy (Some new_column_name)) then
          if String.eqb method "min_max" then str_opt column +:+ "_scaled"
          else if String.eqb method "z_score" then str_opt column +:+ "_zscore"
          else if String.eqb method "max_abs" then str_opt column +:+ "_maxabs"
          else if String.eqb method "custom_range" then str_opt column +:+ "_custom"
          else new_column_name
        else new_column_name in
      let target_column := if create_new_column then new_column_name else str_opt column in
      prog_try any_exception
        (scaled <- prog_lift (scaled_data method min_value max_value numeric_data) ;;
         df_setitem result target_column scaled)
        (fun e => prog_raise (ValueError ("Error scaling numeric data: " +:+ exn_msg e))) ;;;
      prog_ret result.

Record BinningParams : Type := mkBinning {
  bn_column : option string;
  bn_method : option string;
  bn_num_bins : option Z;
  bn_custom_bins : option string;
  bn_labels : option string;
  bn_target_column : option string;
  bn_include_right : option bool
}.

(** [[float(edge.strip()) for edge in custom_bins_str.split(',')]];
    [None] when some [float] raises. *)
Definition parse_bin_edges (custom_bins_str : string) : option (list Q) :=
  fold_right
    (fun edge acc =>
       match PyStr.float (PyStr.strip edge), acc with
       | Some q, Some l => Some (q :: l)
       | _, _ => None
       end)
    (Some []) (PyStr.split "," custom_bins_str).

(** [[label.strip() for label in labels_str.split(',')]], or [None]. *)
Definition parse_labels (labels_str : string) : option (list string) :=
  match labels_str with
  | EmptyString => None
  | _ => Some (map PyStr.strip (PyStr.split "," labels_str))
  end.

(** [labels and len(labels) != n] *)
Definition labels_mismatch (labels : option (list string)) (n : nat) : bool :=
  match labels with
  | Some ((_ :: _) as l) => negb (length l =? n)%nat
  | _ => false
  end.

Definition labels_length (labels : option (list string)) : nat :=
  match labels with Some l => length l | None => 0 end.

(** The body of the [try] of [BinningTransformer.transform]: the binned
    column, or [None] when the method is none of the three. *)
Definition binned_data (method : string) (num_bins : Z) (custom_bins_str : string)
           (labels : option (list string)) (include_right : bool)
           (numeric_data : list (option Q)) : Result (option Pd.Series) :=
  if String.eqb method "custom" then
    match custom_bins_str with
    | EmptyString => Raise (ValueError "Custom bin edges must be provided")
    | _ =>
        match parse_bin_edges custom_bins_str with
        | None => Raise (ValueError "Invalid bin edges format. Use comma-separated numbers.")
        | Some bin_edges =>
            if (length bin_edges <? 2)%nat then
              Raise (ValueError "At least 2 bin edges are required")
            else if labels_mismatch labels (length bin_edges - 1) then
              Raise (ValueError ("Number of labels (" +:+ pretty (labels_length labels)
                                 +:+ ") must be one less than bin edges ("
                                 +:+ pretty (length bin_edges) +:+ ")"))
            else result_map Some (Pd.cut numeric_data bin_edges labels include_right)
        end
    end
  else if String.eqb method "equal_width" then
    if (num_bins <? 2)%Z then Raise (ValueError "Number of bins must be at least 2")
    else if labels_mismatch labels (Z.to_nat num_bins) then
      Raise (ValueError ("Number of labels (" +:+ pretty (labels_length labels)
                         +:+ ") must match number of bins (" +:+ pretty num_bins +:+ ")"))
    else result_map Some (pd_cut_width numeric_data num_bins labels include_right)
  else if String.eqb method "equal_freq" then
    if (num_bins <? 2)%Z then Raise (ValueError "Number of bins must be at least 2")
    else if labels_mismatch labels (Z.to_nat num_bins) then
      Raise (ValueError ("Number of labels (" +:+ pretty (labels_length labels)
                         +:+ ") must match number of bins (" +:+ pretty num_bins +:+ ")"))
    else result_map Some (pd_qcut numeric_data num_bins labels)
  else Ok None.

Definition binning_transform (df : ref) (params : BinningParams) : Prog Heap ref :=
  result <- df_copy df ;;
  let column := bn_column params in
  let method := get_default (bn_method params) "equal_width" in
  let num_bins := get_default (bn_num_bins params) 5%Z in
  let custom_bins_str := get_default (bn_custom_bins params) EmptyString in
  let labels_str := get_default (bn_labels params) EmptyString in
  let target_column := bn_target_column params in
  let include_right := get_default (bn_include_right params) true in
  d <- df_read result ;;
  if negb (has_column d column) then prog_raise (column_not_found "Column" column)
  else if negb (truthy target_column) then
    prog_raise (ValueError "Target column name cannot be empty")
  else
    s <- df_getitem result (str_opt column) ;;
    let numeric_data := to_numeric s in
    let labels := parse_labels labels_str in
    prog_try any_exception
      (binned <- prog_lift (binned_data method num_bins custom_bins_str labels
                                        include_right numeric_data) ;;
       match binned with
       | Some col => df_setitem result (str_opt target_column) col
       | None => prog_ret tt
       end)
      (fun e => prog_raise (ValueError ("Error binning data: " +:+ exn_msg e))) ;;;
    prog_ret result.

Record MathParams : Type := mkMath {
  mp_operation : option string;
  mp_column1 : option string;
  mp_operator : option string;
  mp_column2 : option string;
  mp_value : option Q;
  mp_use_value : option bool;
  mp_function : option string;
  mp_aggregate_columns : option string;
  mp_aggregate_function : option string;
  mp_target_column : option string
}.

(** The second operand of a basic operation: the literal or a column. *)
Inductive Operand : Type :=
| Literal (value : Q)
| Column (numeric_data : list (option Q)).

Fixpoint map2 {A B C : Type} (g : A -> B -> C) (l : list A) (l' : list B) : list C :=
  match l, l' with
  | x :: r, y :: r' => g x y :: map2 g r r'
  | _, _ => []
  end.

Definition lift2 (g : Q -> Q -> Q) (x y : option Q) : Pd.Cell :=
  match x, y with
  | Some a, Some b => Pd.CFloat (g a b)
  | _, _ => Pd.NaN
  end.

(** [col1_data <op> operand2], row by row. *)
Definition elementwise (g : option Q -> option Q -> Pd.Cell) (col1_data : list (option Q))
           (operand2 : Operand) : Pd.Series :=
  match operand2 with
  | Literal v => Pd.plain (map (fun x => g x (Some v)) col1_data)
  | Column l => Pd.plain (map2 g col1_data l)
  end.

(** [operand2.replace(0, np.nan)] *)
Definition replace_zero (l : list (option Q)) : list (option Q) :=
  map (fun y => match y with
                | Some b => if Qeq_bool b 0 then None else Some b
                | None => None
                end) l.

(** [a % b] for [b] other than zero: the remainder has the sign of [b]. *)
Definition py_mod (a b : Q) : Q := (a - b * inject_Z (Qfloor (a / b)))%Q.

(** The basic operation of [MathOperationTransformer.transform], or
    [None] when the operator is none of the six. *)
Definition basic_operation (operator : string) (col1_data : list (option Q))
           (operand2 : Operand) : Result (option Pd.Series) :=
  if String.eqb operator "+" then Ok (Some (elementwise (lift2 Qplus) col1_data operand2))
  else if String.eqb operator "-" then
    Ok (Some (elementwise (lift2 Qminus) col1_data operand2))
  else if String.eqb operator "*" then
    Ok (Some (elementwise (lift2 Qmult) col1_data operand2))
  else if String.eqb operator "/" then
    match operand2 with
    | Column l =>
        let div_operand := replace_zero l in
        Ok (Some (elementwise (lift2 Qdiv) col1_data (Column div_operand)))
    | Literal v =>
        if Qeq_bool v 0 then Raise (ValueError "Cannot divide by zero")
        else Ok (Some (elementwise (lift2 Qdiv) col1_data operand2))
    end
  else if String.eqb operator "%" then
    match operand2 with
    | Column l =>
        let mod_operand := replace_zero l in
        Ok (Some (elementwise (lift2 py_mod) col1_data (Column mod_operand)))
    | Literal v =>
        if Qeq_bool v 0 then Raise (ValueError "Cannot take modulo by zero")
        else Ok (Some (elementwise (lift2 py_mod) col1_data operand2))
    end
  else if String.eqb operator "**" then
    Ok (Some (elementwise np_power col1_data operand2))
  else Ok None.

Definition apply_clipped (name : string) (lower : option Q) (col1_data : list (option Q))
  : Pd.Series :=
  Pd.plain (map (fun x => match x with
                          | Some q => np_apply name (match lower with
                                                     | Some lo => Qmax' q lo
                                                     | None => q
                                                     end)
                          | None => Pd.NaN
                          end) col1_data).

Definition math_function (function : string) (col1_data : list (option Q))
  : option Pd.Series :=
  if String.eqb function "log" then Some (apply_clipped "log" (Some float_eps) col1_data)
  else if String.eqb function "log10" then
    Some (apply_clipped "log10" (Some float_eps) col1_data)
  else if String.eqb function "sqrt" then Some (apply_clipped "sqrt" (Some 0%Q) col1_data)
  else if PyStr.mem function ["abs"; "exp"; "sin"; "cos"; "tan"; "round"; "floor"; "ceil"]
  then Some (apply_clipped function None col1_data)
  else None.

Definition aggregate (d : Pd.DataFrame) (column1 aggregate_columns_str : string)
           (aggregate_function : string) : Result (option Pd.Series) :=
  match aggregate_columns_str with
  | EmptyString => Raise (ValueError "Columns to aggregate must be specified")
  | _ =>
      let agg_columns := map PyStr.strip (PyStr.split "," aggregate_columns_str) in
      let agg_columns := if PyStr.mem column1 agg_columns then agg_columns
                         else column1 :: agg_columns in
      match List.filter (fun col => negb (PyStr.mem col (Pd.columns d))) agg_columns with
      | (_ :: _) as missing_columns =>
          Raise (ValueError ("Columns not found: " +:+ PyStr.join ", " missing_columns))
      | [] =>
          let numeric_df :=
            map (fun col => match Pd.getitem d col with
                            | Some s => to_numeric s
                            | None => []
                            end) agg_columns in
          if PyStr.mem aggregate_function
                       ["sum"; "mean"; "min"; "max"; "median"; "std"; "var"; "prod"]
          then Ok (Some (Pd.plain
                           (map (fun i => agg_row aggregate_function
                                                  (map (fun l => nth i l None) numeric_df))
                                (seq 0 (Pd.nrows d)))))
          else Ok None
      end
  end.

(** The body of the [try] of [MathOperationTransformer.transform]: the
    computed column, or [None] when nothing is assigned. *)
Definition math_result (d : Pd.DataFrame) (params : MathParams)
           (col1_data : list (option Q)) : Result (option Pd.Series) :=
  let operation := get_default (mp_operation params) "basic" in
  let operator := get_default (mp_operator params) "+" in
  let column2 := mp_column2 params in
  let value := get_default (mp_value params) 0%Q in
  let use_value := get_default (mp_use_value params) false in
  if String.eqb operation "basic" then
    if use_value || negb (truthy column2) then
      basic_operation operator col1_data (Literal value)
    else
      match Pd.getitem d (str_opt column2) with
      | None => Raise (column_not_found "Column" column2)
      | Some s2 => basic_operation operator col1_data (Column (to_numeric s2))
      end
  else if String.eqb operation "function" then
    Ok (math_function (get_default (mp_function params) "log") col1_data)
  else if String.eqb operation "aggregate" then
    aggregate d (str_opt (mp_column1 params))
              (get_default (mp_aggregate_columns params) EmptyString)
              (get_default (mp_aggregate_function params) "sum")
  else Ok None.

Definition math_transform (df : ref) (params : MathParams) : Prog Heap ref :=
  result <- df_copy df ;;
  let column1 := mp_column1 params in
  let target_column := get_default (mp_target_column params) "result" in
  d <- df_read result ;;
  if negb (has_column d column1) then prog_raise (column_not_found "Column" column1)
  else if negb (truthy (Some target_column)) then
    prog_raise (ValueError "Target column name cannot be empty")
  else
    s <- df_getitem result (str_opt column1) ;;
    let col1_data := to_numeric s in
    prog_try any_exception
      (d <- df_read result ;;
       computed <- prog_lift (math_result d params col1_data) ;;
       match computed with
       | Some col => df_setitem result target_column col
       | None => prog_ret tt
       end)
      (fun e => prog_raise (ValueError ("Error performing math operation: "
                                        +:+ exn_msg e))) ;;;
    prog_ret result.

(** *** Dates *)

(** [pd.to_datetime(s, format=..., errors='coerce')], [s.dt.strftime(fmt)],
    a component of [s.dt] by name, [(e - s).dt.total_seconds()],
    [s.abs()] and [s.round(2)]. *)
Variable pd_to_datetime : option string -> Pd.Series -> Result Pd.Series.
Variable dt_strftime : option string -> Pd.Series -> Result Pd.Series.
Variable dt_component : string -> Pd.Series -> Result Pd.Series.
Variable total_seconds : Pd.Series -> Pd.Series -> Result (list (option Q)).
Variable series_abs : Pd.Series -> Result Pd.Series.
Variable series_round2 : Pd.Series -> Result Pd.Series.

Definition result_bind {A B : Type} (r : Result A) (k : A -> Result B) : Result B :=
  match r with Ok a => k a | Raise e => Raise e end.

Record DateFormatParams : Type := mkDateFormat {
  fm_column : option string;
  fm_input_format : option string;
  fm_output_format : option string;
  fm_custom_output_format : option string;
  fm_create_new_column : option bool;
  fm_new_column_name : option string
}.

Definition date_format_transform (df : ref) (params : DateFormatParams)
  : Prog Heap ref :=
  result <- df_copy df ;;
  let column := fm_column params in
  let input_format := get_default (fm_input_format params) EmptyString in
  let output_format := fm_output_format params in
  let custom_output_format := get_default (fm_custom_output_format params) EmptyString in
  let create_new_column := get_default (fm_create_new_column params) false in
  let new_column_name := get_default (fm_new_column_name params) EmptyString in
  d <- df_read result ;;
  if negb (has_column d column) then prog_raise (column_not_found "Column" column)
  else
    actual_output_format <-
      (if is_str output_format "custom" then
         if truthy (Some custom_output_format) then prog_ret (Some custom_output_format)
         else prog_raise (ValueError "Custom output format cannot be empty")
       else prog_ret output_format) ;;
    let target_column :=
      if create_new_column && truthy (Some new_column_name)
      then new_column_name else str_opt column in
    prog_try any_exception
      (s <- df_getitem result (str_opt column) ;;
       formatted_dates <-
         prog_lift (result_bind
                      (pd_to_datetime (if truthy (Some input_format)
                                       then Some input_format else None) s)
                      (dt_strftime actual_output_format)) ;;
       df_setitem result target_column
                  (Pd.series_fillna (Pd.CText EmptyString) formatted_dates))
      (fun e => prog_raise (ValueError ("Error formatting dates: " +:+ exn_msg e))) ;;;
    prog_ret result.

Record DateExtractParams : Type := mkDateExtract {
  de_column : option string;
  de_component : option string;
  de_target_column : option string
}.

(** [s + 1] on a column of numbers. *)
Definition series_succ (s : Pd.Series) : Pd.Series :=
  Pd.plain (map (fun c => match c with
                          | Pd.CInt z => Pd.CInt (z + 1)
                          | Pd.CFloat q => Pd.CFloat (q + 1)
                          | other => other
                          end) (Pd.data s)).

(** The extracted component, or [None] when its name is none of the known. *)
Definition date_component (component : string) (datetime_series : Pd.Series)
  : Result (option Pd.Series) :=
  if PyStr.mem component ["year"; "month"; "day"; "quarter"; "week";
                          "hour"; "minute"; "second"]
  then result_map Some (dt_component component datetime_series)
  else if String.eqb component "month_name" then
    result_map Some (dt_strftime (Some "%B") datetime_series)
  else if String.eqb component "day_of_week" then
    result_map (fun s => Some (series_succ s)) (dt_component "dayofweek" datetime_series)
  else if String.eqb component "day_name" then
    result_map Some (dt_strftime (Some "%A") datetime_series)
  else Ok None.

Definition date_extract_transform (df : ref) (params : DateExtractParams)
  : Prog Heap ref :=
  result <- df_copy df ;;
  let column := de_column params in
  let component := de_component params in
  let target_column := de_target_column params in
  d <- df_read result ;;
  if negb (has_column d column) then prog_raise (column_not_found "Column" column)
  else if negb (truthy target_column) then
    prog_raise (ValueError "Target column name cannot be empty")
  else
    prog_try any_exception
      (s <- df_getitem result (str_opt column) ;;
       datetime_series <- prog_lift (pd_to_datetime None s) ;;
       extracted <- prog_lift (match component with
                               | Some c => date_component c datetime_series
                               | None => Ok None
                               end) ;;
       match extracted with
       | Some col => df_setitem result (str_opt target_column) col
       | None => prog_ret tt
       end)
      (fun e => prog_raise (ValueError ("Error extracting date components: "
                                        +:+ exn_msg e))) ;;;
    prog_ret result.

Record DateDifferenceParams : Type := mkDateDifference {
  dd_start_column : option string;
  dd_end_column : option string;
  dd_target_column : option string;
  dd_unit : option string;
  dd_absolute_value : option bool
}.

(** The number of seconds in one [unit], if the unit is known. *)
Definition seconds_per (unit : string) : option Q :=
  if String.eqb unit "days" then Some (60 * 60 * 24)%Q
  else if String.eqb unit "hours" then Some (60 * 60)%Q
  else if String.eqb unit "minutes" then Some 60%Q
  else if String.eqb unit "seconds" then Some 1%Q
  else if String.eqb unit "weeks" then Some (60 * 60 * 24 * 7)%Q
  else if String.eqb unit "months" then Some (60 * 60 * 24 * (3044 # 100))%Q
  else if String.eqb unit "years" then Some (60 * 60 * 24 * (36525 # 100))%Q
  else None.

Definition date_difference_transform (df : ref) (params : DateDifferenceParams)
  : Prog Heap ref :=
  result <- df_copy df ;;
  let start_column := dd_start_column params in
  let end_column := dd_end_column params in
  let target_column := dd_target_column params in
  let unit := get_default (dd_unit params) "days" in
  let absolute_value := get_default (dd_absolute_value params) false in
  d <- df_read result ;;
  if negb (has_column d start_column) then
    prog_raise (column_not_found "Start column" start_column)
  else if negb (has_column d end_column) then
    prog_raise (column_not_found "End column" end_column)
  else if negb (truthy target_column) then
    prog_raise (ValueError "Target column name cannot be empty")
  else
    let target := str_opt target_column in
    prog_try any_exception
      (s <- df_getitem result (str_opt start_column) ;;
       e <- df_getitem result (str_opt end_column) ;;
       start_dates <- prog_lift (pd_to_datetime None s) ;;
       end_dates <- prog_lift (pd_to_datetime None e) ;;
       diff <- prog_lift (total_seconds end_dates start_dates) ;;
       (match seconds_per unit with
        | Some k => df_setitem result target (map_numeric (fun x => x / k)%Q diff)
        | None => prog_ret tt
        end) ;;;
       (if absolute_value then
          t <- df_getitem result target ;;
          a <- prog_lift (series_abs t) ;;
          df_setitem result target a
        else prog_ret tt) ;;;
       t <- df_getitem result target ;;
       r <- prog_lift (series_round2 t) ;;
       df_setitem result target r)
      (fun e => prog_raise (ValueError ("Error calculating date difference: "
                                        +:+ exn_msg e))) ;;;
    prog_ret result.

(** *** Text *)

(** [str(v)] of a cell, [str.title], [str.capitalize], [re.compile],
    the whole first match of a compiled pattern, and
    [s.str.replace(pattern, repl, regex=True, flags=...)]. *)
Variable cell_str : Pd.Cell -> string.
Variable str_title : string -> string.
Variable str_capitalize : string -> string.
Variable Regex : Type.
Variable re_compile : string -> Result Regex.
Variable re_search : Regex -> string -> option string.
Variable str_replace : string -> string -> bool -> Pd.Series -> Result Pd.Series.

(** [s.astype(str)] *)
Definition astype_str (s : Pd.Series) : Pd.Series :=
  Pd.plain (map (fun c => Pd.CText (cell_str c)) (Pd.data s)).

(** [s.str.<method>()]: cells that are not text become missing. *)
Definition str_map (g : string -> string) (s : Pd.Series) : Pd.Series :=
  Pd.plain (map (fun c => match c with
                          | Pd.CText t => Pd.CText (g t)
                          | _ => Pd.NaN
                          end) (Pd.data s)).

(** [result[c] = g(result[c])] *)
Definition df_map_column (result : ref) (c : string) (g : Pd.Series -> Pd.Series)
  : Prog Heap unit :=
  s <- df_getitem result c ;; df_setitem result c (g s).

Record TextCaseParams : Type := mkTextCase {
  tc_column : option string;
  tc_case_type : option string
}.

Definition text_case_transform (df : ref) (params : TextCaseParams) : Prog Heap ref :=
  result <- df_copy df ;;
  let column := tc_column params in
  let case_type := get_default (tc_case_type params) "lower" in
  d <- df_read result ;;
  if negb (has_column d column) then prog_raise (column_not_found "Column" column)
  else
    let c := str_opt column in
    df_map_column result c astype_str ;;;
    (if String.eqb case_type "lower" then df_map_column result c (str_map PyStr.lower)
     else if String.eqb case_type "upper" then df_map_column result c (str_map PyStr.upper)
     else if String.eqb case_type "title" then df_map_column result c (str_map str_title)
     else if String.eqb case_type "sentence" then
       df_map_column result c (str_map PyStr.lower) ;;;
       df_map_column result c (str_map str_capitalize)
     else prog_ret tt) ;;;
    prog_ret result.

Record PatternExtractParams : Type := mkPatternExtract {
  pe_source_column : option string;
  pe_target_column : option string;
  pe_pattern : option string;
  pe_replace_na : option string
}.

Definition text_extract_transform (df : ref) (params : PatternExtractParams)
  : Prog Heap ref :=
  result <- df_copy df ;;
  let source_column := pe_source_column params in
  let target_column := pe_target_column params in
  let pattern := pe_pattern params in
  let replace_na := get_default (pe_replace_na params) EmptyString in
  d <- df_read result ;;
  if negb (has_column d source_column) then
    prog_raise (column_not_found "Column" source_column)
  else if negb (truthy pattern) then
    prog_raise (ValueError "Regular expression pattern cannot be empty")
  else
    let source := str_opt source_column in
    df_map_column result source astype_str ;;;
    prog_try is_re_error
      (compiled_pattern <- prog_lift (re_compile (str_opt pattern)) ;;
       s <- df_getitem result source ;;
       df_setitem result (str_opt target_column)
                  (Pd.plain (map (fun c => match c with
                                           | Pd.CText text =>
                                               Pd.CText (get_default
                                                           (re_search compiled_pattern text)
                                                           replace_na)
                                           | other => other
                                           end) (Pd.data s))))
      (fun e => prog_raise (ValueError ("Invalid regular expression: " +:+ exn_msg e))) ;;;
    prog_ret result.

Record TextReplaceParams : Type := mkTextReplace {
  tr_column : option string;
  tr_pattern : option string;
  tr_replacement : option string;
  tr_case_sensitive : option bool
}.

Definition text_replace_transform (df : ref) (params : TextReplaceParams)
  : Prog Heap ref :=
  result <- df_copy df ;;
  let column := tr_column params in
  let pattern := tr_pattern params in
  let replacement := get_default (tr_replacement params) EmptyString in
  let case_sensitive := get_default (tr_case_sensitive params) true in
  d <- df_read result ;;
  if negb (has_column d column) then prog_raise (column_not_found "Column" column)
  else if negb (truthy pattern) then
    prog_raise (ValueError "Search pattern cannot be empty")
  else
    let c := str_opt column in
    df_map_column result c astype_str ;;;
    prog_try is_re_error
      (s <- df_getitem result c ;;
       replaced <- prog_lift (str_replace (str_opt pattern) replacement case_sensitive s) ;;
       df_setitem result c replaced)
      (fun e => prog_raise (ValueError ("Invalid regular expression: " +:+ exn_msg e))) ;;;
    prog_ret result.

(** *** Calculated columns ([create_calculated_column]) *)

(** What a name of the evaluation namespaces is bound to. *)
Inductive PyObj : Type :=
| ObjSeries (s : Pd.Series)
| ObjNumpy
| ObjEmptyDict.

(** [eval(expression, globals, locals)] and the column that assigning
    its value to [result[column_name]] stores. *)
Variable PyValue : Type.
Variable py_eval :
  string -> list (string * PyObj) -> list (string * PyObj) -> Result PyValue.
Variable as_column : PyValue -> Pd.DataFrame -> Result Pd.Series.

Definition eval_globals : list (string * PyObj) := [("__builtins__", ObjEmptyDict)].

(** [{col: result[col] for col in result.columns if col in expression}] *)
Definition referenced_columns (d : Pd.DataFrame) (expression : string) : list string :=
  List.filter (fun col => PyStr.contains col expression) (Pd.columns d).

(** [local_dict], with [np] bound last. *)
Definition local_dict (d : Pd.DataFrame) (expression : string) : list (string * PyObj) :=
  dict_set
    (fold_left (fun ns col => match Pd.getitem d col with
                              | Some s => dict_set ns col (ObjSeries s)
                              | None => ns
                              end)
               (referenced_columns d expression) [])
    "np" ObjNumpy.

Definition create_calculated_column (df : ref) (column_name expression : string)
  : Prog Heap ref :=
  result <- df_copy df ;;
  prog_try any_exception
    (d <- df_read result ;;
     value <- prog_lift (py_eval expression eval_globals (local_dict d expression)) ;;
     col <- prog_lift (as_column value d) ;;
     df_setitem result column_name col ;;;
     prog_ret result)
    (fun e => prog_raise (ValueError ("Error creating calculated column: "
                                      +:+ exn_msg e))).

(** *** The built-in transformers *)

(** A transformer with its parameters. *)
Inductive TransformSpec : Type :=
| NumericScaling (p : ScalingParams)
| NumericBinning (p : BinningParams)
| MathOperation (p : MathParams)
| DateFormat (p : DateFormatParams)
| DateExtract (p : DateExtractParams)
| DateDifference (p : DateDifferenceParams)
| TextCase (p : TextCaseParams)
| TextPatternExtract (p : PatternExtractParams)
| TextReplace (p : TextReplaceParams).

(** [transformer.name] *)
Definition transformer_name (t : TransformSpec) : string :=
  match t with
  | NumericScaling _ => "Numeric Scaling Transformer"
  | NumericBinning _ => "Numeric Binning Transformer"
  | MathOperation _ => "Math Operation Transformer"
  | DateFormat _ => "Date Format Transformer"
  | DateExtract _ => "Date Component Extractor"
  | DateDifference _ => "Date Difference Calculator"
  | TextCase _ => "Text Case Transformer"
  | TextPatternExtract _ => "Text Pattern Extractor"
  | TextReplace _ => "Text Replace Transformer"
  end.

(** [transformer.transform(df, params)] *)
Definition transform (t : TransformSpec) (df : ref) : Prog Heap ref :=
  match t with
  | NumericScaling p => scaling_transform df p
  | NumericBinning p => binning_transform df p
  | MathOperation p => math_transform df p
  | DateFormat p => date_format_transform df p
  | DateExtract p => date_extract_transform df p
  | DateDifference p => date_difference_transform df p
  | TextCase p => text_case_transform df p
  | TextPatternExtract p => text_extract_transform df p
  | TextReplace p => text_replace_transform df p
  end.

(** *** What the loading loop does with one file

    A summary of one turn of the loop, used to state what
    [process_files] returns. *)

(** The join key as the loop compares it: lower-cased when column names
    are. *)
Definition norm_key (o : MergeOptions) : option string :=
  if ignore_case o then option_map PyStr.lower (join_key o) else join_key o.

(** A loaded table with its labels as the loop leaves them. *)
Definition normalized (o : MergeOptions) (df : Pd.DataFrame) : Pd.DataFrame :=
  if ignore_case o then Pd.relabel PyStr.lower df else df.

Inductive FileOutcome : Type :=
| Rejected (error : string)
| MissingKey (diagnostics : list string)
| Accepted (df : Pd.DataFrame)
| Ignored.

Definition file_outcome (m : FileMerger) (o : MergeOptions) (f : UploadedFile)
  : FileOutcome :=
  match load_data m f with
  | (_, Some (String _ _ as error)) => Rejected error
  | (Some df, _) =>
      if negb (Pd.empty df) then
        let df' := normalized o df in
        if is_join o && negb (has_column df' (norm_key o))
        then MissingKey (missing_key_diagnostics (file_name f) (str_opt (norm_key o))
                                                 (Pd.columns df'))
        else Accepted df'
      else Ignored
  | (None, _) => Ignored
  end.

Definition outcome_diagnostics (r : FileOutcome) : list string :=
  match r with
  | Rejected error => [error]
  | MissingKey diagnostics => diagnostics
  | _ => []
  end.

Definition outcome_tables (r : FileOutcome) : list Pd.DataFrame :=
  match r with Accepted df => [df] | _ => [] end.

(** A file whose table reaches the case normalization of the loop. *)
Definition loads (m : FileMerger) (f : UploadedFile) : bool :=
  match load_data m f with
  | (_, Some (String _ _)) => false
  | (Some df, _) => negb (Pd.empty df)
  | (None, _) => false
  end.

(** All the diagnostics of a request, in the order of the files. *)
Definition request_diagnostics (m : FileMerger) (o : MergeOptions)
           (files : list UploadedFile) : list string :=
  flat_map (fun f => outcome_diagnostics (file_outcome m o f)) files.

(** The options after the loop: the key is replaced by its lower-case
    form as soon as one table is loaded with case normalization on. *)
Definition options_after (m : FileMerger) (o : MergeOptions)
           (files : list UploadedFile) : MergeOptions :=
  if ignore_case o && truthy (join_key o) && existsb (loads m) files
  then set_join_key (option_map PyStr.lower (join_key o)) o
  else o.

(** A program that leaves the options dictionary as it finds it. *)
Definition keeps_options {A : Type} (p : Prog World A) : Prop :=
  forall w, w_options (snd (p w)) = w_options w.

(** The elements of [l], each once, in the order of their first
    occurrence. *)
Fixpoint first_seen (l : list string) : list string :=
  match l with
  | [] => []
  | x :: r => x :: List.filter (fun y => negb (String.eqb x y)) (first_seen r)
  end.

(** The row of a concatenation at which the rows of the [i]-th table
    start. *)
Definition row_offset (dfs : list Pd.DataFrame) (i : nat) : nat :=
  list_sum (map Pd.nrows (firstn i dfs)).

(** *** Ownership of table objects

    [owned h0 r h]: in the heap [h], [r] is an object allocated after the
    heap [h0] was handed over. *)
Definition owned (h0 : Heap) (r : ref) (h : Heap) : Prop :=
  (length h0 <= r < length h)%nat.

(** [frames h0 P p Q]: run from a heap that extends [h0] and satisfies
    [P], the program [p] ends, normally or not, in a heap that still
    extends [h0] (every object of [h0] is as it was), and a value it
    returns satisfies [Q] there. *)
Definition frames (h0 : Heap) {A : Type} (P : Heap -> Prop) (p : Prog Heap A)
           (Q : A -> Heap -> Prop) : Prop :=
  forall h,
    h0 `prefix_of` h -> P h ->
    h0 `prefix_of` snd (p h) /\
    match fst (p h) with
    | Ok a => Q a (snd (p h))
    | Raise _ => True
    end.

(** [p], called on the table at [df] in the heap [h], leaves every
    object of [h] as it was, and the table it returns, if any, is an
    object that [h] does not hold. *)
Definition on_a_copy (p : Prog Heap ref) (h : Heap) (df : ref) : Prop :=
  (forall l x, h !! l = Some x -> snd (p h) !! l = Some x) /\
  forall r, fst (p h) = Ok r ->
            r <> df /\ (length h <= r)%nat /\ is_Some (snd (p h) !! r).

(** The two operators that divide, each with its function and the
    message of its refusal to divide by a literal zero. *)
Definition division_like (operator : string) : option ((Q -> Q -> Q) * string) :=
  if String.eqb operator "/" then Some (Qdiv, "Cannot divide by zero")
  else if String.eqb operator "%" then Some (py_mod, "Cannot take modulo by zero")
  else None.

(** *** The names an expression mentions

    The maximal runs of letters, digits and underscores of the text that
    do not start with a digit.  Every bare identifier of a Python
    expression is among them (so are attribute names and words inside
    string literals). *)

Definition is_ident_char (a : ascii) : bool :=
  PyStr.is_lower a || PyStr.is_upper a || PyStr.is_digit a || Ascii.eqb a "_".

Definition starts_ident (run : string) : bool :=
  match run with
  | EmptyString => false
  | String a _ => negb (PyStr.is_digit a)
  end.

(** The run of identifier characters at the head of [s], and the names
    found after it. *)
Fixpoint ident_scan (s : string) : string * list string :=
  match s with
  | EmptyString => (EmptyString, [])
  | String a r =>
      let '(run, found) := ident_scan r in
      if is_ident_char a then (String a run, found)
      else (EmptyString, if starts_ident run then run :: found else found)
  end.

Definition identifiers (s : string) : list string :=
  let '(run, found) := ident_scan s in
  if starts_ident run then run :: found else found.

(** *** File information ([get_file_info]) *)

Record FileInfo : Type := mkFileInfo {
  info_name : string;
  info_type : string;
  info_size : N;
  info_extension : string
}.

Definition get_file_info (uploaded_file : UploadedFile) : FileInfo :=
  mkFileInfo (file_name uploaded_file) (file_type uploaded_file)
             (file_size uploaded_file) (file_extension (file_name uploaded_file)).

(** *** Duplicated rows ([detect_duplicates]) *)

(** [mask[mask].index.tolist()]: the positions, counted from [i], at
    which the mask holds. *)
Fixpoint true_positions (i : nat) (mask : list bool) : list nat :=
  match mask with
  | [] => []
  | b :: rest =>
      if b then i :: true_positions (S i) rest else true_positions (S i) rest
  end.

(** [df.loc[indices]] on positional row labels. *)
Definition loc (df : Pd.DataFrame) (indices : list nat) : Pd.DataFrame :=
  Pd.mkDF (length indices)
          (map (fun p => (fst p,
                          Pd.mkSeries (map (fun i => nth i (Pd.data (snd p)) Pd.NaN) indices)
                                      (Pd.cats (snd p))))
               (Pd.cols df)).

(** The dictionary [detect_duplicates] returns. *)
Record Duplicates : Type := mkDuplicates {
  duplicate_count : nat;
  duplicate_rows : Pd.DataFrame;
  duplicate_indices : list nat
}.

Definition duplicates_report (df : Pd.DataFrame) (duplicated : list bool) : Duplicates :=
  let duplicate_indices := true_positions 0 duplicated in
  let duplicate_rows := loc df duplicate_indices in
  mkDuplicates (length duplicate_indices) duplicate_rows duplicate_indices.

Definition detect_duplicates (df : Pd.DataFrame) (subset : option (list string))
  : Duplicates :=
  match subset with
  | None => duplicates_report df (Pd.duplicated None df)
  | Some subset =>
      match List.filter (fun col => PyStr.mem col (Pd.columns df)) subset with
      | [] => mkDuplicates 0 (Pd.mkDF 0 []) []
      | valid_cols => duplicates_report df (Pd.duplicated (Some valid_cols) df)
      end
  end.

(** The rows duplicates are judged on, in order. *)
Definition key_rows (subset : option (list string)) (df : Pd.DataFrame)
  : list (list Pd.Cell) :=
  map (Pd.row_at (Pd.key_columns subset df)) (seq 0 (Pd.nrows df)).

(** *** The transformer registry ([src/plugins/data_transformers/__init__.py]) *)

(** The registered classes; an instance has no state of its own. *)
Inductive TransformerClass : Type :=
| NumericScalingTransformer
| BinningTransformer
| MathOperationTransformer
| DateFormatTransformer
| DateExtractTransformer
| DateDifferenceTransformer
| TextCaseTransformer
| TextPatternExtractor
| TextReplaceTransformer.

(** [instance.name] *)
Definition name_of (cls : TransformerClass) : string :=
  match cls with
  | NumericScalingTransformer => "Numeric Scaling Transformer"
  | BinningTransformer => "Numeric Binning Transformer"
  | MathOperationTransformer => "Math Operation Transformer"
  | DateFormatTransformer => "Date Format Transformer"
  | DateExtractTransformer => "Date Component Extractor"
  | DateDifferenceTransformer => "Date Difference Calculator"
  | TextCaseTransformer => "Text Case Transformer"
  | TextPatternExtractor => "Text Pattern Extractor"
  | TextReplaceTransformer => "Text Replace Transformer"
  end.

(** One entry of [get_parameters()]: the fields the registry reads. *)
Record ParamInfo : Type := mkParam {
  p_name : string;
  p_type : string;
  p_label : string;
  p_required : bool
}.

Definition get_parameters (cls : TransformerClass) : list ParamInfo :=
  match cls with
  | NumericScalingTransformer =>
      [mkParam "column" "select" "Column" true;
       mkParam "method" "select" "Scaling Method" true;
       mkParam "min_value" "number" "Min Value (for Custom Range)" false;
       mkParam "max_value" "number" "Max Value (for Custom Range)" false;
       mkParam "create_new_column" "boolean" "Create New Column" false;
       mkParam "new_column_name" "string" "New Column Name" false]
  | BinningTransformer =>
      [mkParam "column" "select" "Column" true;
       mkParam "method" "select" "Binning Method" true;
       mkParam "num_bins" "number" "Number of Bins" false;
       mkParam "custom_bins" "string" "Custom Bin Edges (comma-separated)" false;
       mkParam "labels" "string" "Bin Labels (comma-separated, optional)" false;
       mkParam "target_column" "string" "Target Column Name" true;
       mkParam "include_right" "boolean" "Include Right Edge in Bin" false]
  | MathOperationTransformer =>
      [mkParam "operation" "select" "Operation Type" true;
       mkParam "column1" "select" "First Column" true;
       mkParam "operator" "select" "Operator" false;
       mkParam "column2" "select" "Second Column (for basic operation)" false;
       mkParam "value" "number" "Value (instead of second column)" false;
       mkParam "use_value" "boolean" "Use Value instead of Second Column" false;
       mkParam "function" "select" "Math Function" false;
       mkParam "aggregate_columns" "string" "Columns to Aggregate (comma-separated)" false;
       mkParam "aggregate_function" "select" "Aggregate Function" false;
       mkParam "target_column" "string" "Target Column Name" true]
  | DateFormatTransformer =>
      [mkParam "column" "select" "Column" true;
       mkParam "input_format" "string" "Input Format (leave blank for auto-detect)" false;
       mkParam "output_format" "select" "Output Format" true;
       mkParam "custom_output_format" "string" "Custom Output Format" false;
       mkParam "create_new_column" "boolean" "Create New Column" false;
       mkParam "new_column_name" "string" "New Column Name" false]
  | DateExtractTransformer =>
      [mkParam "column" "select" "Date Column" true;
       mkParam "component" "select" "Component to Extract" true;
       mkParam "target_column" "string" "Target Column Name" true]
  | DateDifferenceTransformer =>
      [mkParam "start_column" "select" "Start Date Column" true;
       mkParam "end_column" "select" "End Date Column" true;
       mkParam "target_column" "string" "Target Column Name" true;
       mkParam "unit" "select" "Time Unit" true;
       mkParam "absolute_value" "boolean" "Use Absolute Value" false]
  | TextCaseTransformer =>
      [mkParam "column" "select" "Column" true;
       mkParam "case_type" "select" "Case Type" true]
  | TextPatternExtractor =>
      [mkParam "source_column" "select" "Source Column" true;
       mkParam "target_column" "string" "Target Column Name" true;
       mkParam "pattern" "string" "Regular Expression Pattern" true;
       mkParam "replace_na" "string" "Replacement for Non-Matches" false]
  | TextReplaceTransformer =>
      [mkParam "column" "select" "Column" true;
       mkParam "pattern" "string" "Search Pattern (regular expression)" true;
       mkParam "replacement" "string" "Replacement Text" true;
       mkParam "case_sensitive" "boolean" "Case Sensitive" false]
  end.

(** A value of the [params] dictionary. *)
Inductive ParamValue : Type :=
| PStr (s : string)
| PInt (z : Z)
| PFloat (q : Q)
| PBool (b : bool)
| PNone.

Abbreviation Params := (gmap string ParamValue) (only parsing).

(** [name not in params or params[name] is None or params[name] == ''] *)
Definition param_missing (params : Params) (name : string) : bool :=
  match params !! name with
  | None => true
  | Some PNone => true
  | Some (PStr EmptyString) => true
  | Some _ => false
  end.

Definition required_message (param : ParamInfo) : string :=
  "Parameter '" +:+ p_label param +:+ "' is required".

(** [DataTransformer.validate_parameters]: the errors, keyed by
    parameter name. *)
Definition validate_parameters (cls : TransformerClass) (params : Params)
  : list (string * string) :=
  let required_params := List.filter p_required (get_parameters cls) in
  fold_left
    (fun errors param =>
       let name := p_name param in
       if param_missing params name
       then dict_set errors name (required_message param)
       else errors)
    required_params [].

(** [params.get(name)] read at the type the transformer expects.  A
    parameter set to [None] reads as an absent one. *)
Definition get_str (params : Params) (name : string) : option string :=
  match params !! name with Some (PStr s) => Some s | _ => None end.

Definition get_number (params : Params) (name : string) : option Q :=
  match params !! name with
  | Some (PInt z) => Some (inject_Z z)
  | Some (PFloat q) => Some q
  | _ => None
  end.

Definition get_int (params : Params) (name : string) : option Z :=
  match params !! name with Some (PInt z) => Some z | _ => None end.

Definition get_bool (params : Params) (name : string) : option bool :=
  match params !! name with Some (PBool b) => Some b | _ => None end.

(** The parameters as the [transform] of the class reads them. *)
Definition read_params (cls : TransformerClass) (params : Params) : TransformSpec :=
  match cls with
  | NumericScalingTransformer =>
      NumericScaling
        (mkScaling (get_str params "column") (get_str params "method")
                   (get_number params "min_value") (get_number params "max_value")
                   (get_bool params "create_new_column")
                   (get_str params "new_column_name"))
  | BinningTransformer =>
      NumericBinning
        (mkBinning (get_str params "column") (get_str params "method")
                   (get_int params "num_bins") (get_str params "custom_bins")
                   (get_str params "labels") (get_str params "target_column")
                   (get_bool params "include_right"))
  | MathOperationTransformer =>
      MathOperation
        (mkMath (get_str params "operation") (get_str params "column1")
                (get_str params "operator") (get_str params "column2")
                (get_number params "value") (get_bool params "use_value")
                (get_str params "function") (get_str params "aggregate_columns")
                (get_str params "aggregate_function") (get_str params "target_column"))
  | DateFormatTransformer =>
      DateFormat
        (mkDateFormat (get_str params "column") (get_str params "input_format")
                      (get_str params "output_format")
                      (get_str params "custom_output_format")
                      (get_bool params "create_new_column")
                      (get_str params "new_column_name"))
  | DateExtractTransformer =>
      DateExtract
        (mkDateExtract (get_str params "column") (get_str params "component")
                       (get_str params "target_column"))
  | DateDifferenceTransformer =>
      DateDifference
        (mkDateDifference (get_str params "start_column") (get_str params "end_column")
                          (get_str params "target_column") (get_str params "unit")
                          (get_bool params "absolute_value"))
  | TextCaseTransformer =>
      TextCase (mkTextCase (get_str params "column") (get_str params "case_type"))
  | TextPatternExtractor =>
      TextPatternExtract
        (mkPatternExtract (get_str params "source_column") (get_str params "target_column")
                          (get_str params "pattern") (get_str params "replace_na"))
  | TextReplaceTransformer =>
      TextReplace
        (mkTextReplace (get_str params "column") (get_str params "pattern")
                       (get_str params "replacement") (get_bool params "case_sensitive"))
  end.

(** The module-level dictionary [_transformers]. *)
Abbreviation Registry := (gmap string TransformerClass) (only parsing).

(** [register_transformer(cls)]: [_transformers[instance.name] = instance]. *)
Definition register_transformer (cls : TransformerClass) (transformers : Registry)
  : Registry :=
  <[name_of cls := cls]> transformers.

(** [get_transformer(name)] *)
Definition get_transformer (transformers : Registry) (name : string)
  : option TransformerClass :=
  transformers !! name.

(** [get_all_transformers()]: a copy of the dictionary. *)
Definition get_all_transformers (transformers : Registry) : Registry := transformers.

(** The transformer modules of the package, in the order
    [pkgutil.iter_modules] lists them: for each, its classes in the order
    of their definition (their decorators run on import) and in the order
    of [inspect.getmembers]. *)
Definition transformer_modules : list (list TransformerClass * list TransformerClass) :=
  [([DateFormatTransformer; DateExtractTransformer; DateDifferenceTransformer],
    [DateDifferenceTransformer; DateExtractTransformer; DateFormatTransformer]);
   ([NumericScalingTransformer; BinningTransformer; MathOperationTransformer],
    [BinningTransformer; MathOperationTransformer; NumericScalingTransformer]);
   ([TextCaseTransformer; TextPatternExtractor; TextReplaceTransformer],
    [TextCaseTransformer; TextPatternExtractor; TextReplaceTransformer])].

Definition register_all (classes : list TransformerClass) (transformers : Registry)
  : Registry :=
  fold_left (fun reg cls => register_transformer cls reg) classes transformers.

(** [discover_transformers()] *)
Definition discover_transformers (transformers : Registry) : Registry :=
  fold_left (fun reg module => register_all (snd module) (register_all (fst module) reg))
            transformer_modules transformers.

(** The registry once the package is imported. *)
Definition builtin_transformers : Registry := discover_transformers ∅.

(** [apply_transformer(df, transformer_name, params)]: the transformed
    table, or a dictionary of error messages. *)
Definition apply_transformer (transformers : Registry) (df : ref)
           (transformer_name : string) (params : Params)
  : Prog Heap (ref + list (string * string)) :=
  match get_transformer transformers transformer_name with
  | None =>
      prog_ret (inr [("error", "Transformer '" +:+ transformer_name +:+ "' not found")])
  | Some transformer =>
      match validate_parameters transformer params with
      | (_ :: _) as errors => prog_ret (inr errors)
      | [] =>
          prog_try any_exception
            (result <- transform (read_params transformer params) df ;;
             prog_ret (inl result))
            (fun e => prog_ret (inr [("error", "Error applying transformer: "
                                               +:+ exn_msg e)]))
      end
  end.

(** *** Transformation lists ([apply_data_transformations]) *)

(** [s.astype(bool)], [s.replace(find, replace)], the comparisons of a
    column with a value, [s.str.contains(pattern, na=False)] and
    [float(v)].  A value is a cell. *)
Variable astype_bool : Pd.Series -> Result Pd.Series.
Variable series_replace : Pd.Cell -> option Pd.Cell -> Pd.Series -> Result Pd.Series.
Variable series_eq : Pd.Series -> Pd.Cell -> Result (list bool).
Variable series_ne : Pd.Series -> Pd.Cell -> Result (list bool).
Variable str_contains : string -> Pd.Series -> Result (list bool).
Variable py_float : Pd.Cell -> Result Q.

(** The [params] of a transformation, by key; [None] is an absent key
    or the value [None]. *)
Record TransformParams : Type := mkTransformParams {
  tp_column_name : option string;
  tp_expression : option string;
  tp_column : option string;
  tp_type : option string;
  tp_find : option Pd.Cell;
  tp_replace : option Pd.Cell;
  tp_filter_type : option string;
  tp_value : option Pd.Cell;
  tp_mapping : option (list (string * string));
  tp_columns : option (list string)
}.

Definition no_params : TransformParams :=
  mkTransformParams None None None None None None None None None None.

(** One entry of the list of transformations. *)
Record Transformation : Type := mkTransformation {
  tf_type : option string;
  tf_params : option TransformParams
}.

(** [pd.to_numeric(s, errors='coerce')] as a column. *)
Definition numeric_series (s : Pd.Series) : Pd.Series := float_series (to_numeric s).

(** [pd.to_numeric(s, errors='coerce') > t] and [... < t] *)
Definition greater_than (t : Q) (s : Pd.Series) : list bool :=
  map (fun v => match v with Some x => Pd.Qlt_bool t x | None => false end) (to_numeric s).

Definition less_than (t : Q) (s : Pd.Series) : list bool :=
  map (fun v => match v with Some x => Pd.Qlt_bool x t | None => false end) (to_numeric s).

(** [df.drop(columns=names)] for labels of the table. *)
Definition drop_columns (names : list string) (d : Pd.DataFrame) : Pd.DataFrame :=
  Pd.mkDF (Pd.nrows d)
          (List.filter (fun p => negb (PyStr.mem (fst p) names)) (Pd.cols d)).

(** [result = result[mask]] *)
Definition df_filter (result : ref) (mask : list bool) : Prog Heap ref :=
  d <- df_read result ;; df_new (Pd.filter_rows mask d).

(** [result[c] = g(result[c])] for a [g] that may raise. *)
Definition df_convert_column (result : ref) (c : string)
           (g : Pd.Series -> Result Pd.Series) : Prog Heap unit :=
  s <- df_getitem result c ;;
  s' <- prog_lift (g s) ;;
  df_setitem result c s'.

Definition convert_column_type (result : ref) (params : TransformParams) : Prog Heap ref :=
  let col_name := tp_column params in
  let target_type := tp_type params in
  d <- df_read result ;;
  if truthy col_name && has_column d col_name && truthy target_type then
    let c := str_opt col_name in
    (if is_str target_type "string" then df_map_column result c astype_str
     else if is_str target_type "number" then df_map_column result c numeric_series
     else if is_str target_type "datetime" then
       df_convert_column result c (pd_to_datetime None)
     else if is_str target_type "boolean" then df_convert_column result c astype_bool
     else prog_ret tt) ;;;
    prog_ret result
  else prog_ret result.

Definition replace_values (result : ref) (params : TransformParams) : Prog Heap ref :=
  let col_name := tp_column params in
  d <- df_read result ;;
  match tp_find params with
  | Some find_val =>
      if truthy col_name && has_column d col_name then
        df_convert_column result (str_opt col_name)
                          (series_replace find_val (tp_replace params)) ;;;
        prog_ret result
      else prog_ret result
  | None => prog_ret result
  end.

Definition filter_rows (result : ref) (params : TransformParams) : Prog Heap ref :=
  let col_name := tp_column params in
  let filter_type := tp_filter_type params in
  d <- df_read result ;;
  match tp_value params with
  | Some filter_val =>
      if truthy col_name && has_column d col_name && truthy filter_type then
        let c := str_opt col_name in
        if is_str filter_type "equals" then
          s <- df_getitem result c ;;
          mask <- prog_lift (series_eq s filter_val) ;;
          df_filter result mask
        else if is_str filter_type "not_equals" then
          s <- df_getitem result c ;;
          mask <- prog_lift (series_ne s filter_val) ;;
          df_filter result mask
        else if is_str filter_type "contains" then
          s <- df_getitem result c ;;
          mask <- prog_lift (str_contains (cell_str filter_val) (astype_str s)) ;;
          df_filter result mask
        else if is_str filter_type "greater_than" then
          prog_try any_exception
            (s <- df_getitem result c ;;
             t <- prog_lift (py_float filter_val) ;;
             df_filter result (greater_than t s))
            (fun _ => prog_ret result)
        else if is_str filter_type "less_than" then
          prog_try any_exception
            (s <- df_getitem result c ;;
             t <- prog_lift (py_float filter_val) ;;
             df_filter result (less_than t s))
            (fun _ => prog_ret result)
        else prog_ret result
      else prog_ret result
  | None => prog_ret result
  end.

Definition rename_columns (result : ref) (params : TransformParams) : Prog Heap ref :=
  match get_default (tp_mapping params) [] with
  | [] => prog_ret result
  | rename_dict => d <- df_read result ;; df_new (Pd.rename rename_dict d)
  end.

Definition drop_listed_columns (result : ref) (params : TransformParams) : Prog Heap ref :=
  match get_default (tp_columns params) [] with
  | [] => prog_ret result
  | cols_to_drop =>
      d <- df_read result ;;
      df_new (drop_columns (List.filter (fun col => PyStr.mem col (Pd.columns d))
                                        cols_to_drop) d)
  end.

(** The body of the [try] of one turn of the loop of
    [apply_data_transformations]: the table [result] is bound to
    afterwards. *)
Definition transformation_step (result : ref) (transformation : Transformation)
  : Prog Heap ref :=
  let transform_type := tf_type transformation in
  let params := get_default (tf_params transformation) no_params in
  if is_str transform_type "create_calculated_column" then
    create_calculated_column result
      (get_default (tp_column_name params) "calculated_column")
      (get_default (tp_expression params) "0")
  else if is_str transform_type "convert_column_type" then
    convert_column_type result params
  else if is_str transform_type "replace_values" then replace_values result params
  else if is_str transform_type "filter_rows" then filter_rows result params
  else if is_str transform_type "rename_columns" then rename_columns result params
  else if is_str transform_type "drop_columns" then drop_listed_columns result params
  else prog_ret result.

(** One turn of the loop: an exception of the step is logged and the
    loop goes on with the table it had. *)
Definition apply_transformation (result : ref) (transformation : Transformation)
  : Prog Heap ref :=
  prog_try any_exception
    (transformation_step result transformation)
    (fun _ => prog_ret result).

Fixpoint transformations_loop (result : ref) (transformations : list Transformation)
  : Prog Heap ref :=
  match transformations with
  | [] => prog_ret result
  | transformation :: rest =>
      result <- apply_transformation result transformation ;;
      transformations_loop result rest
  end.

Definition apply_data_transformations (df : ref) (transformations : list Transformation)
  : Prog Heap ref :=
  result <- df_copy df ;;
  transformations_loop result transformations.

(** *** The search of [best_match]

    Its state after the targets [seen]: the best target so far and its
    similarity. *)
Definition best_so_far (threshold : Q) (src_col : string) (seen : list string)
           (st : option string * Q) : Prop :=
  (0 <= snd st)%Q /\
  (forall t, In t seen -> (threshold <= similarity src_col t)%Q ->
             (similarity src_col t <= snd st)%Q) /\
  match fst st with
  | None => True
  | Some b =>
      In b seen /\ snd st = similarity src_col b /\
      (threshold <= similarity src_col b)%Q /\ (0 < similarity src_col b)%Q
  end.


(** The columns [detect_duplicates] judges on: all of them, or those of
    [subset] that the table has. *)
Definition valid_cols (df : Pd.DataFrame) (subset : option (list string))
  : option (list string) :=
  option_map (List.filter (fun col => PyStr.mem col (Pd.columns df))) subset.

(** A table whose columns all have as many cells as the table has rows. *)
Definition uniform (d : Pd.DataFrame) : Prop :=
  Forall (fun p => length (Pd.data (snd p)) = Pd.nrows d) (Pd.cols d).

(** *** The table [clean_dataframe] returns

    The stages of [clean_dataframe] as functions on tables: what the
    object it returns holds. *)

Definition clean_fill (opts : CleanOptions) (d : Pd.DataFrame) : Pd.DataFrame :=
  let meth := co_fill_method opts in
  if truthy meth && negb (is_str meth "None (keep NaN)") then
    if is_str meth "Zero" then Pd.fillna (Pd.CInt 0) d
    else if is_str meth "Mean" then
      fold_left (update_column (fun s => Pd.series_fillna (series_mean s) s))
                (Pd.numeric_columns d) d
    else if is_str meth "Median" then
      fold_left (update_column (fun s => Pd.series_fillna (series_median s) s))
                (Pd.numeric_columns d) d
    else if is_str meth "Mode" then
      fold_left (update_column (fun s => Pd.series_fillna (first_mode s) s))
                (Pd.columns d) d
    else if is_str meth "Forward fill" then Pd.ffill d
    else if is_str meth "Backward fill" then Pd.bfill d
    else if is_str meth "Custom value" then
      match co_fill_value opts with
      | Some v => fill_custom v d
      | None => d
      end
    else d
  else d.

Definition clean_table (opts : option CleanOptions) (d : Pd.DataFrame) : Pd.DataFrame :=
  let opts := get_default opts (mkClean None None None None None) in
  let d1 := if get_default (co_ignore_case opts) true
            then Pd.relabel PyStr.lower d else d in
  let d2 := clean_fill opts d1 in
  if get_default (co_handle_duplicates opts) false then
    if truthy (co_join_key opts) && has_column d2 (co_join_key opts)
    then Pd.drop_duplicates (option_map (fun k => [k]) (co_join_key opts)) d2
    else Pd.drop_duplicates None d2
  else d2.



(** A program that leaves the session state as it finds it. *)
Definition keeps_session {A : Type} (p : Prog World A) : Prop :=
  forall w,
    w_merged_df (snd (p w)) = w_merged_df w /\
    w_last_merge_time (snd (p w)) = w_last_merge_time w.

(** The column [NumericScalingTransformer.transform] stores the scaled
    data in. *)
Definition scaling_target (params : ScalingParams) : string :=
  let column := sc_column params in
  let method := get_default (sc_method params) "min_max" in
  let create_new_column := get_default (sc_create_new_column params) true in
  let new_column_name := get_default (sc_new_column_name params) EmptyString in
  let new_column_name :=
    if create_new_column && negb (truthy (Some new_column_name)) then
      if String.eqb method "min_max" then str_opt column +:+ "_scaled"
      else if String.eqb method "z_score" then str_opt column +:+ "_zscore"
      else if String.eqb method "max_abs" then str_opt column +:+ "_maxabs"
      else if String.eqb method "custom_range" then str_opt column +:+ "_custom"
      else new_column_name
    else new_column_name in
  if create_new_column then new_column_name else str_opt column.

(** A registry in which every instance is kept under its own name. *)
Definition keyed_by_name (transformers : Registry) : Prop :=
  forall name cls, transformers !! name = Some cls -> name = name_of cls.

(** A program that deletes no object: the heap it leaves is at least as
    long as the one it started from. *)
Definition grows {A : Type} (p : Prog Heap A) : Prop :=
  forall h, (length h <= length (snd (p h)))%nat.

(** A program that leaves the heap as it was. *)
Definition reads_only {A : Type} (p : Prog Heap A) : Prop :=
  forall h, snd (p h) = h.

(** A program that, when it raises, has changed no object of the heap
    it started from. *)
Definition fails_cleanly {A : Type} (p : Prog Heap A) : Prop :=
  forall h e, fst (p h) = Raise e -> h `prefix_of` snd (p h).

(** *** A small instance of the environment

    Simple stand-ins for the library calls, on which the properties
    below are run: a reader for plain comma- or semicolon-separated
    text, a similarity that compares common prefixes, an evaluator that
    knows only column names. *)

Definition newline : string := String (ascii_of_nat 10) EmptyString.

Definition toy_decode (encoding bytes : string) : Result string := Ok bytes.

Definition toy_detect (sample : string) : Result (option string * Q) :=
  Ok (Some "utf-8", 1%Q).

Definition toy_cell (t : string) : Pd.Cell :=
  match t with
  | EmptyString => Pd.NaN
  | _ => if PyStr.isdigit t then Pd.CInt (PyStr.digits_value (fst (PyStr.digits_prefix t)))
         else Pd.CText t
  end.

Definition toy_read_csv (f : UploadedFile) (kw : ReadKwargs) : Result Pd.DataFrame :=
  let sep := match csv_delimiter kw with String a _ => a | EmptyString => ","%char end in
  match List.filter (fun l => negb (String.eqb l EmptyString))
                    (PyStr.split (ascii_of_nat 10) (file_bytes f)) with
  | [] => Raise (OtherError "No columns to parse from file")
  | header :: rows =>
      Ok (Pd.mkDF (length rows)
            (map (fun p => (snd p,
                            Pd.plain (map (fun r => toy_cell (nth (fst p) (PyStr.split sep r)
                                                                  EmptyString)) rows)))
                 (combine (seq 0 (length (PyStr.split sep header)))
                          (PyStr.split sep header))))
  end.

Definition toy_unreadable (f : UploadedFile) (kw : ReadKwargs) : Result Pd.DataFrame :=
  Raise (OtherError "not a workbook").

Definition toy_json_load (bytes : string) : Result (Json unit) :=
  Raise (ValueError "Expecting value").

Definition toy_normalize (items : list unit) : Result Pd.DataFrame :=
  Raise (OtherError "nothing to normalize").

Definition toy_record (fields : list (string * (list unit + unit))) : Result Pd.DataFrame :=
  Raise (OtherError "nothing to tabulate").

Fixpoint common_prefix (a b : string) : nat :=
  match a, b with
  | String x a', String y b' => if Ascii.eqb x y then S (common_prefix a' b') else 0
  | _, _ => 0
  end.

(** Twice the common prefix over the total length. *)
Definition toy_ratio (a b : string) : Q :=
  match (String.length a + String.length b)%nat with
  | O => 1%Q
  | S n => Qmake (Z.of_nat (2 * common_prefix a b)) (Pos.of_succ_nat n)
  end.

Definition toy_stat (s : Pd.Series) : Pd.Cell := Pd.NaN.

Definition toy_mode (s : Pd.Series) : list Pd.Cell := [].

Definition toy_merge (left right : Pd.DataFrame) (key : option string) (how suffix : string)
  : Result Pd.DataFrame := Ok left.

Definition toy_order (l : list string) : list string := l.

Definition toy_now : string := "2024-01-01 00:00:00".

Definition toy_std (l : list (option Q)) : option Q := None.

Definition toy_apply (name : string) (x : Q) : Pd.Cell := Pd.CFloat x.

Definition toy_power (x y : option Q) : Pd.Cell := Pd.NaN.

Definition toy_agg (name : string) (row : list (option Q)) : Pd.Cell := Pd.NaN.

Definition toy_cut_width (x : list (option Q)) (n : Z) (labels : option (list string))
           (right : bool) : Result Pd.Series :=
  Raise (OtherError "not available").

Definition toy_qcut (x : list (option Q)) (n : Z) (labels : option (list string))
  : Result Pd.Series :=
  Raise (OtherError "not available").

Definition toy_to_datetime (fmt : option string) (s : Pd.Series) : Result Pd.Series := Ok s.

Definition toy_strftime (fmt : option string) (s : Pd.Series) : Result Pd.Series := Ok s.

Definition toy_component (name : string) (s : Pd.Series) : Result Pd.Series := Ok s.

Definition toy_seconds (e s : Pd.Series) : Result (list (option Q)) :=
  Ok (map (fun _ => None) (Pd.data s)).

Definition toy_series_op (s : Pd.Series) : Result Pd.Series := Ok s.

Definition toy_str (c : Pd.Cell) : string :=
  match c with
  | Pd.CText t => t
  | Pd.NaN => "nan"
  | _ => "?"
  end.

Definition toy_compile (pattern : string) : Result string := Ok pattern.

Definition toy_search (pattern text : string) : option string :=
  if PyStr.contains pattern text then Some pattern else None.

Definition toy_replace (pattern repl : string) (case_sensitive : bool) (s : Pd.Series)
  : Result Pd.Series := Ok s.

(** An evaluator for expressions that are one name of the namespace. *)
Definition toy_eval (expression : string) (globals locals : list (string * PyObj))
  : Result Pd.Series :=
  match find (fun p => String.eqb (fst p) expression) locals with
  | Some (_, ObjSeries s) => Ok s
  | _ => Raise (OtherError ("name '" +:+ expression +:+ "' is not defined"))
  end.

Definition toy_as_column (value : Pd.Series) (d : Pd.DataFrame) : Result Pd.Series :=
  Ok value.

(** Two small files, an oversized one, and a request. *)
Definition people_csv : UploadedFile :=
  mkFile "people.csv" "text/csv" 40
         ("ID,Name" +:+ newline +:+ "1,Ann" +:+ newline +:+ "2,Bob" +:+ newline).

Definition cities_csv : UploadedFile :=
  mkFile "cities.csv" "text/csv" 30
         ("City;Zip" +:+ newline +:+ "Rome;100" +:+ newline).

Definition wide_csv : UploadedFile :=
  mkFile "wide.csv" "text/csv" 20 ("a;b;c;d;e;f;g;h" +:+ newline +:+ "1;2;3;4;5;6;7;8").

Definition huge_csv : UploadedFile :=
  mkFile "huge.csv" "text/csv" (200 * 1024 * 1024) "a,b".

Definition toy_merger : FileMerger := mkMerger 100 ["csv"; "xlsx"; "json"].

Definition toy_options (method : string) (key : option string) : MergeOptions :=
  mkOptions method key "outer" false "merged" true false false None None None.

Definition toy_world (o : MergeOptions) : World := mkWorld o [] None None.

Definition people : Pd.DataFrame :=
  Pd.mkDF 2 [("id", Pd.plain [Pd.CInt 1; Pd.CInt 2]);
             ("name", Pd.plain [Pd.CText "Ann"; Pd.CText "Bob"])].

Definition cities : Pd.DataFrame :=
  Pd.mkDF 1 [("city", Pd.plain [Pd.CText "Rome"]); ("zip", Pd.plain [Pd.CInt 100])].

Definition ages : Pd.DataFrame :=
  Pd.mkDF 3 [("age", Pd.plain [Pd.CInt 10; Pd.CInt 40; Pd.CInt 70]);
             ("n", Pd.plain [Pd.CInt 2; Pd.CInt 0; Pd.CInt 7])].

Definition pay : Pd.DataFrame :=
  Pd.mkDF 1 [("a", Pd.plain [Pd.CInt 1]); ("Salary", Pd.plain [Pd.CInt 3000])].

(** A strict UTF-8 decoder, as [bytes.decode('utf-8')] is: the text is
    kept as its bytes, and the bytes are refused (a [UnicodeDecodeError],
    which is a [ValueError]) when a multi-byte character is malformed or
    cut short.  [pending] counts the continuation bytes still due. *)
Fixpoint utf8_well_formed (pending : nat) (bytes : string) : bool :=
  match bytes with
  | EmptyString => (pending =? 0)%nat
  | String a r =>
      let n := nat_of_ascii a in
      match pending with
      | S k => (128 <=? n)%nat && (n <? 192)%nat && utf8_well_formed k r
      | O =>
          if (n <? 128)%nat then utf8_well_formed 0 r
          else if (194 <=? n)%nat && (n <? 224)%nat then utf8_well_formed 1 r
          else if (224 <=? n)%nat && (n <? 240)%nat then utf8_well_formed 2 r
          else if (240 <=? n)%nat && (n <? 245)%nat then utf8_well_formed 3 r
          else false
      end
  end.

Definition utf8_strict (encoding bytes : string) : Result string :=
  if utf8_well_formed 0 bytes then Ok bytes
  else Raise (ValueError "'utf-8' codec can't decode bytes: unexpected end of data").

(** [n] times the two bytes of the character e-acute in UTF-8. *)
Fixpoint accented (n : nat) : string :=
  match n with
  | O => EmptyString
  | S k => String (ascii_of_nat 195) (String (ascii_of_nat 169) (accented k))
  end.

(** A semicolon-separated file in UTF-8: a header of 15 bytes and a line
    of two-byte characters, so that bytes 4095 and 4096 are the two
    bytes of one character. *)
Definition cut_csv : UploadedFile :=
  mkFile "cut.csv" "text/csv" 4116
         ("id;b;c;d;e;f;g" +:+ newline +:+ accented 2050 +:+ newline).

(** Stand-ins for the library calls of the transformation lists, and a
    JSON document that [pd.read_json] refuses. *)
Definition toy_astype_bool (s : Pd.Series) : Result Pd.Series := Ok s.

Definition toy_series_replace (find_val : Pd.Cell) (replace_val : option Pd.Cell)
           (s : Pd.Series) : Result Pd.Series := Ok s.

Definition toy_series_eq (s : Pd.Series) (v : Pd.Cell) : Result (list bool) :=
  Raise (OtherError "not comparable").

Definition toy_str_contains (pattern : string) (s : Pd.Series) : Result (list bool) :=
  Raise (ReError "nothing to repeat").

Definition toy_py_float (v : Pd.Cell) : Result Q :=
  match v with
  | Pd.CInt z => Ok (inject_Z z)
  | Pd.CFloat q => Ok q
  | _ => Raise (ValueError "could not convert string to float")
  end.

Definition toy_read_json (f : UploadedFile) (kw : ReadKwargs) : Result Pd.DataFrame :=
  Raise (ValueError "Mixing dicts with non-Series may lead to ambiguous ordering.").

Definition toy_json_document (bytes : string) : Result (Json unit) :=
  Ok (JDict [("count", inr tt); ("items", inl [tt; tt])]).

Definition toy_rows (items : list unit) : Result Pd.DataFrame :=
  Ok (Pd.mkDF (length items) []).

Definition items_json : UploadedFile :=
  mkFile "items.json" "application/json" 40 "{}".

(** A table with a repeated row and a missing cell. *)
Definition visits : Pd.DataFrame :=
  Pd.mkDF 3 [("ID", Pd.plain [Pd.CInt 1; Pd.CInt 2; Pd.CInt 1]);
             ("Note", Pd.plain [Pd.CText "a"; Pd.NaN; Pd.CText "a"])].

(** * Properties *)

(** Forget the library calls the goal does not mention, so that
    automation cannot pick them up. *)
Ltac independent :=
  try clear py_float;
  try clear str_contains;
  try clear series_ne;
  try clear series_eq;
  try clear series_replace;
  try clear astype_bool;
  try clear as_column;
  try clear py_eval;
  try clear PyValue;
  try clear str_replace;
  try clear re_search;
  try clear re_compile;
  try clear Regex;
  try clear str_capitalize;
  try clear str_title;
  try clear cell_str;
  try clear series_round2;
  try clear series_abs;
  try clear total_seconds;
  try clear dt_component;
  try clear dt_strftime;
  try clear pd_to_datetime;
  try clear pd_qcut;
  try clear pd_cut_width;
  try clear agg_row;
  try clear np_power;
  try clear np_apply;
  try clear float_eps;
  try clear series_std;
  try clear text_to_number;
  try clear now;
  try clear set_order;
  try clear pd_merge;
  try clear series_mode;
  try clear series_median;
  try clear series_mean;
  try clear ratio;
  try clear pd_frame_of_record;
  try clear pd_json_normalize;
  try clear json_load;
  try clear JsonValue;
  try clear pd_read_json;
  try clear pd_read_excel;
  try clear pd_read_csv;
  try clear chardet_detect;
  try clear decode.

Lemma lower_ascii_idem (a : ascii) :
  PyStr.lower_ascii (PyStr.lower_ascii a) = PyStr.lower_ascii a.
Proof. independent. destruct a as [[] [] [] [] [] [] [] []]; reflexivity. Qed.

Lemma lower_idem (s : string) : PyStr.lower (PyStr.lower s) = PyStr.lower s.
Proof. independent. induction s as [|a s IH]; simpl; [reflexivity|]. by rewrite lower_ascii_idem, IH. Qed.

Lemma norm_key_set (o : MergeOptions) :
  ignore_case o = true ->
  norm_key (set_join_key (option_map PyStr.lower (join_key o)) o) = norm_key o.
Proof. independent.
  intros H. unfold norm_key. simpl. rewrite H.
  destruct (join_key o); simpl; [|reflexivity]. by rewrite lower_idem.
Qed.

Lemma file_outcome_set (m : FileMerger) (o : MergeOptions) (f : UploadedFile) :
  ignore_case o = true ->
  file_outcome m (set_join_key (option_map PyStr.lower (join_key o)) o) f
  = file_outcome m o f.
Proof. independent.
  intros H. unfold file_outcome. rewrite norm_key_set by done.
  reflexivity.
Qed.

Lemma has_column_str (df : Pd.DataFrame) (k : option string) :
  truthy k = true -> has_column df k = PyStr.mem (str_opt k) (Pd.columns df).
Proof. independent. destruct k as [[|]|]; simpl; intros; done. Qed.

Lemma load_step_spec (m : FileMerger) (total i : nat) (f : UploadedFile)
      (acc : Loaded) (w : World) :
  let o := w_options w in
  let r := file_outcome m o f in
  (is_join o = true -> truthy (join_key o) = true) ->
  exists acc' w',
    load_step m total i f acc w = (Ok acc', w') /\
    l_dfs acc' = (l_dfs acc ++ outcome_tables r)%list /\
    l_file_names acc' =
      (l_file_names acc ++ map (fun _ => file_name f) (outcome_tables r))%list /\
    l_error_messages acc' = (l_error_messages acc ++ outcome_diagnostics r)%list /\
    w_options w' = options_after m o [f].
Proof. independent.
  intros o r Hkey. subst r. unfold load_step, file_outcome, options_after, loads.
  simpl existsb. rewrite orb_false_r.
  unfold prog_bind, emit, prog_modify, options, assign_join_key, prog_ret. simpl.
  fold o.
  destruct (load_data m f) as [[df|] [[|a e]|]]; simpl.
  all: try (eexists _, _; repeat split; simpl; rewrite ?app_nil_r, ?andb_false_r; reflexivity).
  all: destruct (Pd.empty df) eqn:He; simpl.
  all: try (eexists _, _; repeat split; simpl; rewrite ?app_nil_r, ?andb_false_r; reflexivity).
  all: unfold norm_key, normalized, key_in_columns, has_column, is_join in *; simpl.
  all: destruct (ignore_case o) eqn:Hic; simpl.
  all: destruct (join_key o) as [[|c k]|] eqn:Hk; simpl; rewrite ?Hk; simpl.
  all: destruct (PyStr.startswith "Join" (merge_method o)) eqn:Hj; simpl;
    try (specialize (Hkey eq_refl); rewrite Hk in Hkey; discriminate Hkey).
  all: try (eexists _, _; repeat split; simpl; rewrite ?app_nil_r; reflexivity).
  all: match goal with |- context [PyStr.mem ?a ?b] => destruct (PyStr.mem a b) end; simpl.
  all: try (eexists _, _; repeat split; simpl; rewrite ?app_nil_r; reflexivity).
Qed.

Lemma options_after_cons (m : FileMerger) (o : MergeOptions) (f : UploadedFile)
      (files : list UploadedFile) :
  options_after m (options_after m o [f]) files = options_after m o (f :: files).
Proof. independent.
  unfold options_after. simpl existsb. rewrite orb_false_r.
  destruct (ignore_case o) eqn:Hic; simpl; [|by rewrite Hic].
  destruct (join_key o) as [[|c k]|] eqn:Hk; simpl; rewrite ?Hic, ?Hk; simpl; try done.
  destruct (loads m f); simpl; rewrite ?Hic, ?Hk; simpl; [|done].
  rewrite lower_ascii_idem, lower_idem.
  by destruct (existsb (loads m) files).
Qed.

Lemma file_outcome_after (m : FileMerger) (o : MergeOptions) (f f' : UploadedFile) :
  file_outcome m (options_after m o [f]) f' = file_outcome m o f'.
Proof. independent.
  unfold options_after.
  destruct (ignore_case o) eqn:Hic; simpl; [|done].
  destruct (_ && _); [|done]. by apply file_outcome_set.
Qed.

Lemma options_after_guard (m : FileMerger) (o : MergeOptions) (files : list UploadedFile) :
  (is_join o = true -> truthy (join_key o) = true) ->
  is_join (options_after m o files) = true ->
  truthy (join_key (options_after m o files)) = true.
Proof. independent.
  unfold options_after. intros H.
  destruct (ignore_case o && truthy (join_key o) && existsb (loads m) files) eqn:E;
    [|done].
  intros _. apply andb_prop in E as [E _]. apply andb_prop in E as [_ E].
  destruct (join_key o) as [[|c k]|]; simpl in *; done.
Qed.

Lemma load_loop_spec (m : FileMerger) (total : nat) (files : list UploadedFile) :
  forall (i : nat) (acc : Loaded) (w : World),
    let o := w_options w in
    (is_join o = true -> truthy (join_key o) = true) ->
    exists acc' w',
      load_loop m total i files acc w = (Ok acc', w') /\
      l_dfs acc' =
        (l_dfs acc ++ flat_map (fun f => outcome_tables (file_outcome m o f)) files)%list /\
      l_file_names acc' =
        (l_file_names acc ++
         flat_map (fun f => map (fun _ => file_name f)
                                (outcome_tables (file_outcome m o f))) files)%list /\
      l_error_messages acc' = (l_error_messages acc ++ request_diagnostics m o files)%list /\
      w_options w' = options_after m o files.
Proof. independent.
  induction files as [|f files IH]; intros i acc w o Hkey.
  - exists acc, w. unfold options_after, request_diagnostics. simpl.
    rewrite !app_nil_r, andb_false_r. done.
  - destruct (load_step_spec m total i f acc w Hkey) as (acc1 & w1 & E1 & D1 & N1 & M1 & O1).
    fold o in D1, N1, M1, O1.
    destruct (IH (S i) acc1 w1) as (acc2 & w2 & E2 & D2 & N2 & M2 & O2).
    { rewrite O1. by apply options_after_guard. }
    exists acc2, w2. simpl load_loop. unfold prog_bind. rewrite E1, E2.
    rewrite O1 in D2, N2, M2, O2.
    unfold request_diagnostics in *. simpl flat_map.
    split; [done|].
    rewrite D2, N2, M2, O2, D1, N1, M1, <- !app_assoc.
    repeat split.
    + do 2 f_equal. apply flat_map_ext. intros. by rewrite file_outcome_after.
    + do 2 f_equal. apply flat_map_ext. intros. by rewrite file_outcome_after.
    + do 2 f_equal. apply flat_map_ext. intros. by rewrite file_outcome_after.
    + apply options_after_cons.
Qed.

Lemma keeps_ret {A : Type} (a : A) : keeps_options (prog_ret a).
Proof. independent. intros w. reflexivity. Qed.

Lemma keeps_raise {A : Type} (e : exn) : keeps_options (@prog_raise World A e).
Proof. independent. intros w. reflexivity. Qed.

Lemma keeps_lift {A : Type} (r : Result A) : keeps_options (prog_lift r).
Proof. independent. intros w. reflexivity. Qed.

Lemma keeps_emit (e : UiEvent) : keeps_options (emit e).
Proof. independent. intros w. reflexivity. Qed.

Lemma keeps_save (d : Pd.DataFrame) (t : string) : keeps_options (save_session d t).
Proof. independent. intros w. reflexivity. Qed.

Lemma keeps_bind {A B : Type} (p : Prog World A) (k : A -> Prog World B) :
  keeps_options p -> (forall a, keeps_options (k a)) -> keeps_options (prog_bind p k).
Proof. independent.
  intros Hp Hk w. unfold prog_bind. specialize (Hp w).
  destruct (p w) as [[a|e] w1]; simpl in *; [|done].
  by rewrite Hk.
Qed.

Create HintDb keeps.
#[local] Hint Resolve keeps_ret keeps_raise keeps_lift keeps_emit keeps_save : keeps.

Ltac keeps_tac :=
  repeat first
    [ solve [auto with keeps]
    | apply keeps_bind; [|intros]
    | match goal with
      | |- keeps_options (if ?c then _ else _) => destruct c
      | |- keeps_options (match ?x with _ => _ end) => destruct x
      end ].

Lemma keeps_duplicates_stage (o : MergeOptions) (name : string) (df : Pd.DataFrame) :
  keeps_options (duplicates_stage o name df).
Proof. independent. unfold duplicates_stage. keeps_tac. Qed.

Lemma keeps_clean_loop (o : MergeOptions) (dfs : list Pd.DataFrame) :
  forall names, keeps_options (clean_loop o dfs names).
Proof. independent.
  induction dfs as [|df dfs IH]; intros names; simpl; [apply keeps_ret|].
  apply keeps_bind; [apply keeps_lift|intros].
  apply keeps_bind; [apply keeps_duplicates_stage|intros].
  apply keeps_bind; [apply IH|intros]. apply keeps_ret.
Qed.

Lemma keeps_show_mappings (l : list (string * list (string * string))) :
  keeps_options (show_mappings l).
Proof. independent.
  induction l as [|[file mappings] l IH]; simpl; [apply keeps_ret|].
  apply keeps_bind; [apply keeps_emit|intros].
  apply keeps_bind; [|intros; apply IH].
  induction mappings as [|p ps IHp]; simpl; [apply keeps_ret|].
  apply keeps_bind; [apply keeps_emit|intros; apply IHp].
Qed.

Lemma keeps_join_merge (o : MergeOptions) (dfs : list Pd.DataFrame) (names : list string) :
  keeps_options (join_merge o dfs names).
Proof. independent.
  unfold join_merge. destruct dfs as [|first rest]; [apply keeps_raise|].
  apply keeps_bind; [|intros; keeps_tac].
  destruct (matching_columns o); [|apply keeps_ret].
  apply keeps_bind; [apply keeps_emit|intros].
  apply keeps_bind; [|intros; apply keeps_ret].
  destruct (flat_map _ _); [apply keeps_ret|].
  apply keeps_bind; [apply keeps_emit|intros; apply keeps_show_mappings].
Qed.

Lemma keeps_smart_merge (dfs : list Pd.DataFrame) : keeps_options (smart_merge dfs).
Proof. independent. unfold smart_merge. keeps_tac. Qed.

Lemma keeps_merge_tables (o : MergeOptions) (dfs : list Pd.DataFrame) (names : list string) :
  keeps_options (merge_tables o dfs names).
Proof. independent.
  unfold merge_tables. apply keeps_bind; [apply keeps_emit|intros].
  destruct (String.eqb _ _); [keeps_tac|].
  destruct (String.eqb _ _); [apply keeps_join_merge|].
  destruct (String.eqb _ _); [apply keeps_smart_merge|apply keeps_raise].
Qed.

Lemma options_after_nil_key (m : FileMerger) (o : MergeOptions) (files : list UploadedFile) :
  truthy (join_key o) = false -> options_after m o files = o.
Proof. independent. unfold options_after. intros ->. by rewrite andb_false_r. Qed.

Lemma keeps_merge_phase (dfs : list Pd.DataFrame) (names : list string) :
  keeps_options (merge_phase dfs names).
Proof. independent.
  unfold merge_phase.
  apply keeps_bind; [intros ?; reflexivity|intros].
  apply keeps_bind; [apply keeps_clean_loop|intros].
  apply keeps_bind; [apply keeps_merge_tables|intros].
  apply keeps_bind; [apply keeps_save|intros]. apply keeps_ret.
Qed.

(** The options dictionary after [process_files]. *)
Lemma process_files_options (m : FileMerger) (files : list UploadedFile) (w : World) :
  w_options (snd (process_files m files w)) = options_after m (w_options w) files.
Proof. independent.
  unfold process_files. destruct files as [|f files].
  { unfold options_after. simpl. by rewrite andb_false_r. }
  set (fs := f :: files).
  unfold prog_bind at 1. unfold options at 1.
  destruct (is_join (w_options w) && negb (truthy (join_key (w_options w)))) eqn:G.
  { simpl. apply andb_prop in G as [_ G]. rewrite options_after_nil_key; [done|].
    by destruct (truthy _). }
  unfold prog_bind at 1. unfold emit at 1, prog_modify at 1.
  unfold prog_bind at 1.
  match goal with |- context [load_loop m ?t ?i fs ?a ?w0] =>
    destruct (load_loop_spec m t fs i a w0) as (acc & w1 & E & D & N & M & O) end.
  { simpl. intros Hj. rewrite Hj in G. simpl in G. by destruct (truthy _). }
  rewrite E. simpl in O.
  unfold prog_bind at 1. unfold emit at 1, prog_modify at 1.
  destruct (l_error_messages acc); [|done].
  destruct (l_dfs acc); [done|].
  rewrite <- O.
  match goal with |- w_options (snd (?p ?w0)) = _ => change (w_options w1) with (w_options w0) end.
  apply keeps_merge_phase.
Qed.

(** Without diagnostics, the loaded tables go through cleaning and
    merging, with the options the loop left. *)
Lemma process_files_merges (m : FileMerger) (files : list UploadedFile) (w : World) :
  let o := w_options w in
  let tables := flat_map (fun f => outcome_tables (file_outcome m o f)) files in
  let names := flat_map (fun f => map (fun _ => file_name f)
                                      (outcome_tables (file_outcome m o f))) files in
  (is_join o = true -> truthy (join_key o) = true) ->
  request_diagnostics m o files = [] ->
  tables <> [] ->
  exists w',
    w_options w' = options_after m o files /\
    process_files m files w = merge_phase tables names w'.
Proof. independent.
  intros o tables names Hkey Hd Ht. unfold process_files.
  destruct files as [|f files]; [done|].
  set (fs := f :: files) in *.
  unfold prog_bind at 1. unfold options at 1. fold o.
  destruct (is_join o && negb (truthy (join_key o))) eqn:G.
  { apply andb_prop in G as [G1 G2]. rewrite (Hkey G1) in G2. done. }
  unfold prog_bind at 1. unfold emit at 1, prog_modify at 1.
  unfold prog_bind at 1.
  match goal with |- context [load_loop m ?t ?i fs ?a ?w0] =>
    destruct (load_loop_spec m t fs i a w0) as (acc & w1 & E & D & N & M & O) end.
  { exact Hkey. }
  rewrite E.
  change (l_error_messages acc = request_diagnostics m o fs) in M.
  change (l_dfs acc = tables) in D. change (l_file_names acc = names) in N.
  change (w_options w1 = options_after m o fs) in O.
  unfold prog_bind at 1. unfold emit at 1, prog_modify at 1.
  rewrite M, Hd, D, N. destruct tables as [|t ts] eqn:Et; [done|].
  eexists. split; [|reflexivity]. exact O.
Qed.

(** When the loop collects diagnostics, they are all that is returned. *)
Lemma process_files_errors (m : FileMerger) (files : list UploadedFile) (w : World) :
  let o := w_options w in
  files <> [] ->
  (is_join o = true -> truthy (join_key o) = true) ->
  request_diagnostics m o files <> [] ->
  fst (process_files m files w) = Ok (None, Some (request_diagnostics m o files)).
Proof. independent.
  intros o Hne Hkey Hd. unfold process_files. destruct files as [|f files]; [done|].
  set (fs := f :: files) in *.
  unfold prog_bind at 1. unfold options at 1. fold o.
  destruct (is_join o && negb (truthy (join_key o))) eqn:G.
  { apply andb_prop in G as [G1 G2]. rewrite (Hkey G1) in G2. done. }
  unfold prog_bind at 1. unfold emit at 1, prog_modify at 1.
  unfold prog_bind at 1.
  match goal with |- context [load_loop m ?t ?i fs ?a ?w0] =>
    destruct (load_loop_spec m t fs i a w0) as (acc & w1 & E & D & N & M & O) end.
  { exact Hkey. }
  rewrite E. change (l_error_messages acc = request_diagnostics m o fs) in M.
  unfold prog_bind at 1. unfold emit at 1, prog_modify at 1.
  rewrite M. destruct (request_diagnostics m o fs); [done|]. reflexivity.
Qed.

Lemma load_data_failure (m : FileMerger) (f : UploadedFile) (df : option Pd.DataFrame)
      (e : string) :
  load_data m f = (df, Some e) -> df = None /\ exists a r, e = String a r.
Proof. independent.
  unfold load_data.
  destruct (_ <? _)%N; [intros [= <- <-]; split; [done|]; by eexists _, _|].
  destruct (negb _); [intros [= <- <-]; split; [done|]; by eexists _, _|].
  destruct (read_file _ _ _) as [[d|]|x]; [destruct (Pd.empty d)|..];
    intros [= <- <-] || intros [=]; split; try done; by eexists _, _.
Qed.

Lemma load_data_success (m : FileMerger) (f : UploadedFile) (df : Pd.DataFrame)
      (e : option string) :
  load_data m f = (Some df, e) -> e = None /\ Pd.empty df = false.
Proof. independent.
  unfold load_data.
  destruct (_ <? _)%N; [done|]. destruct (negb _); [done|].
  destruct (read_file _ _ _) as [[d|]|x]; [destruct (Pd.empty d) eqn:E|..]; try done.
  intros [= <- <-]. done.
Qed.

Lemma diagnostics_of_file (m : FileMerger) (o : MergeOptions) (files : list UploadedFile)
      (f : UploadedFile) :
  In f files ->
  exists pre post,
    request_diagnostics m o files
    = (pre ++ outcome_diagnostics (file_outcome m o f) ++ post)%list.
Proof. independent.
  intros Hin. apply in_split in Hin as (l1 & l2 & ->).
  unfold request_diagnostics. rewrite flat_map_app. simpl.
  by eexists _, _.
Qed.

Lemma outcome_rejected (m : FileMerger) (o : MergeOptions) (f : UploadedFile) (e : string) :
  load_data m f = (None, Some e) -> file_outcome m o f = Rejected e.
Proof. independent.
  intros H. destruct (load_data_failure _ _ _ _ H) as (_ & a & r & ->).
  unfold file_outcome. by rewrite H.
Qed.

Lemma outcome_missing_key (m : FileMerger) (o : MergeOptions) (f : UploadedFile)
      (df : Pd.DataFrame) :
  is_join o = true ->
  load_data m f = (Some df, None) ->
  has_column (normalized o df) (norm_key o) = false ->
  file_outcome m o f
  = MissingKey (missing_key_diagnostics (file_name f) (str_opt (norm_key o))
                                        (Pd.columns (normalized o df))).
Proof. independent.
  intros Hj H Hc. destruct (load_data_success _ _ _ _ H) as [_ He].
  unfold file_outcome. by rewrite H, He, Hj, Hc.
Qed.

Lemma insert_desc_In (key : string -> Q) (x y : string) (l : list string) :
  In y (insert_desc key x l) -> y = x \/ In y l.
Proof. independent.
  induction l as [|z l IH]; simpl.
  - intros [->|[]]. by left.
  - destruct (Qle_bool _ _); simpl.
    + intros [->|[->|H]]; [by left|right; by left|right; by right].
    + intros [->|H]; [right; by left|].
      destruct (IH H) as [->|H']; [by left|right; by right].
Qed.

Lemma sorted_desc_In (key : string -> Q) (y : string) (l : list string) :
  In y (sorted_desc key l) -> In y l.
Proof. independent.
  induction l as [|x l IH]; simpl; [tauto|].
  intros H. apply insert_desc_In in H as [->|H]; [by left|]. right. by apply IH.
Qed.

(** Every suggestion is a label of the table that clears the threshold. *)
Lemma suggestion_sound (source : string) (targets : list string) (threshold : Q) (c : string) :
  In c (suggest_column_mapping source targets threshold) ->
  In c targets /\ (threshold <= similarity source c)%Q.
Proof. independent.
  unfold suggest_column_mapping. intros H. apply sorted_desc_In in H.
  apply filter_In in H as [H1 H2]. split; [done|]. by apply Qle_bool_iff.
Qed.

Lemma firstn_subset {A : Type} (n : nat) (l : list A) (x : A) :
  In x (firstn n l) -> In x l.
Proof. independent.
  revert l. induction n as [|n IH]; intros [|y l]; simpl; try tauto.
  intros [->|H]; [by left|right; by apply IH].
Qed.

(** C1.  In a Join request with a key, if some loaded table lacks the
    (case-normalized) key column, [process_files] returns no table but
    all the diagnostics accumulated over the files; for each such table
    these contain the missing-key error followed, when the reconciler
    finds similar labels, by one message that lists at most three of
    them, each a label of that table whose similarity to the key clears
    the threshold 0.8. *)
Theorem join_missing_key_fails (m : FileMerger) (files : list UploadedFile) (w : World) :
  let o := w_options w in
  is_join o = true ->
  truthy (join_key o) = true ->
  (exists f df, In f files /\ load_data m f = (Some df, None) /\
                has_column (normalized o df) (norm_key o) = false) ->
  fst (process_files m files w) = Ok (None, Some (request_diagnostics m o files)) /\
  request_diagnostics m o files <> [] /\
  forall f df,
    In f files -> load_data m f = (Some df, None) ->
    has_column (normalized o df) (norm_key o) = false ->
    let key := str_opt (norm_key o) in
    let cols := Pd.columns (normalized o df) in
    exists shown pre post,
      shown = firstn 3 (suggest_column_mapping key cols (8 # 10)) /\
      (length shown <= 3)%nat /\
      Forall (fun c => In c cols /\ (8 # 10 <= similarity key c)%Q) shown /\
      request_diagnostics m o files
      = (pre ++ missing_key_message (file_name f) key ::
             match shown with
             | [] => []
             | _ => [similar_columns_message shown]
             end ++ post)%list.
Proof. independent.
  intros o Hj Hk Hex.
  assert (Hall : forall f df,
    In f files -> load_data m f = (Some df, None) ->
    has_column (normalized o df) (norm_key o) = false ->
    exists pre post,
      request_diagnostics m o files
      = (pre ++ missing_key_message (file_name f) (str_opt (norm_key o)) ::
             match firstn 3 (suggest_column_mapping (str_opt (norm_key o))
                               (Pd.columns (normalized o df)) (8 # 10)) with
             | [] => []
             | _ => [similar_columns_message
                       (firstn 3 (suggest_column_mapping (str_opt (norm_key o))
                                    (Pd.columns (normalized o df)) (8 # 10)))]
             end ++ post)%list).
  { intros f df Hin Hl Hc.
    destruct (diagnostics_of_file m o files f Hin) as (pre & post & E).
    rewrite (outcome_missing_key m o f df Hj Hl Hc) in E. simpl in E.
    exists pre, post. rewrite E. f_equal. unfold missing_key_diagnostics. simpl.
    f_equal. f_equal.
    destruct (suggest_column_mapping _ _ _) as [|a [|b [|c r]]]; reflexivity. }
  assert (Hne : request_diagnostics m o files <> []).
  { destruct Hex as (f & df & Hin & Hl & Hc).
    destruct (Hall f df Hin Hl Hc) as (pre & post & E). rewrite E.
    by destruct pre. }
  split; [|split; [exact Hne|]].
  - apply process_files_errors; [|by intros _|exact Hne].
    destruct Hex as (f & _ & Hin & _). by destruct files.
  - intros f df Hin Hl Hc key cols.
    destruct (Hall f df Hin Hl Hc) as (pre & post & E).
    eexists _, pre, post. split; [reflexivity|]. split; [|split; [|exact E]].
    + rewrite length_firstn. lia.
    + apply List.Forall_forall. intros c Hc'. apply suggestion_sound.
      eapply firstn_subset. exact Hc'.
Qed.

(** A table is returned only by a request without any diagnostic. *)
Lemma table_only_without_diagnostics (m : FileMerger) (files : list UploadedFile)
      (w : World) (t : Pd.DataFrame) (errs : option (list string)) :
  fst (process_files m files w) = Ok (Some t, errs) ->
  request_diagnostics m (w_options w) files = [].
Proof. independent.
  set (o := w_options w). intros Hr.
  destruct (request_diagnostics m o files) as [|d ds] eqn:Ed; [done|].
  destruct files as [|f files]; [done|].
  destruct (is_join o && negb (truthy (join_key o))) eqn:G.
  { unfold process_files, prog_bind, options in Hr. fold o in Hr. rewrite G in Hr.
    discriminate Hr. }
  rewrite process_files_errors in Hr; [discriminate Hr|done| |fold o; by rewrite Ed].
  intros Hj. fold o in Hj |- *. rewrite Hj in G. simpl in G. by destruct (truthy _).
Qed.

(** C2, as amended.  When some file of a request fails to load (size,
    format, parse or empty file), that file gives no table to the merge,
    its message is among the diagnostics, and the whole request fails,
    whatever the strategy: no table is returned, only the diagnostics
    accumulated over all the files. *)
Theorem load_failure_fails_merge (m : FileMerger) (files : list UploadedFile) (w : World)
        (f : UploadedFile) (e : string) :
  let o := w_options w in
  (is_join o = true -> truthy (join_key o) = true) ->
  In f files ->
  load_data m f = (None, Some e) ->
  outcome_tables (file_outcome m o f) = [] /\
  In e (request_diagnostics m o files) /\
  fst (process_files m files w) = Ok (None, Some (request_diagnostics m o files)).
Proof. independent.
  intros o Hkey Hin Hl.
  pose proof (outcome_rejected m o f e Hl) as Ho.
  destruct (diagnostics_of_file m o files f Hin) as (pre & post & E).
  rewrite Ho in E. simpl in E.
  assert (Hi : In e (request_diagnostics m o files)).
  { rewrite E. apply in_or_app. right. by left. }
  split; [by rewrite Ho|]. split; [exact Hi|].
  apply process_files_errors; [by destruct files|exact Hkey|].
  intros Hnil. fold o in Hnil. by rewrite Hnil in Hi.
Qed.

(** C7, as amended.  [process_files] changes nothing of the options but
    the join key, which it replaces by its lower-case form when case
    normalization is on, a key is given and at least one file loads;
    otherwise the options are the same before and after. *)
Theorem options_only_join_key_lowered (m : FileMerger) (files : list UploadedFile)
        (w : World) :
  let o := w_options w in
  let o' := w_options (snd (process_files m files w)) in
  o' = set_join_key (join_key o') o /\
  join_key o' =
    (if ignore_case o && truthy (join_key o) && existsb (loads m) files
     then option_map PyStr.lower (join_key o) else join_key o).
Proof. independent.
  intros o o'. subst o'. rewrite process_files_options. fold o.
  unfold options_after.
  destruct (ignore_case o && truthy (join_key o) && existsb (loads m) files);
    split; try reflexivity.
  by destruct o.
Qed.

Lemma max_by_spec {A : Type} (key : A -> nat) (l : list A) :
  forall best,
    In (max_by key best l) (best :: l) /\
    forall x, In x (best :: l) -> (key x <= key (max_by key best l))%nat.
Proof. independent.
  induction l as [|y l IH]; intros best; simpl.
  - split; [by left|]. intros x [->|[]]. done.
  - destruct (IH (if (key best <? key y)%nat then y else best)) as [H1 H2].
    split.
    + destruct H1 as [H1|H1]; [|tauto].
      rewrite <- H1. destruct (key best <? key y)%nat; tauto.
    + intros x Hx.
      assert (Hb : (key best <= key (if (key best <? key y)%nat then y else best))%nat
                   /\ (key y <= key (if (key best <? key y)%nat then y else best))%nat).
      { destruct (Nat.ltb_spec (key best) (key y)); lia. }
      destruct Hb as [Hb Hy].
      pose proof (H2 _ (or_introl eq_refl)) as H3.
      destruct Hx as [->|[->|Hx]]; [lia|lia|]. apply H2. by right.
Qed.

Lemma likely_delimiter_spec (sample : string) :
  In (likely_delimiter sample) potential_delimiters /\
  forall d, In d potential_delimiters ->
            (PyStr.count d sample <= PyStr.count (likely_delimiter sample) sample)%nat.
Proof. independent. apply (max_by_spec (fun d => PyStr.count d sample)). Qed.

(** Reading delimited text without a delimiter supplied by the caller,
    when the first 4096 bytes decode in the encoding: the reader counts
    the comma, the semicolon, the tab and the pipe in the decoded
    sample; the delimiter handed to the CSV parser is a most frequent
    one of them exactly when its count exceeds 5, and the comma
    otherwise. *)
Lemma delimiter_detection (f : UploadedFile) (kw : ReadKwargs) (sample : string) :
  kw_sep kw = None ->
  kw_delimiter kw = None ->
  decode (match kw_encoding kw with Some e => e | None => "utf-8" end)
         (PyStr.take 4096 (file_bytes f)) = Ok sample ->
  exists kw' d,
    csv_kwargs f kw = Ok kw' /\
    read_file f "csv" kw = result_map Some (pd_read_csv f kw') /\
    In d potential_delimiters /\
    (forall d', In d' potential_delimiters ->
                (PyStr.count d' sample <= PyStr.count d sample)%nat) /\
    ((5 < PyStr.count d sample)%nat -> csv_delimiter kw' = String d EmptyString) /\
    ((PyStr.count d sample <= 5)%nat -> csv_delimiter kw' = ",").
Proof. independent.
  intros Hs Hd Hdec.
  exists (sniff_delimiter sample kw), (likely_delimiter sample).
  assert (E : csv_kwargs f kw = Ok (sniff_delimiter sample kw)).
  { unfold csv_kwargs. by rewrite Hd, Hs, Hdec. }
  destruct (likely_delimiter_spec sample) as [H1 H2].
  split; [exact E|]. split; [unfold read_file; simpl; by rewrite E|].
  split; [exact H1|]. split; [exact H2|].
  unfold sniff_delimiter, csv_delimiter.
  split; intros H.
  - apply Nat.ltb_lt in H. by rewrite H.
  - apply Nat.ltb_ge in H. rewrite H. by rewrite Hs, Hd.
Qed.

Lemma mem_In (x : string) (l : list string) : PyStr.mem x l = true <-> In x l.
Proof. independent.
  unfold PyStr.mem. rewrite existsb_exists. split.
  - intros (y & Hy & E). apply String.eqb_eq in E. by subst.
  - intros H. exists x. split; [done|]. apply String.eqb_refl.
Qed.

Lemma mem_app (x : string) (l l' : list string) :
  PyStr.mem x (l ++ l')%list = PyStr.mem x l || PyStr.mem x l'.
Proof. independent. unfold PyStr.mem. apply existsb_app. Qed.

Lemma filter_filter {A : Type} (p q : A -> bool) (l : list A) :
  List.filter p (List.filter q l) = List.filter (fun x => q x && p x) l.
Proof. independent.
  induction l as [|x l IH]; simpl; [done|].
  destruct (q x); simpl; [destruct (p x)|]; by rewrite IH.
Qed.

Lemma fold_add_label (l : list string) :
  forall acc,
    fold_left Pd.add_label l acc
    = (acc ++ List.filter (fun y => negb (PyStr.mem y acc)) (first_seen l))%list.
Proof. independent.
  induction l as [|x l IH]; intros acc; simpl; [by rewrite app_nil_r|].
  rewrite IH. unfold Pd.add_label. destruct (PyStr.mem x acc) eqn:Hx; simpl.
  - f_equal. rewrite filter_filter. apply filter_ext. intros y.
    destruct (String.eqb_spec x y) as [->|]; simpl; [by rewrite Hx|done].
  - rewrite <- app_assoc. simpl. do 2 f_equal.
    rewrite filter_filter. apply filter_ext. intros y.
    rewrite mem_app. simpl. rewrite orb_false_r, negb_orb.
    rewrite (String.eqb_sym y x). apply andb_comm.
Qed.

Lemma union_columns_fold (dfs : list Pd.DataFrame) :
  forall acc,
    fold_left (fun acc d => fold_left Pd.add_label (Pd.columns d) acc) dfs acc
    = fold_left Pd.add_label (flat_map Pd.columns dfs) acc.
Proof. independent.
  induction dfs as [|d dfs IH]; intros acc; simpl; [done|].
  by rewrite IH, fold_left_app.
Qed.

(** The labels of a concatenation: the union, in first-seen order. *)
Lemma union_columns_first_seen (dfs : list Pd.DataFrame) :
  Pd.union_columns dfs = first_seen (flat_map Pd.columns dfs).
Proof. independent.
  unfold Pd.union_columns. rewrite union_columns_fold, fold_add_label. simpl.
  induction (first_seen _) as [|x l IH]; simpl; [done|]. by rewrite IH.
Qed.

Lemma first_seen_In (x : string) (l : list string) : In x (first_seen l) <-> In x l.
Proof. independent.
  induction l as [|y l IH]; simpl; [tauto|].
  rewrite filter_In, IH.
  destruct (String.eqb_spec y x) as [->|Hne]; simpl; [intuition|].
  intuition congruence.
Qed.

Lemma first_seen_NoDup (l : list string) : NoDup (first_seen l).
Proof. independent.
  apply NoDup_ListNoDup.
  induction l as [|y l IH]; simpl; [constructor|].
  apply List.NoDup_cons.
  - rewrite filter_In. intros [_ H]. by rewrite String.eqb_refl in H.
  - by apply List.NoDup_filter.
Qed.

Lemma getitem_Some (d : Pd.DataFrame) (c : string) (s : Pd.Series) :
  Pd.getitem d c = Some s -> In (c, s) (Pd.cols d).
Proof. independent.
  unfold Pd.getitem. destruct (find _ _) as [[c' s']|] eqn:E; [|done].
  intros [= <-]. apply find_some in E as [E1 E2]. simpl in E2.
  apply String.eqb_eq in E2. by subst.
Qed.

Lemma getitem_None (d : Pd.DataFrame) (c : string) :
  Pd.getitem d c = None <-> ~ In c (Pd.columns d).
Proof. independent.
  unfold Pd.getitem, Pd.columns. split.
  - destruct (find _ _) as [p|] eqn:E; [done|]. intros _ Hin.
    apply in_map_iff in Hin as (p & <- & Hp).
    pose proof (find_none _ _ E p Hp) as H. simpl in H.
    by rewrite String.eqb_refl in H.
  - intros Hn. destruct (find _ _) as [p|] eqn:E; [|done].
    apply find_some in E as [E1 E2]. apply String.eqb_eq in E2. subst.
    exfalso. apply Hn. apply in_map_iff. by exists p.
Qed.

Lemma getitem_map {F : string -> Pd.Series} (n : nat) (l : list string) (c : string) :
  In c l -> Pd.getitem (Pd.mkDF n (map (fun c' => (c', F c')) l)) c = Some (F c).
Proof. independent.
  unfold Pd.getitem. simpl. induction l as [|x l IH]; simpl; [done|].
  destruct (String.eqb_spec x c) as [->|Hne]; simpl; [done|].
  intros [H|H]; [done|]. by apply IH.
Qed.

Lemma length_column_or_nan (c : string) (d : Pd.DataFrame) :
  Pd.wf_df d -> length (Pd.column_or_nan c d) = Pd.nrows d.
Proof. independent.
  intros [_ Hw]. unfold Pd.column_or_nan.
  destruct (Pd.getitem d c) as [s|] eqn:E; [|apply repeat_length].
  apply getitem_Some in E. rewrite List.Forall_forall in Hw. apply (Hw _ E).
Qed.

Lemma length_flat_map_rows (c : string) (dfs : list Pd.DataFrame) :
  Forall Pd.wf_df dfs ->
  length (flat_map (Pd.column_or_nan c) dfs) = list_sum (map Pd.nrows dfs).
Proof. independent.
  induction 1 as [|d dfs Hd _ IH]; simpl; [done|].
  by rewrite length_app, IH, length_column_or_nan.
Qed.

Lemma nth_error_flat_map_rows (c : string) (dfs : list Pd.DataFrame) :
  Forall Pd.wf_df dfs ->
  forall i d r,
    nth_error dfs i = Some d -> (r < Pd.nrows d)%nat ->
    nth_error (flat_map (Pd.column_or_nan c) dfs) (row_offset dfs i + r)
    = nth_error (Pd.column_or_nan c d) r.
Proof. independent.
  unfold row_offset.
  induction 1 as [|d0 dfs Hd _ IH]; intros [|i] d r Hi Hr; simpl in *; try done.
  - injection Hi as ->. apply nth_error_app1. by rewrite length_column_or_nan.
  - rewrite nth_error_app2; rewrite length_column_or_nan by done; [|lia].
    replace (Pd.nrows d0 + _ + r - Pd.nrows d0)%nat
      with (list_sum (map Pd.nrows (firstn i dfs)) + r)%nat by lia.
    by apply IH.
Qed.

(** C3.  For a non-empty list of well-formed tables the Append merge
    ([pd.concat]) succeeds with a well-formed table that has as many rows
    as the inputs together and the union of their labels in first-seen
    order; the rows of each input follow those of the earlier inputs,
    with the input's own cell under each of its labels and the missing
    marker under the labels it lacks. *)
Theorem append_rows_and_columns (dfs : list Pd.DataFrame) :
  dfs <> [] ->
  Forall Pd.wf_df dfs ->
  exists out,
    Pd.concat dfs = Ok out /\
    (forall o names w,
        merge_method o = "Append (stack vertically)" ->
        fst (merge_tables o dfs names w) = Ok out) /\
    Pd.wf_df out /\
    Pd.nrows out = list_sum (map Pd.nrows dfs) /\
    Pd.columns out = first_seen (flat_map Pd.columns dfs) /\
    (forall c, In c (Pd.columns out) <-> exists d, In d dfs /\ In c (Pd.columns d)) /\
    forall i d r c,
      nth_error dfs i = Some d -> (r < Pd.nrows d)%nat -> In c (Pd.columns out) ->
      (In c (Pd.columns d) ->
       Pd.cell d c r <> None /\ Pd.cell out c (row_offset dfs i + r) = Pd.cell d c r) /\
      (~ In c (Pd.columns d) -> Pd.cell out c (row_offset dfs i + r) = Some Pd.NaN).
Proof. independent.
  intros Hne Hwf.
  set (out := Pd.mkDF (list_sum (map Pd.nrows dfs))
                      (map (fun c => (c, Pd.plain (flat_map (Pd.column_or_nan c) dfs)))
                           (Pd.union_columns dfs))).
  assert (Hc : Pd.concat dfs = Ok out) by (by destruct dfs).
  assert (Hcols : Pd.columns out = first_seen (flat_map Pd.columns dfs)).
  { unfold Pd.columns, out. simpl. rewrite map_map. simpl. rewrite map_id.
    apply union_columns_first_seen. }
  exists out. split; [exact Hc|]. split; [|split; [|split; [done|split; [exact Hcols|split]]]].
  - intros o names w Hm. unfold merge_tables, prog_bind, emit, prog_modify, prog_lift.
    rewrite Hm. simpl. by rewrite Hc.
  - split.
    + fold (Pd.columns out). rewrite Hcols. apply first_seen_NoDup.
    + apply List.Forall_forall. intros [c s] Hin. simpl in *.
      apply in_map_iff in Hin as (c' & [= <- <-] & _). simpl.
      by apply length_flat_map_rows.
  - intros c. rewrite Hcols, first_seen_In, in_flat_map. done.
  - intros i d r c Hi Hr Hin.
    assert (Hd : Pd.wf_df d).
    { rewrite List.Forall_forall in Hwf. apply Hwf. eapply nth_error_In. exact Hi. }
    assert (Hcell : Pd.cell out c (row_offset dfs i + r)
                    = nth_error (Pd.column_or_nan c d) r).
    { unfold Pd.cell, out. rewrite getitem_map.
      - simpl. by apply nth_error_flat_map_rows.
      - rewrite <- union_columns_first_seen in Hcols.
        unfold Pd.columns, out in Hin. simpl in Hin.
        rewrite map_map in Hin. simpl in Hin. by rewrite map_id in Hin. }
    rewrite Hcell. unfold Pd.column_or_nan, Pd.cell. split.
    + intros Hcd. destruct (Pd.getitem d c) as [s|] eqn:E.
      * split; [|done]. apply nth_error_Some.
        apply getitem_Some in E. destruct Hd as [_ Hd].
        rewrite List.Forall_forall in Hd. specialize (Hd _ E). simpl in Hd.
        rewrite Hd. exact Hr.
      * by apply getitem_None in E.
    + intros Hn. apply getitem_None in Hn. rewrite Hn.
      apply nth_error_repeat. exact Hr.
Qed.

Lemma common_columns_empty (dfs : list Pd.DataFrame) :
  (forall c, ~ (forall d, In d dfs -> In c (Pd.columns d))) ->
  common_columns dfs = [].
Proof. independent.
  intros Hno. destruct dfs as [|d rest]; [done|]. unfold common_columns.
  destruct (List.filter _ (Pd.columns d)) as [|c l] eqn:E; [done|].
  exfalso. assert (Hin : In c (List.filter
    (fun c => forallb (fun d' => PyStr.mem c (Pd.columns d')) rest) (Pd.columns d))).
  { rewrite E. by left. }
  apply filter_In in Hin as [H1 H2]. apply (Hno c).
  intros d' [<-|Hd']; [done|].
  rewrite forallb_forall in H2. apply mem_In. by apply H2.
Qed.

(** The table [pd.concat] makes of well-formed tables: as many rows as
    the inputs together, the union of their labels in first-seen order,
    and the rows of each input after those of the earlier inputs, with
    the input's own cell under each of its labels and the missing marker
    under the labels it lacks. *)
Lemma concat_rows_and_columns (dfs : list Pd.DataFrame) (out : Pd.DataFrame) :
  Forall Pd.wf_df dfs ->
  Pd.concat dfs = Ok out ->
  Pd.wf_df out /\
  Pd.nrows out = list_sum (map Pd.nrows dfs) /\
  Pd.columns out = first_seen (flat_map Pd.columns dfs) /\
  forall i d r c,
    nth_error dfs i = Some d -> (r < Pd.nrows d)%nat -> In c (Pd.columns out) ->
    (In c (Pd.columns d) ->
     Pd.cell d c r <> None /\ Pd.cell out c (row_offset dfs i + r) = Pd.cell d c r) /\
    (~ In c (Pd.columns d) -> Pd.cell out c (row_offset dfs i + r) = Some Pd.NaN).
Proof. independent.
  intros Hwf Hc.
  assert (Ho : out = Pd.mkDF (list_sum (map Pd.nrows dfs))
                             (map (fun c => (c, Pd.plain (flat_map (Pd.column_or_nan c) dfs)))
                                  (Pd.union_columns dfs))).
  { destruct dfs; [discriminate Hc|]. by injection Hc as <-. }
  clear Hc.
  assert (Hcols : Pd.columns out = first_seen (flat_map Pd.columns dfs)).
  { rewrite Ho. unfold Pd.columns. simpl. rewrite map_map. simpl. rewrite map_id.
    apply union_columns_first_seen. }
  split; [|split; [by rewrite Ho|split; [exact Hcols|]]].
  - split.
    + fold (Pd.columns out). rewrite Hcols. apply first_seen_NoDup.
    + rewrite Ho. apply List.Forall_forall. intros [c s] Hin. simpl in *.
      apply in_map_iff in Hin as (c' & [= <- <-] & _). simpl.
      by apply length_flat_map_rows.
  - intros i d r c Hi Hr Hin.
    assert (Hd : Pd.wf_df d).
    { rewrite List.Forall_forall in Hwf. apply Hwf. eapply nth_error_In. exact Hi. }
    assert (Hcell : Pd.cell out c (row_offset dfs i + r)
                    = nth_error (Pd.column_or_nan c d) r).
    { rewrite Ho. unfold Pd.cell. rewrite getitem_map.
      - simpl. by apply nth_error_flat_map_rows.
      - rewrite Ho in Hin. unfold Pd.columns in Hin. simpl in Hin.
        rewrite map_map in Hin. simpl in Hin. by rewrite map_id in Hin. }
    rewrite Hcell. unfold Pd.column_or_nan, Pd.cell. split.
    + intros Hcd. destruct (Pd.getitem d c) as [s|] eqn:E.
      * split; [|done]. apply nth_error_Some.
        apply getitem_Some in E. destruct Hd as [_ Hd].
        rewrite List.Forall_forall in Hd. specialize (Hd _ E). simpl in Hd.
        rewrite Hd. exact Hr.
      * by apply getitem_None in E.
    + intros Hn. apply getitem_None in Hn. rewrite Hn.
      apply nth_error_repeat. exact Hr.
Qed.

(** C4.  A Smart merge of two or more well-formed tables that share no
    column name falls back to the Append merge and shows a warning: it
    returns the table the Append merge returns for the same tables,
    which is their vertical concatenation.  That table has as many rows
    as all the inputs together and the union of their labels in
    first-seen order; the rows of each input follow those of the earlier
    inputs, with the input's own cell under each of its labels and the
    missing marker under the labels it lacks. *)
Theorem smart_merge_falls_back_to_append (o : MergeOptions) (dfs : list Pd.DataFrame)
        (names : list string) (w : World) :
  merge_method o = "Smart merge (auto-detect)" ->
  (2 <= length dfs)%nat ->
  Forall Pd.wf_df dfs ->
  (forall c, ~ (forall d, In d dfs -> In c (Pd.columns d))) ->
  exists out,
    Pd.concat dfs = Ok out /\
    fst (merge_tables o dfs names w) = Ok out /\
    In (StWarning "No common columns found across files. Performing vertical append instead.")
       (w_ui (snd (merge_tables o dfs names w))) /\
    (forall o' names' w',
        merge_method o' = "Append (stack vertically)" ->
        fst (merge_tables o' dfs names' w') = Ok out) /\
    Pd.wf_df out /\
    Pd.nrows out = list_sum (map Pd.nrows dfs) /\
    Pd.columns out = first_seen (flat_map Pd.columns dfs) /\
    forall i d r c,
      nth_error dfs i = Some d -> (r < Pd.nrows d)%nat -> In c (Pd.columns out) ->
      (In c (Pd.columns d) ->
       Pd.cell d c r <> None /\ Pd.cell out c (row_offset dfs i + r) = Pd.cell d c r) /\
      (~ In c (Pd.columns d) -> Pd.cell out c (row_offset dfs i + r) = Some Pd.NaN).
Proof. independent.
  intros Hm Hlen Hwf Hno.
  destruct dfs as [|d1 [|d2 rest]]; simpl in Hlen; [lia|lia|].
  set (dfs := d1 :: d2 :: rest) in *.
  destruct (Pd.concat dfs) as [out|e] eqn:Hc; [|done].
  exists out. split; [done|].
  assert (Hs : merge_tables o dfs names w
               = (Ok out,
                  mkWorld (w_options w)
                    (w_ui w ++ [StSubheader "Merging Files";
                                StInfo "Analyzing files for smart merge...";
                                StWarning "No common columns found across files. Performing vertical append instead."])
                    (w_merged_df w) (w_last_merge_time w))).
  { unfold merge_tables, prog_bind, emit, prog_modify. rewrite Hm.
    cbn -[Pd.concat common_columns].
    unfold prog_bind, emit, prog_modify, prog_lift, prog_ret.
    change (d1 :: d2 :: rest) with dfs.
    rewrite (common_columns_empty dfs Hno), Hc. cbn.
    by rewrite <- !app_assoc. }
  rewrite Hs. simpl. split; [done|]. split; [|split].
  - apply in_or_app. right. simpl. tauto.
  - intros o' names' w' Hm'.
    unfold merge_tables, prog_bind, emit, prog_modify, prog_lift. rewrite Hm'.
    cbn -[Pd.concat]. change (d1 :: d2 :: rest) with dfs. by rewrite Hc.
  - exact (concat_rows_and_columns dfs out Hwf Hc).
Qed.

Lemma frames_bind (h0 : Heap) {A B : Type} (P : Heap -> Prop) (p : Prog Heap A)
      (k : A -> Prog Heap B) (Q : A -> Heap -> Prop) (R : B -> Heap -> Prop) :
  frames h0 P p Q -> (forall a, frames h0 (Q a) (k a) R) ->
  frames h0 P (prog_bind p k) R.
Proof. independent.
  intros Hp Hk h Hpre HP. unfold prog_bind.
  destruct (Hp h Hpre HP) as [H1 H2].
  destruct (p h) as [[a|e] h1]; simpl in *; [|done].
  by apply Hk.
Qed.

Lemma frames_conseq (h0 : Heap) {A : Type} (P P' : Heap -> Prop) (p : Prog Heap A)
      (Q Q' : A -> Heap -> Prop) :
  frames h0 P p Q -> (forall h, P' h -> P h) -> (forall a h, Q a h -> Q' a h) ->
  frames h0 P' p Q'.
Proof. independent.
  intros Hp HP HQ h Hpre HP'. destruct (Hp h Hpre (HP _ HP')) as [H1 H2].
  split; [done|]. destruct (fst (p h)); [by apply HQ|done].
Qed.

Lemma frames_ret (h0 : Heap) {A : Type} (a : A) (Q : A -> Heap -> Prop) :
  frames h0 (Q a) (prog_ret a) Q.
Proof. independent. intros h Hpre HP. done. Qed.

Lemma frames_skip (h0 : Heap) {A : Type} (a : A) (P : Heap -> Prop) :
  frames h0 P (prog_ret a) (fun _ => P).
Proof. independent. intros h Hpre HP. done. Qed.

Lemma frames_raise (h0 : Heap) {A : Type} (e : exn) (P : Heap -> Prop)
      (Q : A -> Heap -> Prop) :
  frames h0 P (prog_raise e) Q.
Proof. independent. intros h Hpre HP. done. Qed.

Lemma frames_lift (h0 : Heap) {A : Type} (r : Result A) (P : Heap -> Prop) :
  frames h0 P (prog_lift r) (fun _ => P).
Proof. independent. intros h Hpre HP. simpl. split; [done|]. by destruct r. Qed.

Lemma frames_reraise (h0 : Heap) {A : Type} (sel : exn -> bool) (P : Heap -> Prop)
      (p : Prog Heap A) (g : exn -> exn) (Q : A -> Heap -> Prop) :
  frames h0 P p Q ->
  frames h0 P (prog_try sel p (fun e => prog_raise (g e))) Q.
Proof. independent.
  intros Hp h Hpre HP. unfold prog_try. destruct (Hp h Hpre HP) as [H1 H2].
  destruct (p h) as [[a|e] h1]; simpl in *; [done|].
  destruct (sel e); done.
Qed.

Lemma frames_read (h0 : Heap) (r : ref) (P : Heap -> Prop) :
  frames h0 P (df_read r) (fun _ => P).
Proof. independent. intros h Hpre HP. unfold df_read. by destruct (h !! r). Qed.

Lemma owned_grow (h0 : Heap) (r : ref) (h : Heap) (d : Pd.DataFrame) :
  owned h0 r h -> owned h0 r (h ++ [d])%list.
Proof. independent. unfold owned. rewrite length_app. simpl. lia. Qed.

Lemma frames_new (h0 : Heap) (d : Pd.DataFrame) (P : Heap -> Prop) :
  frames h0 P (df_new d) (owned h0).
Proof. independent.
  intros h Hpre HP. unfold df_new, owned. simpl. split.
  - by apply prefix_app_r.
  - apply prefix_length in Hpre. rewrite length_app. simpl. lia.
Qed.

Lemma frames_copy (h0 : Heap) (r : ref) (P : Heap -> Prop) :
  frames h0 P (df_copy r) (owned h0).
Proof. independent.
  unfold df_copy. eapply frames_bind; [apply frames_read|].
  intros d. apply frames_new.
Qed.

Lemma frames_getitem (h0 : Heap) (r : ref) (c : string) (P : Heap -> Prop) :
  frames h0 P (df_getitem r c) (fun _ => P).
Proof. independent.
  unfold df_getitem. eapply frames_bind; [apply frames_read|].
  intros d. destruct (Pd.getitem d c); [apply frames_skip|apply frames_raise].
Qed.

Lemma frames_update (h0 : Heap) (r : ref) (g : Pd.DataFrame -> Pd.DataFrame) :
  frames h0 (owned h0 r) (df_update r g) (fun _ => owned h0 r).
Proof. independent.
  intros h Hpre [H1 H2]. unfold df_update.
  destruct (h !! r) as [d|] eqn:E; simpl; [|done].
  split; [|unfold owned; rewrite length_insert; lia].
  destruct Hpre as [t Ht]. subst h. rewrite insert_app_r_alt by done.
  by apply prefix_app_r.
Qed.

Lemma frames_setitem (h0 : Heap) (r : ref) (c : string) (s : Pd.Series) :
  frames h0 (owned h0 r) (df_setitem r c s) (fun _ => owned h0 r).
Proof. independent. apply frames_update. Qed.

Lemma frames_map_column (h0 : Heap) (r : ref) (c : string)
      (g : Pd.Series -> Pd.Series) :
  frames h0 (owned h0 r) (df_map_column r c g) (fun _ => owned h0 r).
Proof. independent.
  unfold df_map_column. eapply frames_bind; [apply frames_getitem|].
  intros s. apply frames_setitem.
Qed.

Lemma frames_for_each (h0 : Heap) {A : Type} (P : Heap -> Prop) (l : list A)
      (body : A -> Prog Heap unit) :
  (forall x, frames h0 P (body x) (fun _ => P)) ->
  frames h0 P (for_each l body) (fun _ => P).
Proof. independent.
  intros Hb. induction l as [|x l IH]; simpl; [apply frames_skip|].
  eapply frames_bind; [apply Hb|]. intros ?. apply IH.
Qed.

Ltac frame_leaf :=
  first
    [ apply frames_ret | apply frames_skip | apply frames_raise | apply frames_lift
    | apply frames_read | apply frames_getitem | apply frames_setitem
    | apply frames_update | apply frames_map_column | apply frames_new
    | apply frames_copy ].

Ltac frame :=
  lazymatch goal with
  | |- frames _ _ (prog_bind _ _) _ => eapply frames_bind; [frame | intros ?; frame]
  | |- frames _ _ (prog_try _ _ _) _ => apply frames_reraise; frame
  | |- frames _ _ (for_each _ _) _ => apply frames_for_each; intros ?; frame
  | |- frames _ _ (if ?c then _ else _) _ => destruct c; frame
  | |- frames _ _ (match ?x with _ => _ end) _ => destruct x; frame
  | |- frames _ _ (let _ := _ in _) _ => cbv zeta; frame
  | |- _ => frame_leaf
  end.

Lemma frames_fill_column (h0 : Heap) (stat : Pd.Series -> Pd.Cell) (r : ref) (col : string) :
  frames h0 (owned h0 r) (fill_column_with stat r col) (fun _ => owned h0 r).
Proof. independent. unfold fill_column_with. frame. Qed.

Lemma frames_clean_dataframe (h0 : Heap) (df : ref) (opts : option CleanOptions) :
  frames h0 (fun _ => True) (clean_dataframe df opts) (owned h0).
Proof. independent.
  unfold clean_dataframe. cbv zeta.
  eapply frames_bind; [apply frames_copy|]. intros result.
  eapply frames_bind.
  { destruct (get_default _ _); [apply frames_update|apply frames_skip]. }
  intros ?.
  eapply frames_bind with (Q := owned h0).
  { destruct (_ && _); [|apply frames_ret].
    eapply frames_bind; [apply frames_read|]. intros d.
    repeat (match goal with |- frames _ _ (if ?c then _ else _) _ => destruct c end);
      try apply frames_new; try apply frames_ret.
    1-3: eapply frames_bind;
      [apply frames_for_each; intros ?; apply frames_fill_column|intros ?; apply frames_ret].
    destruct (co_fill_value _); [apply frames_new|apply frames_ret]. }
  intros result'. destruct (get_default _ _); [|apply frames_ret].
  eapply frames_bind; [apply frames_read|]. intros d.
  destruct (_ && _); apply frames_new.
Qed.

(** All the transformers have the shape: copy, then work on the copy. *)
Ltac frame_transform :=
  cbv zeta; eapply frames_bind; [apply frames_copy|]; intros result; frame.

Lemma frames_scaling (h0 : Heap) (df : ref) (p : ScalingParams) :
  frames h0 (fun _ => True) (scaling_transform df p) (owned h0).
Proof. independent. unfold scaling_transform. frame_transform. Qed.

Lemma frames_binning (h0 : Heap) (df : ref) (p : BinningParams) :
  frames h0 (fun _ => True) (binning_transform df p) (owned h0).
Proof. independent. unfold binning_transform. frame_transform. Qed.

Lemma frames_math (h0 : Heap) (df : ref) (p : MathParams) :
  frames h0 (fun _ => True) (math_transform df p) (owned h0).
Proof. independent. unfold math_transform. frame_transform. Qed.

Lemma frames_date_format (h0 : Heap) (df : ref) (p : DateFormatParams) :
  frames h0 (fun _ => True) (date_format_transform df p) (owned h0).
Proof. independent. unfold date_format_transform. frame_transform. Qed.

Lemma frames_date_extract (h0 : Heap) (df : ref) (p : DateExtractParams) :
  frames h0 (fun _ => True) (date_extract_transform df p) (owned h0).
Proof. independent. unfold date_extract_transform. frame_transform. Qed.

Lemma frames_date_difference (h0 : Heap) (df : ref) (p : DateDifferenceParams) :
  frames h0 (fun _ => True) (date_difference_transform df p) (owned h0).
Proof. independent. unfold date_difference_transform. frame_transform. Qed.

Lemma frames_text_case (h0 : Heap) (df : ref) (p : TextCaseParams) :
  frames h0 (fun _ => True) (text_case_transform df p) (owned h0).
Proof. independent. unfold text_case_transform. frame_transform. Qed.

Lemma frames_text_extract (h0 : Heap) (df : ref) (p : PatternExtractParams) :
  frames h0 (fun _ => True) (text_extract_transform df p) (owned h0).
Proof. independent. unfold text_extract_transform. frame_transform. Qed.

Lemma frames_text_replace (h0 : Heap) (df : ref) (p : TextReplaceParams) :
  frames h0 (fun _ => True) (text_replace_transform df p) (owned h0).
Proof. independent. unfold text_replace_transform. frame_transform. Qed.

Lemma frames_create_calculated_column (h0 : Heap) (df : ref) (name expr : string) :
  frames h0 (fun _ => True) (create_calculated_column df name expr) (owned h0).
Proof. independent. unfold create_calculated_column. frame_transform. Qed.

Lemma frames_on_a_copy (p : Prog Heap ref) (h : Heap) (df : ref) (d : Pd.DataFrame) :
  h !! df = Some d ->
  frames h (fun _ => True) p (owned h) ->
  on_a_copy p h df.
Proof. independent.
  intros Hd Hf. destruct (Hf h (reflexivity _) I) as [H1 H2]. split.
  - intros l x Hl. by eapply prefix_lookup_Some.
  - intros r Hr. rewrite Hr in H2. destruct H2 as [H2 H3].
    apply lookup_lt_Some in Hd. split; [lia|]. split; [done|].
    by apply lookup_lt_is_Some.
Qed.

(** C10.  The cleaning stage and every built-in transformer work on a
    copy: whether the call returns or raises, every table the caller
    holds, the input among them, has the columns, rows and cells it had,
    and a returned table is a new object, distinct from the input. *)
Theorem cleaning_and_transformers_copy (h : Heap) (df : ref) (d : Pd.DataFrame) :
  h !! df = Some d ->
  (forall opts, on_a_copy (clean_dataframe df opts) h df) /\
  (forall t, on_a_copy (transform t df) h df) /\
  (forall opts, snd (clean_dataframe df opts h) !! df = Some d) /\
  (forall t, snd (transform t df h) !! df = Some d).
Proof. independent.
  intros Hd.
  assert (Hc : forall opts, on_a_copy (clean_dataframe df opts) h df).
  { intros opts. eapply frames_on_a_copy; [exact Hd|apply frames_clean_dataframe]. }
  assert (Ht : forall t, on_a_copy (transform t df) h df).
  { intros t. eapply frames_on_a_copy; [exact Hd|].
    destruct t; simpl;
      [ apply frames_scaling | apply frames_binning | apply frames_math
      | apply frames_date_format | apply frames_date_extract
      | apply frames_date_difference | apply frames_text_case
      | apply frames_text_extract | apply frames_text_replace ]. }
  split; [exact Hc|]. split; [exact Ht|]. split.
  - intros opts. by apply (Hc opts).
  - intros t. by apply (Ht t).
Qed.

Lemma run_copy (h : Heap) (df : ref) (d : Pd.DataFrame) :
  h !! df = Some d -> df_copy df h = (Ok (length h), (h ++ [d])%list).
Proof. independent. intros Hd. unfold df_copy, prog_bind, df_read, df_new. by rewrite Hd. Qed.

Lemma run_read_new (h : Heap) (d : Pd.DataFrame) :
  df_read (length h) (h ++ [d])%list = (Ok d, (h ++ [d])%list).
Proof. independent. unfold df_read. by rewrite list_lookup_middle. Qed.

Lemma run_getitem_new (h : Heap) (d : Pd.DataFrame) (c : string) (s : Pd.Series) :
  Pd.getitem d c = Some s ->
  df_getitem (length h) c (h ++ [d])%list = (Ok s, (h ++ [d])%list).
Proof. independent. intros E. unfold df_getitem, prog_bind. by rewrite run_read_new, E. Qed.

Lemma run_setitem_new (h : Heap) (d : Pd.DataFrame) (c : string) (s : Pd.Series) :
  df_setitem (length h) c s (h ++ [d])%list = (Ok tt, (h ++ [Pd.setitem d c s])%list).
Proof. independent.
  unfold df_setitem, df_update. rewrite list_lookup_middle by done.
  rewrite insert_app_r_alt by done. by rewrite Nat.sub_diag.
Qed.

Lemma has_column_getitem (d : Pd.DataFrame) (c : option string) :
  has_column d c = true -> exists s, Pd.getitem d (str_opt c) = Some s.
Proof. independent.
  destruct c as [c|]; simpl; [|done]. intros H. apply mem_In in H.
  destruct (Pd.getitem d c) as [s|] eqn:E; [by exists s|].
  by apply getitem_None in E.
Qed.

Lemma getitem_setitem (d : Pd.DataFrame) (c : string) (s : Pd.Series) :
  Pd.getitem (Pd.setitem d c s) c = Some s.
Proof. independent.
  unfold Pd.setitem, Pd.getitem, Pd.columns.
  destruct (PyStr.mem c (map fst (Pd.cols d))) eqn:E; simpl.
  - apply mem_In in E. revert E. generalize (Pd.cols d). intros l.
    induction l as [|[c' s'] l IH]; simpl; [done|].
    destruct (String.eqb_spec c' c) as [->|Hne]; simpl.
    + by rewrite String.eqb_refl.
    + destruct (String.eqb_spec c' c); [done|]. intros [H|H]; [done|]. by apply IH.
  - assert (Hn : ~ In c (map fst (Pd.cols d))).
    { intros H. apply mem_In in H. by rewrite H in E. }
    revert Hn. clear E. generalize (Pd.cols d). intros l.
    induction l as [|[c' s'] l IH]; simpl.
    + by rewrite String.eqb_refl.
    + destruct (String.eqb_spec c' c) as [->|Hne]; [intros Hn; exfalso; apply Hn; by left|].
      intros Hn. apply IH. intros H. apply Hn. by right.
Qed.

(** What [MathOperationTransformer.transform] does on a table that has
    the first column, for a non-empty target name. *)
Lemma math_transform_run (h : Heap) (df : ref) (d : Pd.DataFrame) (p : MathParams)
      (s1 : Pd.Series) :
  h !! df = Some d ->
  has_column d (mp_column1 p) = true ->
  Pd.getitem d (str_opt (mp_column1 p)) = Some s1 ->
  truthy (Some (get_default (mp_target_column p) "result")) = true ->
  math_transform df p h =
  match math_result d p (to_numeric s1) with
  | Ok (Some col) =>
      (Ok (length h),
       (h ++ [Pd.setitem d (get_default (mp_target_column p) "result") col])%list)
  | Ok None => (Ok (length h), (h ++ [d])%list)
  | Raise e =>
      (Raise (ValueError ("Error performing math operation: " +:+ exn_msg e)),
       (h ++ [d])%list)
  end.
Proof. independent.
  intros Hd Hc Hs Ht. unfold math_transform. cbv zeta.
  unfold prog_bind at 1. rewrite (run_copy h df d Hd).
  unfold prog_bind at 1. rewrite run_read_new. rewrite Hc, Ht. cbn [negb].
  unfold prog_bind at 1. rewrite (run_getitem_new h d _ s1 Hs).
  unfold prog_bind at 1, prog_try, prog_bind at 1. rewrite run_read_new.
  unfold prog_bind at 1, prog_lift.
  destruct (math_result d p (to_numeric s1)) as [[col|]|e]; cbn [exn_msg].
  - by rewrite run_setitem_new.
  - reflexivity.
  - reflexivity.
Qed.

Lemma nth_error_map2 {A B C : Type} (g : A -> B -> C) (l : list A) (l' : list B)
      (i : nat) (x : A) (y : B) :
  nth_error l i = Some x -> nth_error l' i = Some y ->
  nth_error (map2 g l l') i = Some (g x y).
Proof. independent.
  revert l' i. induction l as [|a l IH]; intros [|b l'] [|i]; simpl; try done.
  - by intros [= ->] [= ->].
  - apply IH.
Qed.

(** C5.  Dividing (or taking the remainder of) a column by a literal
    equal to zero makes the Math Operation transform raise, with no
    table returned and the input left as it was; dividing by a column
    succeeds, and a row whose divisor is zero gets the missing marker in
    the result while every other row gets its own quotient (or the
    missing marker when one of its operands is missing). *)
Theorem division_by_zero (h : Heap) (df : ref) (d : Pd.DataFrame) (p : MathParams)
        (s1 : Pd.Series) (g : Q -> Q -> Q) (refusal : string) :
  let target := get_default (mp_target_column p) "result" in
  h !! df = Some d ->
  Pd.getitem d (str_opt (mp_column1 p)) = Some s1 ->
  has_column d (mp_column1 p) = true ->
  truthy (Some target) = true ->
  get_default (mp_operation p) "basic" = "basic" ->
  division_like (get_default (mp_operator p) "+") = Some (g, refusal) ->
  (get_default (mp_use_value p) false || negb (truthy (mp_column2 p)) = true ->
   Qeq_bool (get_default (mp_value p) 0%Q) 0 = true ->
   math_transform df p h
   = (Raise (ValueError ("Error performing math operation: " +:+ refusal)),
      (h ++ [d])%list)) /\
  (forall s2,
      get_default (mp_use_value p) false = false ->
      truthy (mp_column2 p) = true ->
      Pd.getitem d (str_opt (mp_column2 p)) = Some s2 ->
      exists out,
        math_transform df p h = (Ok (length h), (h ++ [out])%list) /\
        forall i x y,
          nth_error (to_numeric s1) i = Some x ->
          nth_error (to_numeric s2) i = Some y ->
          Pd.cell out target i
          = Some (match x, y with
                  | Some a, Some b =>
                      if Qeq_bool b 0 then Pd.NaN else Pd.CFloat (g a b)
                  | _, _ => Pd.NaN
                  end)).
Proof. independent.
  intros target Hd Hs Hc Ht Hop Hdiv.
  pose proof (math_transform_run h df d p s1 Hd Hc Hs Ht) as Hrun.
  unfold math_result in Hrun. cbv zeta in Hrun. rewrite Hop in Hrun.
  cbn [String.eqb Ascii.eqb Bool.eqb] in Hrun.
  unfold division_like in Hdiv. unfold basic_operation in Hrun.
  set (operator := get_default (mp_operator p) "+") in *.
  assert (Hplus : String.eqb operator "+" = false /\ String.eqb operator "-" = false /\
                  String.eqb operator "*" = false).
  { destruct (String.eqb operator "/") eqn:Eo;
      [apply String.eqb_eq in Eo; by rewrite Eo|].
    destruct (String.eqb operator "%") eqn:Eo2;
      [apply String.eqb_eq in Eo2; by rewrite Eo2|done]. }
  destruct Hplus as (E1 & E2 & E3). rewrite E1, E2, E3 in Hrun.
  split.
  - intros Hlit Hz. rewrite Hlit in Hrun. rewrite Hz in Hrun.
    destruct (String.eqb operator "/");
      [|destruct (String.eqb operator "%"); [|done]];
      injection Hdiv as <- <-; exact Hrun.
  - intros s2 Huse Hc2 Hs2. rewrite Huse, Hc2, Hs2 in Hrun. cbn [orb negb] in Hrun.
    exists (Pd.setitem d target
              (elementwise (lift2 g) (to_numeric s1)
                           (Column (replace_zero (to_numeric s2))))).
    split.
    + destruct (String.eqb operator "/");
        [|destruct (String.eqb operator "%"); [|done]];
        injection Hdiv as <- <-; exact Hrun.
    + intros i x y Hx Hy. unfold Pd.cell. rewrite getitem_setitem.
      unfold elementwise, Pd.plain, replace_zero. cbn [Pd.data].
      erewrite nth_error_map2; [|exact Hx|by erewrite map_nth_error].
      f_equal. destruct x as [a|], y as [b|]; simpl; try done.
      by destruct (Qeq_bool b 0).
Qed.

(** What [BinningTransformer.transform] does on a table that has the
    column, for a non-empty target name. *)
Lemma binning_transform_run (h : Heap) (df : ref) (d : Pd.DataFrame) (p : BinningParams)
      (s : Pd.Series) :
  h !! df = Some d ->
  has_column d (bn_column p) = true ->
  Pd.getitem d (str_opt (bn_column p)) = Some s ->
  truthy (bn_target_column p) = true ->
  binning_transform df p h =
  match binned_data (get_default (bn_method p) "equal_width")
                    (get_default (bn_num_bins p) 5%Z)
                    (get_default (bn_custom_bins p) EmptyString)
                    (parse_labels (get_default (bn_labels p) EmptyString))
                    (get_default (bn_include_right p) true) (to_numeric s) with
  | Ok (Some col) =>
      (Ok (length h), (h ++ [Pd.setitem d (str_opt (bn_target_column p)) col])%list)
  | Ok None => (Ok (length h), (h ++ [d])%list)
  | Raise e =>
      (Raise (ValueError ("Error binning data: " +:+ exn_msg e)), (h ++ [d])%list)
  end.
Proof. independent.
  intros Hd Hc Hs Ht. unfold binning_transform. cbv zeta.
  unfold prog_bind at 1. rewrite (run_copy h df d Hd).
  unfold prog_bind at 1. rewrite run_read_new. rewrite Hc, Ht. cbn [negb].
  unfold prog_bind at 1. rewrite (run_getitem_new h d _ s Hs).
  unfold prog_bind at 1, prog_try, prog_bind at 1, prog_lift.
  destruct (binned_data _ _ _ _ _ _) as [[col|]|e]; cbn [exn_msg].
  - by rewrite run_setitem_new.
  - reflexivity.
  - reflexivity.
Qed.

Lemma example_edges :
  parse_bin_edges "0,18,35,50,65,100" = Some [0; 18; 35; 50; 65; 100]%Q.
Proof. independent. vm_compute. reflexivity. Qed.

Lemma bin_code_example (right : bool) (x : Q) :
  (forall k lo hi,
      nth_error [0; 18; 35; 50; 65; 100]%Q k = Some lo ->
      nth_error [0; 18; 35; 50; 65; 100]%Q (S k) = Some hi ->
      (if right then (lo < x <= hi)%Q \/ (k = 0%nat /\ (x == 0)%Q) else (lo <= x < hi)%Q) ->
      Pd.bin_code [0; 18; 35; 50; 65; 100]%Q right x = Some k) /\
  ((x < 0)%Q \/ (if right then (100 < x)%Q else (100 <= x)%Q) ->
   Pd.bin_code [0; 18; 35; 50; 65; 100]%Q right x = None).
Proof. independent.
  assert (Hdec : forall a b, Qle_bool a b = true /\ (a <= b)%Q \/
                             Qle_bool a b = false /\ (b < a)%Q).
  { intros a b. destruct (Qle_bool a b) eqn:E.
    - left. split; [done|]. by apply Qle_bool_iff.
    - right. split; [done|]. apply Qnot_le_lt. intros H.
      apply Qle_bool_iff in H. congruence. }
  assert (Heq : forall a b, Qeq_bool a b = true /\ (a == b)%Q \/
                            Qeq_bool a b = false /\ ~ (a == b)%Q).
  { intros a b. destruct (Qeq_bool a b) eqn:E.
    - left. split; [done|]. by apply Qeq_bool_iff.
    - right. split; [done|]. intros H. apply Qeq_bool_iff in H. congruence. }
  unfold Pd.bin_code, Pd.searchsorted, Pd.Qlt_bool.
  destruct (Heq x 0%Q) as [[-> H0]|[-> H0]];
    destruct (Hdec x 0%Q) as [[E0 L0]|[E0 L0]]; try (exfalso; lra);
    destruct (Hdec 0%Q x) as [[F0 M0]|[F0 M0]]; try (exfalso; lra);
    destruct (Hdec x 18%Q) as [[E1 L1]|[E1 L1]]; try (exfalso; lra);
    destruct (Hdec 18%Q x) as [[F1 M1]|[F1 M1]]; try (exfalso; lra);
    destruct (Hdec x 35%Q) as [[E2 L2]|[E2 L2]]; try (exfalso; lra);
    destruct (Hdec 35%Q x) as [[F2 M2]|[F2 M2]]; try (exfalso; lra);
    destruct (Hdec x 50%Q) as [[E3 L3]|[E3 L3]]; try (exfalso; lra);
    destruct (Hdec 50%Q x) as [[F3 M3]|[F3 M3]]; try (exfalso; lra);
    destruct (Hdec x 65%Q) as [[E4 L4]|[E4 L4]]; try (exfalso; lra);
    destruct (Hdec 65%Q x) as [[F4 M4]|[F4 M4]]; try (exfalso; lra);
    destruct (Hdec x 100%Q) as [[E5 L5]|[E5 L5]]; try (exfalso; lra);
    destruct (Hdec 100%Q x) as [[F5 M5]|[F5 M5]]; try (exfalso; lra).
  all: destruct right; cbn [List.filter negb length Nat.eqb orb Nat.sub];
    rewrite ?E0, ?E1, ?E2, ?E3, ?E4, ?E5, ?F0, ?F1, ?F2, ?F3, ?F4, ?F5;
    cbn [List.filter negb length Nat.eqb orb Nat.sub].
  all: split;
    [ intros [|[|[|[|[|k]]]]] lo hi Hlo Hhi Hin; simpl in Hlo, Hhi;
      rewrite ?nth_error_nil in Hhi; try discriminate Hhi;
      injection Hlo as <-; injection Hhi as <-;
      first [reflexivity | exfalso; lra | exfalso; destruct Hin as [Hin|[Hk Hin]]; first [discriminate Hk | lra]]
    | intros Hout; first [reflexivity | exfalso; lra | exfalso; destruct Hout; lra] ].
Qed.

(** [pd.cut] on the edges 0, 18, 35, 50, 65, 100 without labels: the
    five intervals between consecutive edges, and each number in the
    interval that holds it. *)
Lemma cut_example (x : list (option Q)) (right : bool) :
  exists col cs,
    Pd.cut x [0; 18; 35; 50; 65; 100]%Q None right = Ok col /\
    Pd.cats col = Some cs /\
    cs = (if right
          then [Pd.CInterval (0 - (1 # 1000)) 18 true; Pd.CInterval 18 35 true;
                Pd.CInterval 35 50 true; Pd.CInterval 50 65 true;
                Pd.CInterval 65 100 true]
          else [Pd.CInterval 0 18 false; Pd.CInterval 18 35 false;
                Pd.CInterval 35 50 false; Pd.CInterval 50 65 false;
                Pd.CInterval 65 100 false])%Q /\
    length (Pd.data col) = length x /\
    (forall i v k lo hi,
        nth_error x i = Some (Some v) ->
        nth_error [0; 18; 35; 50; 65; 100]%Q k = Some lo ->
        nth_error [0; 18; 35; 50; 65; 100]%Q (S k) = Some hi ->
        (if right then (lo < v <= hi)%Q \/ (k = 0%nat /\ (v == 0)%Q)
         else (lo <= v < hi)%Q) ->
        nth_error (Pd.data col) i = nth_error cs k) /\
    (forall i v,
        nth_error x i = Some (Some v) ->
        (v < 0)%Q \/ (if right then (100 < v)%Q else (100 <= v)%Q) ->
        nth_error (Pd.data col) i = Some Pd.NaN) /\
    (forall i, nth_error x i = Some None -> nth_error (Pd.data col) i = Some Pd.NaN).
Proof. independent.
  unfold Pd.cut.
  change (Pd.non_decreasing [0; 18; 35; 50; 65; 100]%Q) with true.
  change (Pd.has_repeat [0; 18; 35; 50; 65; 100]%Q) with false.
  cbn [negb andb].
  eexists _, _. split; [reflexivity|]. cbn [Pd.cats Pd.data].
  split; [reflexivity|]. split; [by destruct right|].
  split; [by rewrite length_map|].
  split; [|split].
  - intros i v k lo hi Hv Hlo Hhi Hin.
    rewrite nth_error_map, Hv. cbn [option_map].
    rewrite (proj1 (bin_code_example right v) k lo hi Hlo Hhi Hin).
    assert (Hk : (S k < length [0; 18; 35; 50; 65; 100]%Q)%nat).
    { apply nth_error_Some. by rewrite Hhi. }
    simpl in Hk. symmetry. apply nth_error_nth'.
    destruct right; simpl; lia.
  - intros i v Hv Hout.
    rewrite nth_error_map, Hv. cbn [option_map].
    by rewrite (proj2 (bin_code_example right v) Hout).
  - intros i Hv. by rewrite nth_error_map, Hv.
Qed.

Lemma split_nonempty (sep : ascii) (s : string) : PyStr.split sep s <> [].
Proof. independent.
  destruct s as [|b s]; simpl; [discriminate|].
  destruct (Ascii.eqb b sep); [discriminate|]. destruct (PyStr.split sep s); discriminate.
Qed.

Lemma parse_labels_nonempty (labels_str : string) (ls : list string) :
  parse_labels labels_str = Some ls -> ls <> [].
Proof. independent.
  unfold parse_labels. destruct labels_str as [|a r]; [discriminate|].
  intros [= <-] H. apply List.map_eq_nil in H. exact (split_nonempty _ (String a r) H).
Qed.

(** C6.  On a table that has the column, custom binning on the edges
    0, 18, 35, 50, 65, 100 without labels stores a categorical column
    that has exactly five categories: the five distinct intervals
    between consecutive edges, closed on the side [include_right]
    selects (the first one widened to take in the lowest edge).  Every
    number of the source column lies in the category of its row, a
    number outside the edges and a row without a number are missing.
    And, whatever the edges, custom binning with a non-empty list of
    labels whose length is not the number of edges minus one raises an
    error, returns no table and adds no column. *)
Theorem binning_custom_edges (h : Heap) (df : ref) (d : Pd.DataFrame) (p : BinningParams)
        (s : Pd.Series) :
  h !! df = Some d ->
  has_column d (bn_column p) = true ->
  Pd.getitem d (str_opt (bn_column p)) = Some s ->
  truthy (bn_target_column p) = true ->
  bn_method p = Some "custom" ->
  (bn_custom_bins p = Some "0,18,35,50,65,100" ->
   truthy (bn_labels p) = false ->
   exists out col cs,
     binning_transform df p h = (Ok (length h), (h ++ [out])%list) /\
     Pd.getitem out (str_opt (bn_target_column p)) = Some col /\
     Pd.cats col = Some cs /\ length cs = 5%nat /\ NoDup cs /\
     cs = (if get_default (bn_include_right p) true
           then [Pd.CInterval (0 - (1 # 1000)) 18 true; Pd.CInterval 18 35 true;
                 Pd.CInterval 35 50 true; Pd.CInterval 50 65 true;
                 Pd.CInterval 65 100 true]
           else [Pd.CInterval 0 18 false; Pd.CInterval 18 35 false;
                 Pd.CInterval 35 50 false; Pd.CInterval 50 65 false;
                 Pd.CInterval 65 100 false])%Q /\
     length (Pd.data col) = length (Pd.data s) /\
     (forall i v k lo hi,
         nth_error (to_numeric s) i = Some (Some v) ->
         nth_error [0; 18; 35; 50; 65; 100]%Q k = Some lo ->
         nth_error [0; 18; 35; 50; 65; 100]%Q (S k) = Some hi ->
         (if get_default (bn_include_right p) true
          then (lo < v <= hi)%Q \/ (k = 0%nat /\ (v == 0)%Q)
          else (lo <= v < hi)%Q) ->
         nth_error (Pd.data col) i = nth_error cs k) /\
     (forall i v,
         nth_error (to_numeric s) i = Some (Some v) ->
         (v < 0)%Q \/ (if get_default (bn_include_right p) true
                       then (100 < v)%Q else (100 <= v)%Q) ->
         nth_error (Pd.data col) i = Some Pd.NaN) /\
     (forall i, nth_error (to_numeric s) i = Some None ->
                nth_error (Pd.data col) i = Some Pd.NaN)) /\
  (forall edges labels,
      parse_bin_edges (get_default (bn_custom_bins p) EmptyString) = Some edges ->
      parse_labels (get_default (bn_labels p) EmptyString) = Some labels ->
      length labels <> (length edges - 1)%nat ->
      exists msg,
        binning_transform df p h
        = (Raise (ValueError ("Error binning data: " +:+ msg)), (h ++ [d])%list) /\
        ((2 <= length edges)%nat ->
         msg = "Number of labels (" +:+ pretty (length labels)
               +:+ ") must be one less than bin edges (" +:+ pretty (length edges)
               +:+ ")")).
Proof. independent.
  intros Hd Hc Hs Ht Hm.
  pose proof (binning_transform_run h df d p s Hd Hc Hs Ht) as Hrun.
  rewrite Hm in Hrun. cbn [get_default] in Hrun. unfold binned_data in Hrun.
  change (String.eqb "custom" "custom") with true in Hrun. cbv iota in Hrun.
  split.
  - intros Hb Hl. rewrite Hb in Hrun. cbn [get_default] in Hrun.
    rewrite example_edges in Hrun. cbv iota in Hrun.
    assert (El : parse_labels (get_default (bn_labels p) EmptyString) = None).
    { destruct (bn_labels p) as [[|]|]; done. }
    rewrite El in Hrun. cbn [length Nat.ltb Nat.leb labels_mismatch] in Hrun.
    destruct (cut_example (to_numeric s) (get_default (bn_include_right p) true))
      as (col & cs & E1 & E2 & E3 & E4 & E5 & E6 & E7).
    rewrite E1 in Hrun. cbn [result_map] in Hrun.
    eexists _, col, cs. split; [exact Hrun|]. split; [by rewrite getitem_setitem|].
    split; [exact E2|].
    split; [rewrite E3; by destruct (get_default (bn_include_right p) true)|].
    split.
    { rewrite E3. destruct (get_default (bn_include_right p) true);
        repeat (apply NoDup_cons_2;
                [rewrite list_elem_of_In; simpl; intros H;
                 repeat (destruct H as [H|H]; [discriminate H|]); exact H|]);
        apply NoDup_nil_2. }
    split; [exact E3|].
    split; [rewrite E4; unfold to_numeric; by rewrite length_map|].
    split; [exact E5|]. split; [exact E6|exact E7].
  - intros edges labels He Hl Hneq. rewrite He, Hl in Hrun.
    pose proof (parse_labels_nonempty _ _ Hl) as Hne.
    destruct (get_default (bn_custom_bins p) EmptyString) as [|a r] eqn:Eb; [done|].
    destruct (length edges <? 2)%nat eqn:E2.
    + eexists. split; [exact Hrun|]. intros H2. apply Nat.ltb_lt in E2. lia.
    + assert (Em : labels_mismatch (Some labels) (length edges - 1) = true).
      { destruct labels as [|l ls]; [done|]. unfold labels_mismatch.
        apply negb_true_iff. apply Nat.eqb_neq. exact Hneq. }
      rewrite Em in Hrun. eexists. split; [exact Hrun|]. done.
Qed.

Lemma dict_set_keys {V : Type} (m : list (string * V)) (k : string) (v : V) (k' : string) :
  In k' (map fst (dict_set m k v)) <-> In k' (map fst m) \/ k' = k.
Proof. independent.
  unfold dict_set. destruct (PyStr.mem k (map fst m)) eqn:E.
  - assert (Hk : map fst (map (fun p => if String.eqb (fst p) k then (k, v) else p) m)
                 = map fst m).
    { rewrite map_map. apply map_ext. intros [a b]. simpl.
      destruct (String.eqb_spec a k); by subst. }
    rewrite Hk. apply mem_In in E. split; [tauto|]. intros [H| ->]; done.
  - rewrite map_app, in_app_iff. simpl. intuition.
Qed.

Lemma dict_set_binding {V : Type} (m : list (string * V)) (k : string) (v : V) :
  In (k, v) (dict_set m k v).
Proof. independent.
  unfold dict_set. destruct (PyStr.mem k (map fst m)) eqn:E.
  - apply mem_In in E. apply in_map_iff in E as ([a b] & Ha & Hin). simpl in Ha. subst a.
    apply in_map_iff. exists (k, b). split; [|done]. simpl. by rewrite String.eqb_refl.
  - apply in_or_app. right. by left.
Qed.

(** C8.  The code at a failing input: on the table with the columns
    [a] and [Salary], the expression [Salary * 2] mentions the single
    name [Salary], yet [create_calculated_column] hands the evaluator a
    local namespace that binds the column [a] as well, beside [Salary]
    and [np]; the namespace is not restricted to the columns the
    expression references.  (Whatever the evaluator does with it, an
    error it raises comes back as a [ValueError] with its message, and
    the input table is left as it was.) *)
Theorem namespace_binds_unmentioned_column (column_name : string) :
  identifiers "Salary * 2" = ["Salary"] /\
  local_dict pay "Salary * 2"
  = [("a", ObjSeries (Pd.plain [Pd.CInt 1]));
     ("Salary", ObjSeries (Pd.plain [Pd.CInt 3000]));
     ("np", ObjNumpy)] /\
  create_calculated_column 0%nat column_name "Salary * 2" [pay] =
  match py_eval "Salary * 2" [("__builtins__", ObjEmptyDict)]
                [("a", ObjSeries (Pd.plain [Pd.CInt 1]));
                 ("Salary", ObjSeries (Pd.plain [Pd.CInt 3000]));
                 ("np", ObjNumpy)] with
  | Ok value =>
      match as_column value pay with
      | Ok col => (Ok 1%nat, [pay; Pd.setitem pay column_name col])
      | Raise e =>
          (Raise (ValueError ("Error creating calculated column: " +:+ exn_msg e)),
           [pay; pay])
      end
  | Raise e =>
      (Raise (ValueError ("Error creating calculated column: " +:+ exn_msg e)),
       [pay; pay])
  end.
Proof. independent.
  assert (Hl : local_dict pay "Salary * 2"
               = [("a", ObjSeries (Pd.plain [Pd.CInt 1]));
                  ("Salary", ObjSeries (Pd.plain [Pd.CInt 3000]));
                  ("np", ObjNumpy)]) by (vm_compute; reflexivity).
  split; [vm_compute; reflexivity|]. split; [exact Hl|].
  unfold create_calculated_column.
  unfold prog_bind at 1. rewrite (run_copy [pay] 0%nat pay eq_refl).
  unfold prog_try, prog_bind at 1.
  change (length [pay]) with 1%nat. change ([pay] ++ [pay])%list with [pay; pay].
  change (df_read 1%nat [pay; pay]) with (Ok pay, [pay; pay]).
  unfold prog_bind at 1, prog_lift at 1. rewrite Hl.
  change eval_globals with [("__builtins__", ObjEmptyDict)].
  destruct (py_eval _ _ _) as [value|e]; [|reflexivity].
  unfold prog_bind at 1, prog_lift.
  destruct (as_column value pay) as [col|e]; [|reflexivity].
  reflexivity.
Qed.


(** ** Further properties of the loader and the reader *)

(** X1.  [load_data] answers in one of two ways.  Either it returns a table
    and no message: then the table is not empty, the file is within the
    size limit, its extension is one of csv, xlsx, xls and json, and the
    table is the one [read_file] gave for that extension.  Or it returns
    no table and a message that is not empty.  It never returns both,
    nor neither, and it never raises. *)
Theorem load_data_outcome (m : FileMerger) (f : UploadedFile) :
  (exists df,
      load_data m f = (Some df, None) /\
      Pd.empty df = false /\
      (file_size f <= max_file_size_mb m * 1024 * 1024)%N /\
      In (file_extension (file_name f)) ["csv"; "xlsx"; "xls"; "json"] /\
      exists kw, read_file f (file_extension (file_name f)) kw = Ok (Some df)) \/
  (exists a r, load_data m f = (None, Some (String a r))).
Proof. independent.
  unfold load_data.
  destruct (_ <? _)%N eqn:Hs; [right; by eexists _, _|].
  destruct (negb _) eqn:He; [right; by eexists _, _|].
  destruct (read_file _ _ _) as [[df|]|x] eqn:Hr; [|right; by eexists _, _..].
  destruct (Pd.empty df) eqn:Hd; [right; by eexists _, _|].
  left. exists df. split; [done|]. split; [done|]. split; [by apply N.ltb_ge|].
  split; [|by eexists].
  apply negb_false_iff in He. by apply mem_In in He.
Qed.

(** X2.  [detect_encoding] runs chardet on the first 10000 characters
    of the file.  When chardet reports an encoding with a confidence of
    at least 0.7 it returns that encoding; when the confidence is lower,
    when chardet reports no encoding, and when chardet raises, it
    returns utf-8. *)
Theorem detect_encoding_fallback (f : UploadedFile) :
  (forall encoding confidence,
      chardet_detect (PyStr.take (100 * 100) (file_bytes f))
      = Ok (Some encoding, confidence) ->
      (7 # 10 <= confidence)%Q -> detect_encoding f = encoding) /\
  (forall encoding confidence,
      chardet_detect (PyStr.take (100 * 100) (file_bytes f))
      = Ok (Some encoding, confidence) ->
      (confidence < 7 # 10)%Q -> detect_encoding f = "utf-8") /\
  (forall confidence,
      chardet_detect (PyStr.take (100 * 100) (file_bytes f)) = Ok (None, confidence) ->
      detect_encoding f = "utf-8") /\
  (forall e,
      chardet_detect (PyStr.take (100 * 100) (file_bytes f)) = Raise e ->
      detect_encoding f = "utf-8").
Proof. independent.
  unfold detect_encoding. repeat split.
  - intros encoding confidence -> Hc. unfold Pd.Qlt_bool.
    apply Qle_bool_iff in Hc. by rewrite Hc.
  - intros encoding confidence -> Hc. unfold Pd.Qlt_bool.
    destruct (Qle_bool (7 # 10) confidence) eqn:E; [|done].
    apply Qle_bool_iff in E. exfalso. lra.
  - by intros confidence ->.
  - by intros e ->.
Qed.

Lemma read_json_some (f : UploadedFile) (kw : ReadKwargs) :
  read_json f kw <> Ok None.
Proof. independent.
  unfold read_json.
  destruct (pd_read_json f kw) as [d|[msg|msg|msg]]; try done.
  destruct (json_load _) as [[items|fields|v]|e]; try done.
  - by destruct (pd_json_normalize items).
  - destruct (first_list fields) as [items|].
    + by destruct (pd_json_normalize items).
    + by destruct (pd_frame_of_record fields).
Qed.

(** X3.  [read_file] returns [None] (no table and no exception) exactly
    when the extension it is given is none of csv, xlsx, xls and json. *)
Theorem read_file_none_iff_unsupported (f : UploadedFile) (ext : string) (kw : ReadKwargs) :
  read_file f ext kw = Ok None <-> ~ In ext ["csv"; "xlsx"; "xls"; "json"].
Proof. independent.
  unfold read_file. split.
  - intros H Hin.
    destruct (String.eqb_spec ext "csv") as [->|Hc].
    { destruct (csv_kwargs f kw) as [kw'|e]; [|done].
      by destruct (pd_read_csv f kw'). }
    destruct (PyStr.mem ext ["xlsx"; "xls"]) eqn:Hx.
    { by destruct (pd_read_excel f kw). }
    destruct (String.eqb_spec ext "json") as [->|Hj].
    { by apply read_json_some in H. }
    simpl in Hin. destruct Hin as [<-|[<-|[<-|[<-|[]]]]]; done.
  - intros Hn.
    destruct (String.eqb_spec ext "csv") as [->|Hc]; [exfalso; apply Hn; simpl; tauto|].
    destruct (PyStr.mem ext ["xlsx"; "xls"]) eqn:Hx.
    { apply mem_In in Hx. exfalso. apply Hn. simpl in *. tauto. }
    destruct (String.eqb_spec ext "json") as [->|Hj]; [exfalso; apply Hn; simpl; tauto|].
    done.
Qed.

Lemma first_list_spec {V : Type} (pre post : list (string * (list V + V)))
      (k : string) (items : list V) :
  Forall (fun field => match snd field with inr _ => True | inl _ => False end) pre ->
  first_list (pre ++ (k, inl items) :: post)%list = Some items.
Proof. independent.
  induction 1 as [|[k' [l|v]] pre Hf _ IH]; simpl; done.
Qed.

Lemma first_list_none {V : Type} (fields : list (string * (list V + V))) :
  Forall (fun field => match snd field with inr _ => True | inl _ => False end) fields ->
  first_list fields = None.
Proof. independent.
  induction 1 as [|[k' [l|v]] pre Hf _ IH]; simpl; done.
Qed.

(** X4.  When [pd.read_json] refuses a JSON file with a [ValueError],
    [read_file] loads the document itself: a list is normalized; of a
    dictionary the first list-valued field is normalized; a dictionary
    with no list-valued field becomes a one-record table; any other
    document raises [ValueError] with the text Unsupported JSON structure;
    and an error of [json.load] is passed on. *)
Theorem json_fallback (f : UploadedFile) (kw : ReadKwargs) (msg : string) :
  pd_read_json f kw = Raise (ValueError msg) ->
  (forall items,
      json_load (file_bytes f) = Ok (JList items) ->
      read_file f "json" kw = result_map Some (pd_json_normalize items)) /\
  (forall pre k items post,
      json_load (file_bytes f) = Ok (JDict (pre ++ (k, inl items) :: post)%list) ->
      Forall (fun field => match snd field with inr _ => True | inl _ => False end) pre ->
      read_file f "json" kw = result_map Some (pd_json_normalize items)) /\
  (forall fields,
      json_load (file_bytes f) = Ok (JDict fields) ->
      Forall (fun field => match snd field with inr _ => True | inl _ => False end) fields ->
      read_file f "json" kw = result_map Some (pd_frame_of_record fields)) /\
  (forall v,
      json_load (file_bytes f) = Ok (JScalar v) ->
      read_file f "json" kw = Raise (ValueError "Unsupported JSON structure")) /\
  (forall e,
      json_load (file_bytes f) = Raise e -> read_file f "json" kw = Raise e).
Proof. independent.
  intros Hr. unfold read_file. cbn [String.eqb Ascii.eqb Bool.eqb PyStr.mem existsb orb].
  unfold read_json. rewrite Hr.
  repeat split.
  - by intros items ->.
  - intros pre k items post -> Hpre. by rewrite first_list_spec.
  - intros fields -> Hf. by rewrite first_list_none.
  - by intros v ->.
  - by intros e ->.
Qed.

(** ** Further properties of the column reconciler *)

Lemma insert_desc_perm (key : string -> Q) (x : string) (l : list string) :
  Permutation (insert_desc key x l) (x :: l).
Proof. independent.
  induction l as [|y l IH]; simpl; [done|].
  destruct (Qle_bool _ _); [done|].
  rewrite IH. apply perm_swap.
Qed.

Lemma sorted_desc_perm (key : string -> Q) (l : list string) :
  Permutation (sorted_desc key l) l.
Proof. independent.
  induction l as [|x l IH]; simpl; [done|].
  rewrite insert_desc_perm. by constructor.
Qed.

Lemma insert_desc_sorted (key : string -> Q) (x : string) (l : list string) :
  StronglySorted (fun a b => (key b <= key a)%Q) l ->
  StronglySorted (fun a b => (key b <= key a)%Q) (insert_desc key x l).
Proof. independent.
  induction 1 as [|y l Hs IH Hy]; simpl.
  - constructor; constructor.
  - destruct (Qle_bool (key y) (key x)) eqn:E.
    + apply Qle_bool_iff in E. constructor; [by constructor|].
      constructor; [done|].
      rewrite List.Forall_forall in Hy |- *. intros z Hz.
      eapply Qle_trans; [by apply Hy|done].
    + constructor; [done|].
      assert (Hxy : (key x <= key y)%Q).
      { destruct (Qlt_le_dec (key x) (key y)) as [H|H]; [by apply Qlt_le_weak|].
        apply Qle_bool_iff in H. by rewrite H in E. }
      rewrite List.Forall_forall in Hy |- *. intros z Hz.
      apply insert_desc_In in Hz as [->|Hz]; [done|by apply Hy].
Qed.

(** X5.  [suggest_column_mapping] returns the target columns whose
    similarity to the source column reaches the threshold, each as often
    as it occurs among the targets, ordered by similarity, the most
    similar first. *)
Theorem suggestions_ranked (source : string) (target_columns : list string)
        (threshold : Q) :
  let suggestions := suggest_column_mapping source target_columns threshold in
  Permutation suggestions
              (List.filter (fun target => Qle_bool threshold (similarity source target))
                           target_columns) /\
  StronglySorted (fun a b => (similarity source b <= similarity source a)%Q) suggestions.
Proof. independent.
  intros suggestions. subst suggestions. unfold suggest_column_mapping. split.
  - apply sorted_desc_perm.
  - unfold sorted_desc. induction (List.filter _ _) as [|x l IH]; simpl; [constructor|].
    by apply insert_desc_sorted.
Qed.

Lemma best_match_fold (threshold : Q) (src_col : string) (rest : list string) :
  forall seen st,
    best_so_far threshold src_col seen st ->
    best_so_far threshold src_col (seen ++ rest)%list
      (fold_left
         (fun st tgt_col =>
            let sim := similarity src_col tgt_col in
            if Pd.Qlt_bool (snd st) sim && Qle_bool threshold sim
            then (Some tgt_col, sim) else st)
         rest st).
Proof. independent.
  induction rest as [|t rest IH]; intros seen st Hst; simpl.
  - by rewrite app_nil_r.
  - replace (seen ++ t :: rest)%list with ((seen ++ [t]) ++ rest)%list
      by (by rewrite <- app_assoc).
    apply IH. destruct Hst as (H0 & Hmax & Hbest).
    destruct (Pd.Qlt_bool (snd st) (similarity src_col t)
              && Qle_bool threshold (similarity src_col t)) eqn:E.
    + apply andb_prop in E as [E1 E2].
      unfold Pd.Qlt_bool in E1. apply negb_true_iff in E1.
      assert (Hlt : (snd st < similarity src_col t)%Q).
      { apply Qnot_le_lt. intros H. apply Qle_bool_iff in H. by rewrite H in E1. }
      apply Qle_bool_iff in E2.
      split; [simpl; apply Qlt_le_weak; eapply Qle_lt_trans; done|].
      split.
      * intros t' Hin Ht'. simpl. apply in_app_or in Hin as [Hin|[<-|[]]].
        -- apply Qlt_le_weak. eapply Qle_lt_trans; [by apply Hmax|done].
        -- apply Qle_refl.
      * simpl. split; [apply in_or_app; right; by left|]. split; [done|].
        split; [done|]. eapply Qle_lt_trans; done.
    + split; [done|]. split.
      * intros t' Hin Ht'. apply in_app_or in Hin as [Hin|[<-|[]]]; [by apply Hmax|].
        apply Qle_bool_iff in Ht'. rewrite Ht', andb_true_r in E.
        unfold Pd.Qlt_bool in E. apply negb_false_iff in E. by apply Qle_bool_iff.
      * destruct (fst st) as [b|]; [|done].
        destruct Hbest as (Hb & Hs & Ht & Hp). split; [apply in_or_app; by left|done].
Qed.

(** The target [best_match] returns clears the threshold with a
    positive similarity that no other target exceeds. *)
Lemma best_match_spec (threshold : Q) (src_col : string) (target_columns : list string)
      (b : string) :
  best_match threshold src_col target_columns = Some b ->
  In b target_columns /\
  (threshold <= similarity src_col b)%Q /\ (0 < similarity src_col b)%Q /\
  forall t, In t target_columns -> (similarity src_col t <= similarity src_col b)%Q.
Proof. independent.
  unfold best_match. intros Hb.
  pose proof (best_match_fold threshold src_col target_columns [] (None, 0%Q)) as H.
  simpl in H. destruct H as (H0 & Hmax & Hbest).
  { split; [apply Qle_refl|]. split; [by intros ? []|done]. }
  rewrite Hb in Hbest. destruct Hbest as (Hin & Hs & Ht & Hp).
  split; [done|]. split; [done|]. split; [done|].
  intros t Hint. rewrite Hs in Hmax.
  destruct (Qlt_le_dec (similarity src_col t) threshold) as [Hlt|Hge].
  - apply Qlt_le_weak. eapply Qlt_le_trans; done.
  - by apply Hmax.
Qed.

Lemma dict_set_In {V : Type} (m : list (string * V)) (k : string) (v : V)
      (k' : string) (v' : V) :
  In (k', v') (dict_set m k v) -> (k' = k /\ v' = v) \/ In (k', v') m.
Proof. independent.
  unfold dict_set. destruct (PyStr.mem k (map fst m)).
  - intros H. apply in_map_iff in H as ([a b] & E & Hin). simpl in E.
    destruct (String.eqb_spec a k) as [->|Hne].
    + injection E as <- <-. by left.
    + injection E as <- <-. by right.
  - intros H. apply in_app_or in H as [H|[[= <- <-]|[]]]; [by right|by left].
Qed.

Lemma mappings_entry (source target_columns : list string) (threshold : Q)
      (src tgt : string) :
  In (src, tgt) (suggest_column_mappings source target_columns threshold) ->
  In src source /\ tgt <> EmptyString /\
  best_match threshold src target_columns = Some tgt.
Proof. independent.
  unfold suggest_column_mappings.
  assert (H : forall acc,
    In (src, tgt)
       (fold_left
          (fun mapping src_col =>
             match best_match threshold src_col target_columns with
             | Some (String _ _ as m) => dict_set mapping src_col m
             | _ => mapping
             end) source acc) ->
    In (src, tgt) acc \/
    (In src source /\ tgt <> EmptyString /\
     best_match threshold src target_columns = Some tgt)).
  { induction source as [|s source IH]; intros acc; simpl; [by left|].
    intros Hin. apply IH in Hin as [Hin|(H1 & H2 & H3)]; [|right; tauto].
    destruct (best_match threshold s target_columns) as [[|a r]|] eqn:E;
      [by left| |by left].
    apply dict_set_In in Hin as [[-> ->]|Hin]; [|by left].
    right. split; [by left|]. split; [done|exact E]. }
  intros Hin. apply H in Hin as [[]|Hin]. exact Hin.
Qed.

(** X6.  Every pair of the dictionary of [suggest_column_mappings] maps a
    source column to a non-empty target column whose similarity to it
    is positive, reaches the threshold, and is the largest among all the
    target columns. *)
Theorem mapping_is_best_match (source target_columns : list string) (threshold : Q)
        (src tgt : string) :
  In (src, tgt) (suggest_column_mappings source target_columns threshold) ->
  In src source /\ In tgt target_columns /\ tgt <> EmptyString /\
  (threshold <= similarity src tgt)%Q /\ (0 < similarity src tgt)%Q /\
  forall t, In t target_columns -> (similarity src t <= similarity src tgt)%Q.
Proof. independent.
  intros Hin. apply mappings_entry in Hin as (H1 & H2 & H3).
  apply best_match_spec in H3 as (H4 & H5 & H6 & H7). done.
Qed.

Lemma rename_dict_entry (first_columns columns : list string) (threshold : Q)
      (old new : string) :
  In (old, new) (rename_dict first_columns columns threshold) ->
  old <> new /\
  In (new, old) (suggest_column_mappings first_columns columns threshold).
Proof. independent.
  unfold rename_dict.
  assert (H : forall mapping acc,
    In (old, new)
       (fold_left
          (fun d p => if String.eqb (fst p) (snd p) then d else dict_set d (snd p) (fst p))
          mapping acc) ->
    In (old, new) acc \/ (old <> new /\ In (new, old) mapping)).
  { induction mapping as [|[c1 c2] mapping IH]; intros acc; simpl; [by left|].
    intros Hin. apply IH in Hin as [Hin|[H1 H2]]; [|right; tauto].
    destruct (String.eqb_spec c1 c2) as [->|Hne]; [by left|].
    apply dict_set_In in Hin as [[-> ->]|Hin]; [|by left].
    right. split; [congruence|by left]. }
  intros Hin. apply H in Hin as [[]|Hin]. exact Hin.
Qed.

(** X7.  The column matching of a join renames labels of a later table onto
    labels of the first one only: when the renaming has an entry from
    [old] to [new], the table is renamed by it and the renaming is
    recorded under the file's name, [old] is a label of the later table,
    [new] a different label of the first table, their similarity reaches
    the threshold (the option over 100, or 0.8), and no label of the
    later table is more similar to [new] than [old] is. *)
Theorem renaming_targets_first_table (o : MergeOptions) (first df : Pd.DataFrame)
        (name old new : string) :
  let threshold := match matching_threshold o with
                   | Some t => (t / 100)%Q
                   | None => (8 # 10)%Q
                   end in
  let renaming := rename_dict (Pd.columns first) (Pd.columns df) threshold in
  In (old, new) renaming ->
  match_columns o first name df = (Pd.rename renaming df, [(name, renaming)]) /\
  old <> new /\ In new (Pd.columns first) /\ In old (Pd.columns df) /\
  (threshold <= similarity new old)%Q /\
  forall c, In c (Pd.columns df) -> (similarity new c <= similarity new old)%Q.
Proof. independent.
  intros threshold renaming Hin. split.
  - unfold match_columns. fold threshold. fold renaming.
    destruct renaming; [done|reflexivity].
  - apply rename_dict_entry in Hin as [Hne Hin]. split; [done|].
    apply mappings_entry in Hin as (H1 & H2 & H3).
    apply best_match_spec in H3 as (H4 & H5 & H6 & H7). done.
Qed.

(** ** Duplicated rows *)

Lemma length_duplicated_from (rows : list (list Pd.Cell)) :
  forall seen, length (Pd.duplicated_from seen rows) = length rows.
Proof. independent.
  induction rows as [|r rows IH]; intros seen; simpl; [done|]. by rewrite IH.
Qed.

Lemma length_duplicated (subset : option (list string)) (d : Pd.DataFrame) :
  length (Pd.duplicated subset d) = Pd.nrows d.
Proof. independent.
  unfold Pd.duplicated. by rewrite length_duplicated_from, length_map, length_seq.
Qed.

Lemma true_positions_complement (mask : list bool) :
  forall i,
    (length (true_positions i mask) + length (List.filter (fun b => b) (map negb mask))
     = length mask)%nat.
Proof. independent.
  induction mask as [|b mask IH]; intros i; simpl; [done|].
  destruct b; simpl; rewrite <- (IH (S i)); lia.
Qed.

Lemma true_positions_In (mask : list bool) :
  forall i j,
    In j (true_positions i mask) <->
    (i <= j)%nat /\ nth_error mask (j - i) = Some true.
Proof. independent.
  induction mask as [|b mask IH]; intros i j; simpl.
  - split; [done|]. intros [_ H]. by destruct (j - i)%nat.
  - assert (Hrest : In j (true_positions (S i) mask) <->
                    (i < j)%nat /\ nth_error (b :: mask) (j - i) = Some true).
    { rewrite IH. split.
      - intros [H1 H2]. split; [lia|].
        replace (j - i)%nat with (S (j - S i)) by lia. done.
      - intros [H1 H2]. split; [lia|].
        replace (j - i)%nat with (S (j - S i)) in H2 by lia. done. }
    destruct b; simpl.
    + rewrite Hrest. split.
      * intros [<-|[H1 H2]]; [split; [lia|]; by rewrite Nat.sub_diag|split; [lia|done]].
      * intros [H1 H2]. destruct (decide (i = j)) as [->|Hne]; [by left|].
        right. split; [lia|done].
    + rewrite Hrest. split.
      * intros [H1 H2]. split; [lia|done].
      * intros [H1 H2]. split; [|done].
        destruct (decide (i = j)) as [->|Hne]; [|lia].
        rewrite Nat.sub_diag in H2. done.
Qed.

Lemma duplicated_from_twin (rows : list (list Pd.Cell)) :
  forall seen i,
    nth_error (Pd.duplicated_from seen rows) i = Some true ->
    exists r_i,
      nth_error rows i = Some r_i /\
      ((exists s, In s seen /\ Pd.row_eqb r_i s = true) \/
       (exists j r_j,
           (j < i)%nat /\ nth_error (Pd.duplicated_from seen rows) j = Some false /\
           nth_error rows j = Some r_j /\ Pd.row_eqb r_i r_j = true)).
Proof. independent.
  induction rows as [|r rows IH]; intros seen [|i]; simpl; try done.
  - intros [= H]. exists r. split; [done|]. left.
    apply existsb_exists in H as (s & Hs & E). by exists s.
  - intros H. apply IH in H as (r_i & Hr & Hcase). exists r_i. split; [done|].
    destruct Hcase as [(s & Hs & E)|(j & r_j & Hj & Hf & Hrj & E)].
    + revert Hs. destruct (existsb (Pd.row_eqb r) seen) eqn:Hd; intros Hs;
        [left; by exists s|].
      destruct Hs as [<-|Hs]; [|left; by exists s].
      right. exists 0%nat, r. split; [lia|]. done.
    + right. exists (S j), r_j. split; [lia|done].
Qed.

Lemma detect_duplicates_indices (df : Pd.DataFrame) (subset : option (list string)) :
  valid_cols df subset <> Some [] ->
  detect_duplicates df subset
  = duplicates_report df (Pd.duplicated (valid_cols df subset) df).
Proof. independent.
  unfold detect_duplicates, valid_cols. destruct subset as [s|]; simpl; [|done].
  destruct (List.filter _ s) eqn:E; [done|]. reflexivity.
Qed.

(** X8.  In the report of [detect_duplicates], unless the subset names only
    columns the table lacks, the count is the number of reported indices
    and of reported rows, and the rows reported together with the rows
    that [drop_duplicates] keeps on the same columns are all the rows of
    the table. *)
Theorem duplicates_complement_kept (df : Pd.DataFrame) (subset : option (list string)) :
  valid_cols df subset <> Some [] ->
  let report := detect_duplicates df subset in
  duplicate_count report = length (duplicate_indices report) /\
  Pd.nrows (duplicate_rows report) = duplicate_count report /\
  (duplicate_count report + Pd.nrows (Pd.drop_duplicates (valid_cols df subset) df)
   = Pd.nrows df)%nat.
Proof. independent.
  intros Hv report. subst report. rewrite detect_duplicates_indices by done.
  unfold duplicates_report. simpl. split; [done|]. split; [done|].
  unfold Pd.drop_duplicates, Pd.filter_rows. simpl.
  by rewrite true_positions_complement, length_duplicated.
Qed.

(** X9.  A row that [detect_duplicates] reports is a row of the table, and
    an earlier row of the table that is not reported agrees with it on
    the columns compared: the first occurrence is never reported. *)
Theorem duplicate_has_earlier_twin (df : Pd.DataFrame) (subset : option (list string))
        (i : nat) :
  let report := detect_duplicates df subset in
  let rows := key_rows (valid_cols df subset) df in
  In i (duplicate_indices report) ->
  (i < Pd.nrows df)%nat /\
  exists j r_i r_j,
    (j < i)%nat /\ ~ In j (duplicate_indices report) /\
    nth_error rows i = Some r_i /\ nth_error rows j = Some r_j /\
    Pd.row_eqb r_i r_j = true.
Proof. independent.
  intros report rows. subst report rows.
  destruct (decide (valid_cols df subset = Some [])) as [Hv|Hv].
  { unfold detect_duplicates. unfold valid_cols in Hv.
    destruct subset as [s|]; [|done]. simpl in Hv. injection Hv as ->. done. }
  rewrite detect_duplicates_indices by done.
  unfold duplicates_report. cbn [duplicate_indices].
  intros Hin. apply true_positions_In in Hin as [_ Hin].
  rewrite Nat.sub_0_r in Hin. split.
  { apply nth_error_Some_lt in Hin || idtac.
    assert (H : (i < length (Pd.duplicated (valid_cols df subset) df))%nat).
    { apply nth_error_Some. by rewrite Hin. }
    by rewrite length_duplicated in H. }
  unfold Pd.duplicated in Hin. fold (key_rows (valid_cols df subset) df) in Hin.
  apply duplicated_from_twin in Hin as (r_i & Hr & [(s & [] & _)|(j & r_j & Hj & Hf & Hrj & E)]).
  exists j, r_i, r_j. split; [done|]. split; [|done].
  intros Hjn. apply true_positions_In in Hjn as [_ Hjn]. rewrite Nat.sub_0_r in Hjn.
  unfold Pd.duplicated in Hjn. fold (key_rows (valid_cols df subset) df) in Hjn.
  rewrite Hf in Hjn. done.
Qed.

Lemma row_at_cons (K : list (list Pd.Cell)) (i : nat) :
  Pd.row_at K (S i) = Pd.row_at (map (@tl Pd.Cell) K) i.
Proof. independent.
  unfold Pd.row_at. rewrite map_map. apply map_ext. intros l.
  destruct l; simpl; [by destruct i|done].
Qed.

Lemma rows_cons (K : list (list Pd.Cell)) (n : nat) :
  map (Pd.row_at K) (seq 0 (S n))
  = Pd.row_at K 0 :: map (Pd.row_at (map (@tl Pd.Cell) K)) (seq 0 n).
Proof. independent.
  simpl. f_equal. rewrite <- seq_shift, map_map. apply map_ext. intros i.
  apply row_at_cons.
Qed.

Lemma select_rows (mask : list bool) :
  forall K : list (list Pd.Cell),
    Forall (fun l => length l = length mask) K ->
    map (Pd.row_at (map (Pd.select mask) K))
        (seq 0 (length (List.filter (fun b => b) mask)))
    = Pd.select mask (map (Pd.row_at K) (seq 0 (length mask))).
Proof. independent.
  induction mask as [|m mask IH]; intros K HK; [done|].
  assert (Htl : Forall (fun l => length l = length mask) (map (@tl Pd.Cell) K)).
  { apply List.Forall_forall. intros l Hl. apply in_map_iff in Hl as (l' & <- & Hl').
    rewrite List.Forall_forall in HK. specialize (HK _ Hl'). destruct l'; simpl in *; lia. }
  assert (Hsel : map (@tl Pd.Cell) (map (Pd.select (true :: mask)) K)
                 = map (Pd.select mask) (map (@tl Pd.Cell) K)).
  { rewrite !map_map. apply map_ext_in. intros l Hl.
    rewrite List.Forall_forall in HK. specialize (HK _ Hl). by destruct l. }
  assert (Hdrop : map (Pd.select (false :: mask)) K
                  = map (Pd.select mask) (map (@tl Pd.Cell) K)).
  { rewrite map_map. apply map_ext_in. intros l Hl.
    rewrite List.Forall_forall in HK. specialize (HK _ Hl). by destruct l. }
  change (length (m :: mask)) with (S (length mask)). rewrite (rows_cons K).
  destruct m.
  - change (List.filter (fun b : bool => b) (true :: mask))
      with (true :: List.filter (fun b : bool => b) mask).
    change (length (true :: List.filter (fun b : bool => b) mask))
      with (S (length (List.filter (fun b : bool => b) mask))).
    match goal with
    | |- _ = Pd.select (true :: mask) (?x :: ?l) =>
        change (Pd.select (true :: mask) (x :: l)) with (x :: Pd.select mask l)
    end.
    rewrite rows_cons, Hsel, (IH _ Htl). f_equal.
    unfold Pd.row_at. rewrite map_map. apply map_ext_in. intros l Hl.
    rewrite List.Forall_forall in HK. specialize (HK _ Hl). by destruct l.
  - change (List.filter (fun b : bool => b) (false :: mask))
      with (List.filter (fun b : bool => b) mask).
    match goal with
    | |- _ = Pd.select (false :: mask) (?x :: ?l) =>
        change (Pd.select (false :: mask) (x :: l)) with (Pd.select mask l)
    end.
    rewrite Hdrop. apply (IH _ Htl).
Qed.

Lemma duplicated_from_select (rows : list (list Pd.Cell)) :
  forall seen,
    Forall (fun b => b = false)
           (Pd.duplicated_from seen
              (Pd.select (map negb (Pd.duplicated_from seen rows)) rows)).
Proof. independent.
  induction rows as [|r rows IH]; intros seen; [constructor|].
  cbn [Pd.duplicated_from].
  destruct (existsb (Pd.row_eqb r) seen) eqn:E; cbn [map negb Pd.select].
  - apply IH.
  - cbn [Pd.duplicated_from]. rewrite E. constructor; [done|]. apply IH.
Qed.

Lemma key_columns_filter_rows (subset : option (list string)) (mask : list bool)
      (d : Pd.DataFrame) :
  Pd.key_columns subset (Pd.filter_rows mask d)
  = map (Pd.select mask) (Pd.key_columns subset d).
Proof. independent.
  unfold Pd.key_columns, Pd.filter_rows. destruct subset as [names|]; simpl.
  - generalize (Pd.cols d). intros l. induction l as [|[c s] l IH]; simpl; [done|].
    destruct (PyStr.mem c names); simpl; by rewrite IH.
  - rewrite !map_map. done.
Qed.

Lemma key_columns_uniform (subset : option (list string)) (d : Pd.DataFrame) :
  uniform d -> Forall (fun l => length l = Pd.nrows d) (Pd.key_columns subset d).
Proof. independent.
  unfold uniform, Pd.key_columns. intros H. rewrite List.Forall_forall in H.
  apply List.Forall_forall. intros l Hl. destruct subset as [names|].
  - apply in_map_iff in Hl as (p & <- & Hp). apply filter_In in Hp as [Hp _]. by apply H.
  - apply in_map_iff in Hl as (p & <- & Hp). by apply H.
Qed.

(** After [drop_duplicates] no row is flagged any more. *)
Lemma drop_duplicates_clean (subset : option (list string)) (d : Pd.DataFrame) :
  uniform d ->
  Forall (fun b => b = false) (Pd.duplicated subset (Pd.drop_duplicates subset d)).
Proof. independent.
  intros Hu. unfold Pd.drop_duplicates.
  set (mask := map negb (Pd.duplicated subset d)).
  assert (Hm : length mask = Pd.nrows d).
  { unfold mask. by rewrite length_map, length_duplicated. }
  unfold Pd.duplicated at 1. rewrite key_columns_filter_rows.
  change (Pd.nrows (Pd.filter_rows mask d)) with (length (List.filter (fun b => b) mask)).
  rewrite select_rows.
  - rewrite Hm. unfold mask, Pd.duplicated. apply duplicated_from_select.
  - rewrite Hm. by apply key_columns_uniform.
Qed.

Lemma true_positions_none (mask : list bool) :
  Forall (fun b => b = false) mask -> forall i, true_positions i mask = [].
Proof. independent.
  induction 1 as [|b mask -> _ IH]; intros i; simpl; [done|apply IH].
Qed.

Lemma columns_filter_rows (mask : list bool) (d : Pd.DataFrame) :
  Pd.columns (Pd.filter_rows mask d) = Pd.columns d.
Proof. independent. unfold Pd.columns, Pd.filter_rows. simpl. by rewrite map_map. Qed.

(** X10.  With [handle_duplicates] set, the duplicates stage of the merge
    returns the table without its duplicated rows (judged on the join
    key when the strategy is a join and the table has the key, on all
    columns otherwise): the columns are the same, no row is added,
    [detect_duplicates] finds nothing left on the same columns, and the
    user is told how many rows were removed exactly when some were. *)
Theorem duplicates_stage_leaves_none (o : MergeOptions) (name : string)
        (df : Pd.DataFrame) (w : World) :
  let subset := if is_join o && key_in_columns o df
                then option_map (fun k => [k]) (join_key o) else None in
  handle_duplicates o = true ->
  uniform df ->
  exists out,
    fst (duplicates_stage o name df w) = Ok out /\
    out = Pd.drop_duplicates subset df /\
    Pd.columns out = Pd.columns df /\
    (Pd.nrows out <= Pd.nrows df)%nat /\
    detect_duplicates out subset = mkDuplicates 0 (loc out []) [] /\
    w_ui (snd (duplicates_stage o name df w))
    = (w_ui w ++
       if (Pd.nrows out <? Pd.nrows df)%nat
       then [StInfo ("Removed " +:+ pretty (Pd.nrows df - Pd.nrows out)%nat
                     +:+ " duplicate rows from '" +:+ name +:+ "'")]
       else [])%list.
Proof. independent.
  intros subset Hh Hu. exists (Pd.drop_duplicates subset df).
  assert (Hle : (Pd.nrows (Pd.drop_duplicates subset df) <= Pd.nrows df)%nat).
  { unfold Pd.drop_duplicates, Pd.filter_rows. simpl.
    rewrite <- (length_duplicated subset df).
    rewrite <- (length_map negb (Pd.duplicated subset df)). apply filter_length_le. }
  assert (Hrun : duplicates_stage o name df w
                 = (Ok (Pd.drop_duplicates subset df),
                    mkWorld (w_options w)
                      (w_ui w ++
                       if (Pd.nrows (Pd.drop_duplicates subset df) <? Pd.nrows df)%nat
                       then [StInfo ("Removed "
                                     +:+ pretty (Pd.nrows df
                                                 - Pd.nrows (Pd.drop_duplicates subset df))%nat
                                     +:+ " duplicate rows from '" +:+ name +:+ "'")]
                       else [])
                      (w_merged_df w) (w_last_merge_time w))).
  { unfold duplicates_stage. rewrite Hh. subst subset.
    destruct (is_join o && key_in_columns o df); cbv zeta;
      match goal with |- context [Pd.drop_duplicates ?s df] => set (out := Pd.drop_duplicates s df) in * end;
      unfold prog_bind, emit, prog_modify, prog_ret;
      destruct (Nat.ltb_spec 0 (Pd.nrows df - Pd.nrows out));
      destruct (Nat.ltb_spec (Pd.nrows out) (Pd.nrows df)); try lia; simpl;
      rewrite ?app_nil_r; by destruct w. }
  rewrite Hrun. simpl. split; [done|]. split; [done|].
  split; [apply columns_filter_rows|]. split; [done|]. split; [|done].
  assert (Hv : valid_cols (Pd.drop_duplicates subset df) subset = subset).
  { subst subset. destruct (is_join o && key_in_columns o df) eqn:E; [|done].
    apply andb_prop in E as [_ E]. unfold key_in_columns in E.
    destruct (join_key o) as [k|]; [|done]. simpl.
    unfold Pd.drop_duplicates. rewrite columns_filter_rows. by rewrite E. }
  rewrite detect_duplicates_indices.
  - rewrite Hv. unfold duplicates_report.
    rewrite (true_positions_none _ (drop_duplicates_clean subset df Hu)). done.
  - rewrite Hv. subst subset. destruct (is_join o && key_in_columns o df); [|done].
    by destruct (join_key o).
Qed.

(** ** The cleaning stage as a function on tables *)

Lemma run_read (h : Heap) (r : ref) (d : Pd.DataFrame) :
  h !! r = Some d -> df_read r h = (Ok d, h).
Proof. independent. intros E. unfold df_read. by rewrite E. Qed.

Lemma run_update (h : Heap) (r : ref) (d : Pd.DataFrame)
      (g : Pd.DataFrame -> Pd.DataFrame) :
  h !! r = Some d -> df_update r g h = (Ok tt, <[r := g d]> h).
Proof. independent. intros E. unfold df_update. by rewrite E. Qed.

Lemma columns_setitem (d : Pd.DataFrame) (c : string) (s : Pd.Series) :
  In c (Pd.columns d) -> Pd.columns (Pd.setitem d c s) = Pd.columns d.
Proof. independent.
  intros Hin. unfold Pd.setitem. apply mem_In in Hin. rewrite Hin.
  unfold Pd.columns. simpl. rewrite map_map. apply map_ext. intros [a b]. simpl.
  destruct (String.eqb_spec a c); by subst.
Qed.



Lemma for_each_fill (stat : Pd.Series -> Pd.Cell) (r : ref) (cols : list string) :
  forall (h : Heap) (d : Pd.DataFrame),
    h !! r = Some d ->
    (forall c, In c cols -> In c (Pd.columns d)) ->
    for_each cols (fill_column_with stat r) h
    = (Ok tt,
       <[r := fold_left (update_column (fun s => Pd.series_fillna (stat s) s)) cols d]> h).
Proof. independent.
  induction cols as [|c cols IH]; intros h d Hd Hin.
  - simpl. by rewrite list_insert_id.
  - cbn [for_each fold_left].
    assert (Hc : In c (Pd.columns d)) by (apply Hin; by left).
    destruct (Pd.getitem d c) as [s|] eqn:E; [|by apply getitem_None in E].
    unfold prog_bind at 1, fill_column_with, prog_bind at 1, df_getitem, prog_bind at 1.
    rewrite (run_read h r d Hd), E. unfold prog_ret.
    unfold df_setitem. rewrite (run_update h r d _ Hd).
    assert (Hlt : (r < length h)%nat) by (by eapply lookup_lt_Some).
    rewrite (IH _ (Pd.setitem d c (Pd.series_fillna (stat s) s))).
    + rewrite list_insert_insert_eq.
      assert (Hu : update_column (fun s => Pd.series_fillna (stat s) s) d c
                   = Pd.setitem d c (Pd.series_fillna (stat s) s))
        by (unfold update_column; by rewrite E).
      by rewrite Hu.
    + by apply list_lookup_insert_eq.
    + intros c' Hc'. rewrite columns_setitem by done. apply Hin. by right.
Qed.

Lemma numeric_columns_In (d : Pd.DataFrame) (c : string) :
  In c (Pd.numeric_columns d) -> In c (Pd.columns d).
Proof. independent.
  unfold Pd.numeric_columns, Pd.columns. intros H.
  apply in_map_iff in H as (p & <- & Hp). apply filter_In in Hp as [Hp _].
  apply in_map_iff. by exists p.
Qed.

(** The filling stage of [clean_dataframe], run on the copy at the end
    of the heap. *)
Lemma clean_fill_run (h : Heap) (d1 : Pd.DataFrame) (opts : CleanOptions) :
  let result := length h in
  let meth := co_fill_method opts in
  exists r2 h2,
    (if truthy meth && negb (is_str meth "None (keep NaN)") then
       d <- df_read result ;;
       if is_str meth "Zero" then df_new (Pd.fillna (Pd.CInt 0) d)
       else if is_str meth "Mean" then
         for_each (Pd.numeric_columns d) (fill_column_with series_mean result) ;;;
         prog_ret result
       else if is_str meth "Median" then
         for_each (Pd.numeric_columns d) (fill_column_with series_median result) ;;;
         prog_ret result
       else if is_str meth "Mode" then
         for_each (Pd.columns d) (fill_column_with first_mode result) ;;;
         prog_ret result
       else if is_str meth "Forward fill" then df_new (Pd.ffill d)
       else if is_str meth "Backward fill" then df_new (Pd.bfill d)
       else if is_str meth "Custom value" then
         match co_fill_value opts with
         | Some v => df_new (fill_custom v d)
         | None => prog_ret result
         end
       else prog_ret result
     else prog_ret result) (h ++ [d1])%list
    = (Ok r2, h2) /\
    h2 !! r2 = Some (clean_fill opts d1) /\
    (length h <= r2)%nat /\ h `prefix_of` h2.
Proof. independent.
  intros result meth. unfold clean_fill. fold meth.
  assert (Hd : (h ++ [d1])%list !! result = Some d1) by (by apply list_lookup_middle).
  assert (Hkeep : exists r2 h2,
             prog_ret result (h ++ [d1])%list = (Ok r2, h2) /\ h2 !! r2 = Some d1 /\
             (length h <= r2)%nat /\ h `prefix_of` h2).
  { eexists _, _. split; [reflexivity|]. split; [done|]. split; [done|].
    by apply prefix_app_r. }
  assert (Hnew : forall d2, exists r2 h2,
             df_new d2 (h ++ [d1])%list = (Ok r2, h2) /\ h2 !! r2 = Some d2 /\
             (length h <= r2)%nat /\ h `prefix_of` h2).
  { intros d2. eexists _, _. split; [reflexivity|]. split; [by apply list_lookup_middle|].
    split; [rewrite length_app; lia|]. rewrite <- app_assoc. by apply prefix_app_r. }
  assert (Hloop : forall stat cols,
             (forall c, In c cols -> In c (Pd.columns d1)) ->
             exists r2 h2,
               (for_each cols (fill_column_with stat result) ;;; prog_ret result)
                 (h ++ [d1])%list = (Ok r2, h2) /\
               h2 !! r2
               = Some (fold_left (update_column (fun s => Pd.series_fillna (stat s) s))
                                 cols d1) /\
               (length h <= r2)%nat /\ h `prefix_of` h2).
  { intros stat cols Hin. eexists _, _. unfold prog_bind.
    rewrite (for_each_fill stat result cols _ d1 Hd Hin). split; [reflexivity|].
    split; [apply list_lookup_insert_eq; rewrite length_app; simpl; lia|].
    split; [done|].
    unfold result. rewrite insert_app_r_alt by done. rewrite Nat.sub_diag. simpl.
    by apply prefix_app_r. }
  destruct (truthy meth && negb (is_str meth "None (keep NaN)")); [|exact Hkeep].
  unfold prog_bind at 1. rewrite (run_read _ _ _ Hd).
  destruct (is_str meth "Zero"); [apply Hnew|].
  destruct (is_str meth "Mean"); [apply Hloop; apply numeric_columns_In|].
  destruct (is_str meth "Median"); [apply Hloop; apply numeric_columns_In|].
  destruct (is_str meth "Mode"); [by apply Hloop|].
  destruct (is_str meth "Forward fill"); [apply Hnew|].
  destruct (is_str meth "Backward fill"); [apply Hnew|].
  destruct (is_str meth "Custom value"); [|exact Hkeep].
  destruct (co_fill_value opts); [apply Hnew|exact Hkeep].
Qed.

(** [clean_dataframe] returns, and the object it returns holds
    [clean_table]. *)
Lemma clean_dataframe_run (h : Heap) (df : ref) (d : Pd.DataFrame)
      (opts : option CleanOptions) :
  h !! df = Some d ->
  exists r h',
    clean_dataframe df opts h = (Ok r, h') /\
    h' !! r = Some (clean_table opts d) /\
    (length h <= r)%nat /\ h `prefix_of` h'.
Proof. independent.
  intros Hd. unfold clean_dataframe, clean_table. cbv zeta.
  set (o := get_default opts (mkClean None None None None None)).
  unfold prog_bind at 1. rewrite (run_copy h df d Hd).
  set (d1 := if get_default (co_ignore_case o) true then Pd.relabel PyStr.lower d else d).
  assert (H1 : (if get_default (co_ignore_case o) true
                then df_update (length h) (Pd.relabel PyStr.lower)
                else prog_ret tt) (h ++ [d])%list
               = (Ok tt, (h ++ [d1])%list)).
  { unfold d1. destruct (get_default (co_ignore_case o) true); [|done].
    rewrite (run_update _ _ d) by (by apply list_lookup_middle).
    rewrite insert_app_r_alt by done. by rewrite Nat.sub_diag. }
  unfold prog_bind at 1. rewrite H1.
  destruct (clean_fill_run h d1 o) as (r2 & h2 & E2 & L2 & G2 & P2).
  unfold prog_bind at 1. cbv zeta in E2. rewrite E2.
  destruct (get_default (co_handle_duplicates o) false).
  - unfold prog_bind at 1. rewrite (run_read _ _ _ L2).
    assert (Hnew : forall d3, exists r h',
               df_new d3 h2 = (Ok r, h') /\ h' !! r = Some d3 /\
               (length h <= r)%nat /\ h `prefix_of` h').
    { intros d3. eexists _, _. split; [reflexivity|].
      split; [by apply list_lookup_middle|].
      split; [apply prefix_length in P2; lia|].
      etrans; [exact P2|]. by apply prefix_app_r. }
    destruct (truthy (co_join_key o) && has_column (clean_fill o d1) (co_join_key o));
      apply Hnew.
  - by exists r2, h2.
Qed.








Lemma getitem_map_series (F : Pd.Series -> Pd.Series) (n : nat)
      (cols : list (string * Pd.Series)) (c : string) :
  Pd.getitem (Pd.mkDF n (map (fun p => (fst p, F (snd p))) cols)) c
  = option_map F (Pd.getitem (Pd.mkDF n cols) c).
Proof. independent.
  unfold Pd.getitem. simpl. induction cols as [|[c' s'] cols IH]; simpl; [done|].
  destruct (String.eqb c' c); [done|exact IH].
Qed.

Lemma getitem_setitem_other (d : Pd.DataFrame) (c c' : string) (s : Pd.Series) :
  c' <> c -> Pd.getitem (Pd.setitem d c s) c' = Pd.getitem d c'.
Proof. independent.
  intros Hne. unfold Pd.setitem, Pd.getitem.
  destruct (PyStr.mem c (Pd.columns d)); simpl.
  - induction (Pd.cols d) as [|[a b] l IH]; simpl; [done|].
    destruct (String.eqb_spec a c) as [->|Ha]; simpl.
    + destruct (String.eqb_spec c c') as [->|_]; [done|].
      destruct (String.eqb_spec c c'); [by subst|]. exact IH.
    + destruct (String.eqb a c'); [done|exact IH].
  - induction (Pd.cols d) as [|[a b] l IH]; simpl.
    + destruct (String.eqb_spec c c'); [by subst|done].
    + destruct (String.eqb a c'); [done|exact IH].
Qed.















Lemma select_Forall {A : Type} (P : A -> Prop) (mask : list bool) :
  forall l, Forall P l -> Forall P (Pd.select mask l).
Proof. independent.
  induction mask as [|m mask IH]; intros l Hl; [constructor|].
  destruct Hl as [|x l Hx Hl]; simpl; [constructor|].
  destruct m; [constructor; [done|]|]; by apply IH.
Qed.

Lemma getitem_filter_rows (mask : list bool) (d : Pd.DataFrame) (c : string) :
  Pd.getitem (Pd.filter_rows mask d) c
  = option_map (fun s => Pd.mkSeries (Pd.select mask (Pd.data s)) (Pd.cats s))
               (Pd.getitem d c).
Proof. independent.
  unfold Pd.filter_rows.
  rewrite (getitem_map_series
             (fun s => Pd.mkSeries (Pd.select mask (Pd.data s)) (Pd.cats s))).
  by destruct d.
Qed.

Lemma getitem_fillna (v : Pd.Cell) (d : Pd.DataFrame) (c : string) :
  Pd.getitem (Pd.fillna v d) c = option_map (Pd.series_fillna v) (Pd.getitem d c).
Proof. independent.
  unfold Pd.fillna. rewrite (getitem_map_series (Pd.series_fillna v)). by destruct d.
Qed.

(** X13.  With the fill method Zero, the table [clean_dataframe] returns
    has no missing cell. *)
Theorem zero_fill_leaves_no_missing (h : Heap) (df : ref) (d : Pd.DataFrame)
        (o : CleanOptions) :
  h !! df = Some d ->
  co_fill_method o = Some "Zero" ->
  exists r out,
    fst (clean_dataframe df (Some o) h) = Ok r /\
    snd (clean_dataframe df (Some o) h) !! r = Some out /\
    forall c s, Pd.getitem out c = Some s ->
                Forall (fun x => Pd.isna x = false) (Pd.data s).
Proof. independent.
  intros Hd Hm.
  destruct (clean_dataframe_run h df d (Some o) Hd) as (r & h' & E & L & _).
  exists r, (clean_table (Some o) d). rewrite E. simpl. split; [done|]. split; [done|].
  unfold clean_table. cbn [get_default].
  set (d1 := if get_default (co_ignore_case o) true then Pd.relabel PyStr.lower d else d).
  assert (Hfill : clean_fill o d1 = Pd.fillna (Pd.CInt 0) d1).
  { unfold clean_fill. by rewrite Hm. }
  rewrite Hfill.
  assert (Hz : forall c s, Pd.getitem (Pd.fillna (Pd.CInt 0) d1) c = Some s ->
                           Forall (fun x => Pd.isna x = false) (Pd.data s)).
  { intros c s Hs. rewrite getitem_fillna in Hs.
    destruct (Pd.getitem _ c) as [s0|]; [|done]. injection Hs as <-.
    unfold Pd.series_fillna. simpl. apply List.Forall_forall. intros x Hx.
    apply in_map_iff in Hx as (y & <- & _). unfold Pd.fill_cell. by destruct y. }
  assert (Hdrop : forall subset c s,
             Pd.getitem (Pd.drop_duplicates subset (Pd.fillna (Pd.CInt 0) d1)) c = Some s ->
             Forall (fun x => Pd.isna x = false) (Pd.data s)).
  { intros subset c s Hs. unfold Pd.drop_duplicates in Hs.
    rewrite getitem_filter_rows in Hs.
    destruct (Pd.getitem _ c) as [s0|] eqn:E0; [|done]. injection Hs as <-. simpl.
    apply select_Forall. by apply (Hz c). }
  destruct (get_default (co_handle_duplicates o) false); [|exact Hz].
  destruct (_ && _); apply Hdrop.
Qed.

(** ** What [process_files] returns and stores *)

Lemma session_ret {A : Type} (a : A) : keeps_session (prog_ret a).
Proof. independent. intros w. done. Qed.

Lemma session_raise {A : Type} (e : exn) : keeps_session (@prog_raise World A e).
Proof. independent. intros w. done. Qed.

Lemma session_lift {A : Type} (r : Result A) : keeps_session (prog_lift r).
Proof. independent. intros w. done. Qed.

Lemma session_emit (e : UiEvent) : keeps_session (emit e).
Proof. independent. intros w. done. Qed.

Lemma session_options : keeps_session options.
Proof. independent. intros w. done. Qed.

Lemma session_assign (k : option string) : keeps_session (assign_join_key k).
Proof. independent. intros w. done. Qed.

Lemma session_bind {A B : Type} (p : Prog World A) (k : A -> Prog World B) :
  keeps_session p -> (forall a, keeps_session (k a)) -> keeps_session (prog_bind p k).
Proof. independent.
  intros Hp Hk w. unfold prog_bind. specialize (Hp w).
  destruct (p w) as [[a|e] w1]; simpl in *; [|done].
  destruct (Hk a w1) as [H1 H2]. destruct Hp as [H3 H4]. split; congruence.
Qed.

Create HintDb session.
#[local] Hint Resolve session_ret session_raise session_lift session_emit
  session_options session_assign : session.

Ltac session_tac :=
  repeat first
    [ solve [auto with session]
    | apply session_bind; [|intros]
    | match goal with
      | |- keeps_session (if ?c then _ else _) => destruct c
      | |- keeps_session (match ?x with _ => _ end) => destruct x
      | |- keeps_session (let _ := _ in _) => cbv zeta
      end ].

Lemma session_load_loop (m : FileMerger) (total : nat) (files : list UploadedFile) :
  forall i acc, keeps_session (load_loop m total i files acc).
Proof. independent.
  induction files as [|f files IH]; intros i acc; simpl; [apply session_ret|].
  apply session_bind; [|intros; apply IH].
  unfold load_step. session_tac.
Qed.

Lemma session_clean_loop (o : MergeOptions) (dfs : list Pd.DataFrame) :
  forall names, keeps_session (clean_loop o dfs names).
Proof. independent.
  induction dfs as [|df dfs IH]; intros names; simpl; [apply session_ret|].
  apply session_bind; [apply session_lift|intros].
  apply session_bind; [unfold duplicates_stage; session_tac|intros].
  apply session_bind; [apply IH|intros]. apply session_ret.
Qed.

Lemma session_show_mappings (l : list (string * list (string * string))) :
  keeps_session (show_mappings l).
Proof. independent.
  induction l as [|[file mappings] l IH]; simpl; [apply session_ret|].
  apply session_bind; [apply session_emit|intros].
  apply session_bind; [|intros; apply IH].
  induction mappings as [|p ps IHp]; simpl; [apply session_ret|].
  apply session_bind; [apply session_emit|intros; apply IHp].
Qed.

Lemma session_merge_tables (o : MergeOptions) (dfs : list Pd.DataFrame)
      (names : list string) :
  keeps_session (merge_tables o dfs names).
Proof. independent.
  unfold merge_tables. apply session_bind; [apply session_emit|intros].
  destruct (String.eqb _ _); [session_tac|].
  destruct (String.eqb _ _).
  { unfold join_merge. destruct dfs as [|first rest]; [apply session_raise|].
    apply session_bind; [|intros; session_tac].
    destruct (matching_columns o); [|apply session_ret].
    apply session_bind; [apply session_emit|intros].
    apply session_bind; [|intros; apply session_ret].
    destruct (flat_map _ _); [apply session_ret|].
    apply session_bind; [apply session_emit|intros; apply session_show_mappings]. }
  destruct (String.eqb _ _); [unfold smart_merge; session_tac|apply session_raise].
Qed.

(** What [merge_phase] returns and stores. *)
Lemma merge_phase_outcome (dfs : list Pd.DataFrame) (names : list string) (w : World) :
  match fst (merge_phase dfs names w) with
  | Ok (t, e) =>
      exists merged_df,
        t = Some merged_df /\ e = None /\
        w_merged_df (snd (merge_phase dfs names w)) = Some merged_df /\
        w_last_merge_time (snd (merge_phase dfs names w)) = Some now
  | Raise _ =>
      w_merged_df (snd (merge_phase dfs names w)) = w_merged_df w /\
      w_last_merge_time (snd (merge_phase dfs names w)) = w_last_merge_time w
  end.
Proof. independent.
  unfold merge_phase, prog_bind, options, save_session, prog_modify, prog_ret.
  pose proof (session_clean_loop (w_options w) dfs names w) as Hc.
  destruct (clean_loop (w_options w) dfs names w) as [[dfs'|e] w1]; simpl in Hc;
    [|exact Hc].
  pose proof (session_merge_tables (w_options w) dfs' names w1) as Hm.
  destruct (merge_tables (w_options w) dfs' names w1) as [[merged|e] w2]; simpl in Hm.
  - simpl. by exists merged.
  - simpl. destruct Hc, Hm. split; congruence.
Qed.

(** X14.  Whenever [process_files] returns, its pair is either a merged
    table and no errors, or no table and a list of errors that is not
    empty. *)
Theorem process_files_result_shape (m : FileMerger) (files : list UploadedFile)
        (w : World) (t : option Pd.DataFrame) (e : option (list string)) :
  fst (process_files m files w) = Ok (t, e) ->
  (exists merged_df, t = Some merged_df /\ e = None) \/
  (exists msg msgs, t = None /\ e = Some (msg :: msgs)).
Proof. independent.
  unfold process_files. destruct files as [|f files].
  { intros [= <- <-]. right. by eexists _, _. }
  set (fs := f :: files).
  unfold prog_bind, options, emit, prog_modify, prog_ret.
  destruct (is_join (w_options w) && negb (truthy (join_key (w_options w)))).
  { intros [= <- <-]. right. by eexists _, _. }
  destruct (load_loop _ _ _ _ _ _) as [[acc|x] w1]; [|done].
  destruct (l_error_messages acc) as [|msg msgs].
  - destruct (l_dfs acc) as [|d ds].
    + intros [= <- <-]. right. by eexists _, _.
    + match goal with |- fst (merge_phase ?a ?b ?c) = _ -> _ =>
        pose proof (merge_phase_outcome a b c) as H;
        destruct (fst (merge_phase a b c)) as [[t' e']|x]; [|done]
      end.
      destruct H as (merged & -> & -> & _). intros [= <- <-]. left. by eexists.
  - intros [= <- <-]. right. by eexists _, _.
Qed.

(** X15.  [process_files] stores the merged table and the time of the merge
    in the session exactly when it returns a table; in every other case,
    an exception among them, both session entries are as they were. *)
Theorem session_saved_on_success (m : FileMerger) (files : list UploadedFile)
        (w : World) :
  let r := process_files m files w in
  match fst r with
  | Ok (Some merged_df, _) =>
      w_merged_df (snd r) = Some merged_df /\ w_last_merge_time (snd r) = Some now
  | _ =>
      w_merged_df (snd r) = w_merged_df w /\
      w_last_merge_time (snd r) = w_last_merge_time w
  end.
Proof. independent.
  cbv zeta. unfold process_files. destruct files as [|f files]; [done|].
  set (fs := f :: files).
  unfold prog_bind, options, emit, prog_modify, prog_ret.
  destruct (is_join (w_options w) && negb (truthy (join_key (w_options w)))); [done|].
  match goal with |- context [load_loop m ?a ?b ?c ?d ?w0] =>
    pose proof (session_load_loop m a c b d w0) as Hl;
    destruct (load_loop m a b c d w0) as [[acc|x] w1]
  end; simpl in Hl; [|exact Hl].
  destruct (l_error_messages acc) as [|msg msgs]; [|exact Hl].
  destruct (l_dfs acc) as [|d ds]; [exact Hl|].
  match goal with |- context [merge_phase ?a ?b ?c] =>
    pose proof (merge_phase_outcome a b c) as H;
    destruct (merge_phase a b c) as [[[t' e']|x] w2]
  end; simpl in H |- *.
  - destruct H as (merged & -> & -> & H1 & H2). done.
  - destruct H, Hl. split; congruence.
Qed.

(** ** Scaling *)

(** What [NumericScalingTransformer.transform] does on a table that has
    the column, when the column holds a number. *)
Lemma scaling_transform_run (h : Heap) (df : ref) (d : Pd.DataFrame) (p : ScalingParams)
      (s : Pd.Series) :
  h !! df = Some d ->
  has_column d (sc_column p) = true ->
  Pd.getitem d (str_opt (sc_column p)) = Some s ->
  forallb is_none (to_numeric s) = false ->
  scaling_transform df p h =
  match scaled_data (get_default (sc_method p) "min_max")
                    (get_default (sc_min_value p) 0%Q)
                    (get_default (sc_max_value p) 100%Q) (to_numeric s) with
  | Ok scaled => (Ok (length h), (h ++ [Pd.setitem d (scaling_target p) scaled])%list)
  | Raise e =>
      (Raise (ValueError ("Error scaling numeric data: " +:+ exn_msg e)), (h ++ [d])%list)
  end.
Proof. independent.
  intros Hd Hc Hs Hn. unfold scaling_transform. cbv zeta.
  unfold prog_bind at 1. rewrite (run_copy h df d Hd).
  unfold prog_bind at 1. rewrite run_read_new. rewrite Hc. cbn [negb].
  unfold prog_bind at 1. rewrite (run_getitem_new h d _ s Hs). rewrite Hn.
  fold (scaling_target p).
  unfold prog_bind at 1, prog_try, prog_bind at 1, prog_lift.
  destruct (scaled_data _ _ _ _) as [scaled|e]; cbn [exn_msg].
  - by rewrite run_setitem_new.
  - reflexivity.
Qed.

Lemma present_In (l : list (option Q)) (x : Q) : In x (present l) <-> In (Some x) l.
Proof. independent.
  unfold present. rewrite in_flat_map. split.
  - intros ([y|] & Hy & Hx); simpl in Hx; [|done]. destruct Hx as [->|[]]. done.
  - intros H. exists (Some x). split; [done|]. by left.
Qed.

Lemma present_nonempty (l : list (option Q)) :
  forallb is_none l = false -> present l <> [].
Proof. independent.
  induction l as [|[x|] l IH]; simpl; [done|done|]. exact IH.
Qed.

Lemma fold_min_le (r : list Q) :
  forall q, (fold_left Qmin' r q <= q)%Q /\
            forall x, In x r -> (fold_left Qmin' r q <= x)%Q.
Proof. independent.
  induction r as [|y r IH]; intros q; simpl; [split; [apply Qle_refl|by intros ? []]|].
  destruct (IH (Qmin' q y)) as [H1 H2].
  assert (Hm : (Qmin' q y <= q)%Q /\ (Qmin' q y <= y)%Q).
  { unfold Qmin'. destruct (Qle_bool q y) eqn:E.
    - apply Qle_bool_iff in E. split; [apply Qle_refl|done].
    - split; [|apply Qle_refl]. apply Qlt_le_weak, Qnot_le_lt. intros H.
      apply Qle_bool_iff in H. by rewrite H in E. }
  destruct Hm as [Hq Hy]. split; [by eapply Qle_trans|].
  intros x [<-|Hx]; [by eapply Qle_trans|by apply H2].
Qed.

Lemma fold_max_ge (r : list Q) :
  forall q, (q <= fold_left Qmax' r q)%Q /\
            forall x, In x r -> (x <= fold_left Qmax' r q)%Q.
Proof. independent.
  induction r as [|y r IH]; intros q; simpl; [split; [apply Qle_refl|by intros ? []]|].
  destruct (IH (Qmax' q y)) as [H1 H2].
  assert (Hm : (q <= Qmax' q y)%Q /\ (y <= Qmax' q y)%Q).
  { unfold Qmax'. destruct (Qle_bool q y) eqn:E.
    - apply Qle_bool_iff in E. split; [done|apply Qle_refl].
    - split; [apply Qle_refl|]. apply Qlt_le_weak, Qnot_le_lt. intros H.
      apply Qle_bool_iff in H. by rewrite H in E. }
  destruct Hm as [Hq Hy]. split; [by eapply Qle_trans|].
  intros x [<-|Hx]; [by eapply Qle_trans|by apply H2].
Qed.

(** A column that holds a number has a least and a greatest one. *)
Lemma series_bounds (l : list (option Q)) :
  forallb is_none l = false ->
  exists min_val max_val,
    series_min l = Some min_val /\ series_max l = Some max_val /\
    forall x, In (Some x) l -> (min_val <= x <= max_val)%Q.
Proof. independent.
  intros Hn. apply present_nonempty in Hn. unfold series_min, series_max.
  destruct (present l) as [|q r] eqn:E; [done|].
  eexists _, _. split; [done|]. split; [done|].
  intros x Hx. apply present_In in Hx. rewrite E in Hx.
  destruct (fold_min_le r q) as [H1 H2]. destruct (fold_max_ge r q) as [H3 H4].
  destruct Hx as [<-|Hx]; [done|]. split; [by apply H2|by apply H4].
Qed.

Lemma length_append (a b : string) :
  String.length (a +:+ b) = (String.length a + String.length b)%nat.
Proof. independent. induction a as [|x a IH]; simpl; [done|]. by rewrite IH. Qed.

Lemma append_differs (a b : string) : b <> EmptyString -> a +:+ b <> a.
Proof. independent.
  intros Hb H. apply (f_equal String.length) in H.
  rewrite length_append in H. destruct b; [done|]. simpl in H. lia.
Qed.

(** X18.  With [create_new_column] on (the default) and no name given, the
    scaling transformer writes its result to a new column named after the
    source column and the method (suffix _scaled, _zscore, _maxabs or
    _custom), and the table it returns keeps the source column and every
    other column as they were. *)
Theorem scaling_adds_a_column (h : Heap) (df : ref) (d : Pd.DataFrame) (p : ScalingParams)
        (s : Pd.Series) :
  let method := get_default (sc_method p) "min_max" in
  h !! df = Some d ->
  Pd.getitem d (str_opt (sc_column p)) = Some s ->
  has_column d (sc_column p) = true ->
  forallb is_none (to_numeric s) = false ->
  In method ["min_max"; "z_score"; "max_abs"; "custom_range"] ->
  get_default (sc_create_new_column p) true = true ->
  truthy (sc_new_column_name p) = false ->
  exists out suffix,
    scaling_transform df p h = (Ok (length h), (h ++ [out])%list) /\
    In (method, suffix) [("min_max", "_scaled"); ("z_score", "_zscore");
                         ("max_abs", "_maxabs"); ("custom_range", "_custom")] /\
    scaling_target p = str_opt (sc_column p) +:+ suffix /\
    is_Some (Pd.getitem out (scaling_target p)) /\
    Pd.getitem out (str_opt (sc_column p)) = Some s /\
    forall c, c <> scaling_target p -> Pd.getitem out c = Pd.getitem d c.
Proof. independent.
  intros method Hd Hs Hc Hn Hm Hnew Hname.
  pose proof (scaling_transform_run h df d p s Hd Hc Hs Hn) as Hrun.
  fold method in Hrun.
  destruct (series_bounds _ Hn) as (mn & mx & Emin & Emax & _).
  assert (Hok : exists scaled,
             scaled_data method (get_default (sc_min_value p) 0%Q)
                         (get_default (sc_max_value p) 100%Q) (to_numeric s)
             = Ok scaled).
  { unfold scaled_data. rewrite Emin, Emax.
    simpl in Hm. destruct Hm as [<-|[<-|[<-|[<-|[]]]]];
      cbn [String.eqb Ascii.eqb Bool.eqb].
    - destruct (Qeq_bool mn mx); by eexists.
    - destruct (numeric_mean (to_numeric s)), (series_std (to_numeric s));
        try (by eexists).
      match goal with |- context [Qeq_bool ?x 0] => destruct (Qeq_bool x 0) end;
        by eexists.
    - destruct (Qeq_bool (Qmax' (Qabs mn) (Qabs mx)) 0); by eexists.
    - destruct (Qeq_bool mn mx); by eexists. }
  destruct Hok as [scaled Hok]. rewrite Hok in Hrun.
  assert (Ht : exists suffix,
             In (method, suffix) [("min_max", "_scaled"); ("z_score", "_zscore");
                                  ("max_abs", "_maxabs"); ("custom_range", "_custom")] /\
             scaling_target p = str_opt (sc_column p) +:+ suffix).
  { unfold scaling_target. cbv zeta. fold method. rewrite Hnew.
    assert (Hn' : truthy (Some (get_default (sc_new_column_name p) EmptyString)) = false)
      by (by destruct (sc_new_column_name p) as [[|]|]).
    rewrite Hn'. cbn [andb negb].
    simpl in Hm. destruct Hm as [<-|[<-|[<-|[<-|[]]]]];
      cbn [String.eqb Ascii.eqb Bool.eqb]; eexists; (split; [|reflexivity]);
      simpl; tauto. }
  destruct Ht as (suffix & Hin & Ht).
  eexists _, suffix. split; [exact Hrun|]. split; [done|]. split; [done|].
  split; [rewrite getitem_setitem; by eexists|].
  split; [|intros c Hne; by apply getitem_setitem_other].
  rewrite getitem_setitem_other; [done|].
  rewrite Ht. intros E. symmetry in E. revert E. apply append_differs.
  simpl in Hin. destruct Hin as [[= _ <-]|[[= _ <-]|[[= _ <-]|[[= _ <-]|[]]]]]; done.
Qed.

(** ** The transformer registry *)

Lemma name_of_inj (c c' : TransformerClass) : name_of c = name_of c' -> c = c'.
Proof. independent. destruct c, c'; simpl; intros H; try reflexivity; discriminate H. Qed.

Lemma keyed_register_all (classes : list TransformerClass) :
  forall transformers,
    keyed_by_name transformers -> keyed_by_name (register_all classes transformers).
Proof. independent.
  unfold register_all.
  induction classes as [|c classes IH]; intros reg Hreg; simpl; [done|].
  apply IH. intros name cls H. unfold register_transformer in H.
  apply lookup_insert_Some in H as [[<- <-]|[_ H]]; [done|by apply Hreg].
Qed.

Lemma registered_stays (classes : list TransformerClass) (cls : TransformerClass) :
  forall transformers,
    In cls classes \/ transformers !! name_of cls = Some cls ->
    register_all classes transformers !! name_of cls = Some cls.
Proof. independent.
  unfold register_all.
  induction classes as [|c classes IH]; intros reg H; simpl.
  - destruct H as [[]|H]. exact H.
  - apply IH. unfold register_transformer.
    destruct (decide (name_of c = name_of cls)) as [E|E].
    + apply name_of_inj in E as ->. right. apply lookup_insert_eq.
    + rewrite lookup_insert_ne by done.
      destruct H as [[->|H]|H]; [done|by left|by right].
Qed.

(** X19.  Once the package is imported, its modules loading without error,
    the registry holds the nine built-in transformers, each under its own
    [name], and nothing else: [get_transformer] finds a transformer
    under a name exactly when that name is the transformer's. *)
Theorem builtin_transformers_by_name (name : string) (cls : TransformerClass) :
  get_transformer (get_all_transformers builtin_transformers) name = Some cls <->
  name = name_of cls.
Proof. independent.
  unfold get_all_transformers, get_transformer, builtin_transformers,
    discover_transformers, transformer_modules.
  cbn [fold_left fst snd]. split.
  - revert name cls.
    repeat apply keyed_register_all. intros name cls H. by rewrite lookup_empty in H.
  - intros ->.
    destruct cls;
      repeat (apply registered_stays; first [left; simpl; by auto 10|right]).
Qed.

(** ** Applying a registered transformer *)

Lemma frames_transform (h0 : Heap) (t : TransformSpec) (df : ref) :
  frames h0 (fun _ => True) (transform t df) (owned h0).
Proof. independent.
  destruct t; simpl;
    [ apply frames_scaling | apply frames_binning | apply frames_math
    | apply frames_date_format | apply frames_date_extract
    | apply frames_date_difference | apply frames_text_case
    | apply frames_text_extract | apply frames_text_replace ].
Qed.

Lemma validate_fold (params : gmap string ParamValue) (l : list ParamInfo) :
  NoDup (map p_name l) ->
  forall acc,
    (forall p, In p l -> ~ In (p_name p) (map fst acc)) ->
    fold_left
      (fun errors param =>
         if param_missing params (p_name param)
         then dict_set errors (p_name param) (required_message param)
         else errors)
      l acc
    = (acc ++ map (fun p => (p_name p, required_message p))
                  (List.filter (fun p => param_missing params (p_name p)) l))%list.
Proof. independent.
  induction l as [|p l IH]; intros Hnd acc Hacc; simpl.
  - by rewrite app_nil_r.
  - apply NoDup_cons in Hnd as [Hp Hnd].
    destruct (param_missing params (p_name p)) eqn:E.
    + rewrite IH; [|done|].
      * unfold dict_set.
        destruct (PyStr.mem (p_name p) (map fst acc)) eqn:Em.
        { apply mem_In in Em. exfalso. apply (Hacc p); [by left|done]. }
        by rewrite <- app_assoc.
      * intros q Hq Hin. apply dict_set_keys in Hin as [Hin|Hin].
        { apply (Hacc q); [by right|done]. }
        apply Hp. rewrite <- Hin. apply list_elem_of_In. by apply in_map.
    + apply IH; [done|]. intros q Hq. apply Hacc. by right.
Qed.

Lemma parameter_names_distinct (cls : TransformerClass) :
  NoDup (map p_name (List.filter p_required (get_parameters cls))).
Proof. independent.
  destruct cls; simpl;
    repeat (apply NoDup_cons_2;
            [rewrite list_elem_of_In; simpl; intros H;
             repeat (destruct H as [H|H]; [discriminate H|]); exact H|]);
    apply NoDup_nil_2.
Qed.

Lemma validate_parameters_spec (cls : TransformerClass) (params : gmap string ParamValue) :
  validate_parameters cls params =
  map (fun p => (p_name p, required_message p))
      (List.filter (fun p => p_required p && param_missing params (p_name p))
                   (get_parameters cls)).
Proof. independent.
  unfold validate_parameters. cbv zeta.
  rewrite validate_fold; [|apply parameter_names_distinct|by intros ? ? []].
  simpl. f_equal.
  induction (get_parameters cls) as [|p l IH]; simpl; [done|].
  destruct (p_required p); simpl; [|done].
  destruct (param_missing params (p_name p)); simpl; by rewrite IH.
Qed.

(** X20.  [validate_parameters] returns one error for each required
    parameter that is absent, [None] or the empty string, in the order of
    [get_parameters], keyed by the parameter's name and quoting its
    label; it returns no error exactly when every required parameter has
    a value other than [None] and the empty string. *)
Theorem required_parameters_checked (cls : TransformerClass)
        (params : gmap string ParamValue) :
  validate_parameters cls params =
    map (fun p => (p_name p, required_message p))
        (List.filter (fun p => p_required p && param_missing params (p_name p))
                     (get_parameters cls)) /\
  (validate_parameters cls params = [] <->
   forall p, In p (get_parameters cls) -> p_required p = true ->
             exists v, params !! p_name p = Some v /\ v <> PNone /\ v <> PStr "").
Proof. independent.
  split; [apply validate_parameters_spec|].
  rewrite validate_parameters_spec. split.
  - intros H p Hin Hreq.
    destruct (param_missing params (p_name p)) eqn:E.
    + exfalso.
      assert (Hf : In p (List.filter (fun p => p_required p && param_missing params (p_name p))
                                     (get_parameters cls))).
      { apply filter_In. split; [done|]. by rewrite Hreq, E. }
      apply (in_map (fun p => (p_name p, required_message p))) in Hf.
      by rewrite H in Hf.
    + unfold param_missing in E.
      destruct (params !! p_name p) as [v|]; [|discriminate E].
      exists v. split; [done|].
      destruct v as [[|]| | | |]; try discriminate E; split; congruence.
  - intros H.
    destruct (List.filter _ _) as [|p l] eqn:E; [done|exfalso].
    assert (Hf : In p (List.filter (fun p => p_required p && param_missing params (p_name p))
                                   (get_parameters cls))) by (rewrite E; by left).
    apply filter_In in Hf as [Hin Hb]. apply andb_true_iff in Hb as [Hreq Hmiss].
    destruct (H p Hin Hreq) as (v & Hv & Hn & He).
    unfold param_missing in Hmiss. rewrite Hv in Hmiss.
    destruct v as [[|]| | | |]; try discriminate Hmiss; congruence.
Qed.

(** X21.  [apply_transformer] never raises and changes no table the caller
    holds.  It returns either a table, which is then a new object made by
    a registered transformer whose parameters passed validation, or a
    dictionary of errors that is not empty. *)
Theorem apply_transformer_never_raises (transformers : gmap string TransformerClass)
        (df : ref) (name : string) (params : gmap string ParamValue) (h : Heap) :
  h `prefix_of` snd (apply_transformer transformers df name params h) /\
  ((exists result,
       fst (apply_transformer transformers df name params h) = Ok (inl result) /\
       owned h result (snd (apply_transformer transformers df name params h)) /\
       exists cls, get_transformer transformers name = Some cls /\
                   validate_parameters cls params = []) \/
   (exists error errors,
       fst (apply_transformer transformers df name params h)
       = Ok (inr (error :: errors)))).
Proof. independent.
  unfold apply_transformer.
  destruct (get_transformer transformers name) as [cls|]; [|split; [done|right; eauto]].
  destruct (validate_parameters cls params) as [|e es] eqn:Ev;
    [|split; [done|right; eauto]].
  unfold prog_try, prog_bind, prog_ret, any_exception.
  destruct (frames_transform h (read_params cls params) df h (reflexivity _) I) as [H1 H2].
  destruct (transform (read_params cls params) df h) as [[r|e] h1]; simpl in *.
  - split; [done|]. left. exists r. split; [done|]. split; [done|]. by exists cls.
  - split; [done|]. right. eauto.
Qed.

(** X22.  When a required parameter of the named transformer is absent,
    [None] or the empty string, [apply_transformer] returns the
    validation errors, among them the message naming that parameter's
    label, and the transformer is not run: no table is made. *)
Theorem missing_parameter_refused (transformers : gmap string TransformerClass)
        (df : ref) (name : string) (params : gmap string ParamValue) (h : Heap)
        (cls : TransformerClass) (p : ParamInfo) :
  get_transformer transformers name = Some cls ->
  In p (get_parameters cls) -> p_required p = true ->
  param_missing params (p_name p) = true ->
  exists errors,
    apply_transformer transformers df name params h = (Ok (inr errors), h) /\
    In (p_name p, "Parameter '" +:+ p_label p +:+ "' is required") errors.
Proof. independent.
  intros Hg Hin Hreq Hmiss. unfold apply_transformer. rewrite Hg.
  assert (Hv : In (p_name p, required_message p) (validate_parameters cls params)).
  { rewrite validate_parameters_spec.
    apply (in_map (fun p => (p_name p, required_message p))).
    apply filter_In. split; [done|]. by rewrite Hreq, Hmiss. }
  destruct (validate_parameters cls params) as [|e es]; [destruct Hv|].
  exists (e :: es). split; done.
Qed.

(** ** Lists of transformations *)

Lemma grows_ret {A : Type} (a : A) : grows (prog_ret a).
Proof. independent. by intros h. Qed.

Lemma grows_raise {A : Type} (e : exn) : grows (@prog_raise Heap A e).
Proof. independent. by intros h. Qed.

Lemma grows_lift {A : Type} (r : Result A) : grows (prog_lift r).
Proof. independent. by intros h. Qed.

Lemma grows_bind {A B : Type} (p : Prog Heap A) (k : A -> Prog Heap B) :
  grows p -> (forall a, grows (k a)) -> grows (prog_bind p k).
Proof. independent.
  intros Hp Hk h. unfold prog_bind. specialize (Hp h).
  destruct (p h) as [[a|e] h1]; simpl in *; [|done].
  specialize (Hk a h1). lia.
Qed.

Lemma grows_try {A : Type} (sel : exn -> bool) (p : Prog Heap A)
      (k : exn -> Prog Heap A) :
  grows p -> (forall e, grows (k e)) -> grows (prog_try sel p k).
Proof. independent.
  intros Hp Hk h. unfold prog_try. specialize (Hp h).
  destruct (p h) as [[a|e] h1]; simpl in *; [done|].
  destruct (sel e); simpl; [|done]. specialize (Hk e h1). lia.
Qed.

Lemma grows_read (r : ref) : grows (df_read r).
Proof. independent. intros h. unfold df_read. by destruct (h !! r). Qed.

Lemma grows_new (d : Pd.DataFrame) : grows (df_new d).
Proof. independent. intros h. unfold df_new. simpl. rewrite length_app. lia. Qed.

Lemma grows_update (r : ref) (g : Pd.DataFrame -> Pd.DataFrame) : grows (df_update r g).
Proof. independent.
  intros h. unfold df_update. destruct (h !! r); simpl; [|done].
  by rewrite length_insert.
Qed.

Ltac grow :=
  lazymatch goal with
  | |- grows (prog_bind _ _) => apply grows_bind; [grow | intros ?; grow]
  | |- grows (prog_try _ _ _) => apply grows_try; [grow | intros ?; grow]
  | |- grows (if ?c then _ else _) => destruct c; grow
  | |- grows (match ?x with _ => _ end) => destruct x; grow
  | |- grows (let _ := _ in _) => cbv zeta; grow
  | |- _ =>
      first [ apply grows_ret | apply grows_raise | apply grows_lift
            | apply grows_read | apply grows_new | apply grows_update ]
  end.

Lemma grows_transformation_step (result : ref) (t : Transformation) :
  grows (transformation_step result t).
Proof. independent.
  unfold transformation_step, create_calculated_column, convert_column_type,
    replace_values, filter_rows, rename_columns, drop_listed_columns, df_filter,
    df_convert_column, df_map_column, df_getitem, df_setitem, df_copy.
  grow.
Qed.

(** A step that is given up keeps the table it started from. *)
Lemma frames_recover (h0 : Heap) (result : ref) (p : Prog Heap ref) :
  frames h0 (owned h0 result) p (owned h0) -> grows p ->
  frames h0 (owned h0 result)
         (prog_try any_exception p (fun _ => prog_ret result)) (owned h0).
Proof. independent.
  intros Hp Hg h Hpre Ho. unfold prog_try.
  destruct (Hp h Hpre Ho) as [H1 H2]. specialize (Hg h).
  destruct (p h) as [[a|e] h1]; simpl in *; [done|].
  split; [done|]. unfold owned in *. lia.
Qed.

Lemma frames_weaken (h0 : Heap) {A : Type} (P : Heap -> Prop) (p : Prog Heap A)
      (Q : A -> Heap -> Prop) :
  frames h0 (fun _ => True) p Q -> frames h0 P p Q.
Proof. independent. intros Hp. eapply frames_conseq; [exact Hp|done|done]. Qed.

Lemma frames_filter (h0 : Heap) (result : ref) (mask : list bool) (P : Heap -> Prop) :
  frames h0 P (df_filter result mask) (owned h0).
Proof. independent.
  unfold df_filter. eapply frames_bind; [apply frames_read|]. intros d. apply frames_new.
Qed.

Lemma frames_convert_column (h0 : Heap) (result : ref) (c : string)
      (g : Pd.Series -> Result Pd.Series) :
  frames h0 (owned h0 result) (df_convert_column result c g)
         (fun _ => owned h0 result).
Proof. independent.
  unfold df_convert_column.
  eapply frames_bind; [apply frames_getitem|]. intros s.
  eapply frames_bind; [apply frames_lift|]. intros s'. apply frames_setitem.
Qed.

Lemma frames_transformation_step (h0 : Heap) (result : ref) (t : Transformation) :
  frames h0 (owned h0 result) (transformation_step result t) (owned h0).
Proof. independent.
  unfold transformation_step. cbv zeta.
  repeat match goal with |- frames _ _ (if ?c then _ else _) _ => destruct c end.
  - apply frames_weaken, frames_create_calculated_column.
  - unfold convert_column_type. cbv zeta.
    eapply frames_bind; [apply frames_read|]. intros d.
    destruct (_ && _); [|apply frames_ret].
    eapply frames_bind with (Q := fun _ => owned h0 result); [|intros ?; apply frames_ret].
    repeat match goal with |- frames _ _ (if ?c then _ else _) _ => destruct c end;
      first [apply frames_map_column | apply frames_convert_column | apply frames_skip].
  - unfold replace_values. cbv zeta.
    eapply frames_bind; [apply frames_read|]. intros d.
    destruct (tp_find _); [|apply frames_ret].
    destruct (_ && _); [|apply frames_ret].
    eapply frames_bind; [apply frames_convert_column|]. intros ?. apply frames_ret.
  - unfold filter_rows. cbv zeta.
    eapply frames_bind; [apply frames_read|]. intros d.
    destruct (tp_value _); [|apply frames_ret].
    destruct (_ && _); [|apply frames_ret].
    repeat match goal with |- frames _ _ (if ?c then _ else _) _ => destruct c end;
      try apply frames_ret;
      try (eapply frames_bind; [apply frames_getitem|]; intros s;
           eapply frames_bind; [apply frames_lift|]; intros mask; apply frames_filter).
    + apply frames_recover.
      * eapply frames_bind; [apply frames_getitem|]. intros s.
        eapply frames_bind; [apply frames_lift|]. intros th. apply frames_filter.
      * unfold df_filter, df_getitem. grow.
    + apply frames_recover.
      * eapply frames_bind; [apply frames_getitem|]. intros s.
        eapply frames_bind; [apply frames_lift|]. intros th. apply frames_filter.
      * unfold df_filter, df_getitem. grow.
  - unfold rename_columns. destruct (get_default _ _); [apply frames_ret|].
    eapply frames_bind; [apply frames_read|]. intros d. apply frames_new.
  - unfold drop_listed_columns. destruct (get_default _ _); [apply frames_ret|].
    eapply frames_bind; [apply frames_read|]. intros d. apply frames_new.
  - apply frames_ret.
Qed.

Lemma transformations_loop_run (h0 : Heap) (transformations : list Transformation) :
  forall result h,
    h0 `prefix_of` h -> owned h0 result h ->
    exists r,
      fst (transformations_loop result transformations h) = Ok r /\
      h0 `prefix_of` snd (transformations_loop result transformations h) /\
      owned h0 r (snd (transformations_loop result transformations h)).
Proof. independent.
  induction transformations as [|t ts IH]; intros result h Hpre Ho; simpl.
  - by exists result.
  - unfold prog_bind.
    destruct (frames_recover h0 result _ (frames_transformation_step h0 result t)
                             (grows_transformation_step result t) h Hpre Ho) as [H1 H2].
    fold (apply_transformation result t) in H1, H2.
    assert (Hr : exists r, fst (apply_transformation result t h) = Ok r).
    { unfold apply_transformation, prog_try.
      destruct (transformation_step result t h) as [[a|e] h1]; simpl; eauto. }
    destruct Hr as [r Hr]. rewrite Hr in H2.
    destruct (apply_transformation result t h) as [x h1]. simpl in *. subst x.
    by apply IH.
Qed.

(** X23.  [apply_data_transformations] returns a table for every list of
    transformations, whatever their types and parameters and whichever
    of them fail: the table is a new object and every table the caller
    holds, the input among them, is as it was. *)
Theorem transformations_never_fail (h : Heap) (df : ref) (d : Pd.DataFrame)
        (transformations : list Transformation) :
  h !! df = Some d ->
  exists result,
    fst (apply_data_transformations df transformations h) = Ok result /\
    h `prefix_of` snd (apply_data_transformations df transformations h) /\
    owned h result (snd (apply_data_transformations df transformations h)).
Proof. independent.
  intros Hd. unfold apply_data_transformations, prog_bind.
  rewrite (run_copy h df d Hd).
  apply transformations_loop_run.
  - by apply prefix_app_r.
  - unfold owned. rewrite length_app. simpl. lia.
Qed.

Lemma reads_read (r : ref) : reads_only (df_read r).
Proof. independent. intros h. unfold df_read. by destruct (h !! r). Qed.

Lemma reads_getitem (r : ref) (c : string) : reads_only (df_getitem r c).
Proof. independent.
  intros h. unfold df_getitem, prog_bind, df_read.
  destruct (h !! r) as [d|]; simpl; [|done]. by destruct (Pd.getitem d c).
Qed.

Lemma reads_lift {A : Type} (r : Result A) : reads_only (@prog_lift Heap A r).
Proof. independent. by intros h. Qed.

Lemma clean_ret {A : Type} (a : A) : fails_cleanly (@prog_ret Heap A a).
Proof. independent. by intros h e. Qed.

Lemma clean_bind {A B : Type} (p : Prog Heap A) (k : A -> Prog Heap B) :
  reads_only p -> (forall a, fails_cleanly (k a)) -> fails_cleanly (prog_bind p k).
Proof. independent.
  intros Hp Hk h e. unfold prog_bind. specialize (Hp h).
  destruct (p h) as [[a|e'] h1]; simpl in *; subst h1; [apply Hk|done].
Qed.

Lemma clean_then_ret {A B : Type} (p : Prog Heap A) (b : B) :
  fails_cleanly p -> fails_cleanly (prog_bind p (fun _ => prog_ret b)).
Proof. independent.
  intros Hp h e. unfold prog_bind. specialize (Hp h).
  destruct (p h) as [[a|e'] h1]; simpl in *; [done|]. intros _. by eapply Hp.
Qed.

Lemma clean_update (r : ref) (g : Pd.DataFrame -> Pd.DataFrame) :
  fails_cleanly (df_update r g).
Proof. independent. intros h e. unfold df_update. by destruct (h !! r). Qed.

Lemma clean_new (d : Pd.DataFrame) : fails_cleanly (df_new d).
Proof. independent. by intros h e. Qed.

Lemma clean_filter (result : ref) (mask : list bool) :
  fails_cleanly (df_filter result mask).
Proof. independent.
  unfold df_filter. apply clean_bind; [apply reads_read|]. intros d. apply clean_new.
Qed.

Lemma clean_recover {A : Type} (p : Prog Heap A) (a : A) :
  fails_cleanly (prog_try any_exception p (fun _ => prog_ret a)).
Proof. independent.
  intros h e. unfold prog_try. by destruct (p h) as [[x|e'] h1].
Qed.

Lemma clean_map_column (r : ref) (c : string) (g : Pd.Series -> Pd.Series) :
  fails_cleanly (df_map_column r c g).
Proof. independent.
  unfold df_map_column. apply clean_bind; [apply reads_getitem|].
  intros s. apply clean_update.
Qed.

Lemma clean_convert_column (r : ref) (c : string) (g : Pd.Series -> Result Pd.Series) :
  fails_cleanly (df_convert_column r c g).
Proof. independent.
  unfold df_convert_column. apply clean_bind; [apply reads_getitem|]. intros s.
  apply clean_bind; [apply reads_lift|]. intros s'. apply clean_update.
Qed.

Lemma clean_transformation_step (result : ref) (t : Transformation) :
  fails_cleanly (transformation_step result t).
Proof. independent.
  unfold transformation_step. cbv zeta.
  repeat match goal with |- fails_cleanly (if ?c then _ else _) => destruct c end.
  - intros h e He.
    destruct (frames_create_calculated_column h result
                (get_default (tp_column_name (get_default (tf_params t) no_params))
                             "calculated_column")
                (get_default (tp_expression (get_default (tf_params t) no_params)) "0")
                h (reflexivity _) I) as [H _].
    exact H.
  - unfold convert_column_type. cbv zeta.
    apply clean_bind; [apply reads_read|]. intros d.
    destruct (_ && _); [|apply clean_ret].
    apply clean_then_ret.
    repeat match goal with |- fails_cleanly (if ?c then _ else _) => destruct c end;
      first [apply clean_map_column | apply clean_convert_column | apply clean_ret].
  - unfold replace_values. cbv zeta.
    apply clean_bind; [apply reads_read|]. intros d.
    destruct (tp_find _); [|apply clean_ret].
    destruct (_ && _); [|apply clean_ret].
    apply clean_then_ret, clean_convert_column.
  - unfold filter_rows. cbv zeta.
    apply clean_bind; [apply reads_read|]. intros d.
    destruct (tp_value _); [|apply clean_ret].
    destruct (_ && _); [|apply clean_ret].
    repeat match goal with |- fails_cleanly (if ?c then _ else _) => destruct c end;
      try apply clean_ret; try apply clean_recover;
      (apply clean_bind; [apply reads_getitem|]; intros s;
       apply clean_bind; [apply reads_lift|]; intros mask; apply clean_filter).
  - unfold rename_columns. destruct (get_default _ _); [apply clean_ret|].
    apply clean_bind; [apply reads_read|]. intros d. apply clean_new.
  - unfold drop_listed_columns. destruct (get_default _ _); [apply clean_ret|].
    apply clean_bind; [apply reads_read|]. intros d. apply clean_new.
  - apply clean_ret.
Qed.

(** X24.  A transformation of the list whose step raises is skipped: the
    loop goes on with the table it had, and that table and every other
    table held before the step are unchanged (a step never fails after
    it has written into the table). *)
Theorem failed_transformation_skipped (result : ref) (t : Transformation) (h : Heap)
        (e : exn) :
  fst (transformation_step result t h) = Raise e ->
  fst (apply_transformation result t h) = Ok result /\
  h `prefix_of` snd (apply_transformation result t h) /\
  forall d, h !! result = Some d ->
            snd (apply_transformation result t h) !! result = Some d.
Proof. independent.
  intros He. pose proof (clean_transformation_step result t h e He) as Hpre.
  unfold apply_transformation, prog_try.
  destruct (transformation_step result t h) as [[a|e'] h1]; simpl in *; [done|].
  split; [done|]. split; [done|].
  intros d Hd. by eapply prefix_lookup_Some.
Qed.

Lemma columns_drop_columns (names : list string) (d : Pd.DataFrame) :
  Pd.columns (drop_columns names d)
  = List.filter (fun c => negb (PyStr.mem c names)) (Pd.columns d).
Proof. independent.
  unfold drop_columns, Pd.columns. simpl.
  induction (Pd.cols d) as [|[c s] l IH]; simpl; [done|].
  destruct (PyStr.mem c names); simpl; by rewrite IH.
Qed.

Lemma getitem_drop_columns (names : list string) (d : Pd.DataFrame) (c : string) :
  PyStr.mem c names = false ->
  Pd.getitem (drop_columns names d) c = Pd.getitem d c.
Proof. independent.
  intros Hc. unfold drop_columns, Pd.getitem. simpl. f_equal.
  induction (Pd.cols d) as [|[c' s] l IH]; simpl; [done|].
  destruct (String.eqb_spec c' c) as [->|Hne].
  - rewrite Hc. simpl. by rewrite String.eqb_refl.
  - destruct (PyStr.mem c' names); simpl; [done|].
    destruct (String.eqb_spec c' c); [done|]. exact IH.
Qed.

Lemma mem_present (c : string) (present cols : list string) :
  In c present ->
  PyStr.mem c (List.filter (fun col => PyStr.mem col present) cols) = PyStr.mem c cols.
Proof. independent.
  intros Hc. induction cols as [|x cols IH]; simpl; [done|].
  destruct (PyStr.mem x present) eqn:E; simpl.
  - by rewrite IH.
  - rewrite IH. destruct (String.eqb_spec c x) as [->|Hne]; [|done].
    apply mem_In in Hc. congruence.
Qed.

Lemma filter_ext_In' {A : Type} (f g : A -> bool) (l : list A) :
  (forall x, In x l -> f x = g x) -> List.filter f l = List.filter g l.
Proof. independent.
  induction l as [|x l IH]; intros H; simpl; [done|].
  rewrite (H x) by (by left). rewrite IH; [done|]. intros y Hy. apply H. by right.
Qed.

(** X25.  A drop_columns transformation removes the listed columns that the
    table has and ignores the listed names it lacks: the result has the
    remaining labels in their order, the same number of rows, and every
    column that is not listed as it was. *)
Theorem drop_columns_ignores_unknown (h : Heap) (df : ref) (d : Pd.DataFrame)
        (t : Transformation) (params : TransformParams) (cols : list string) :
  h !! df = Some d ->
  tf_type t = Some "drop_columns" -> tf_params t = Some params ->
  tp_columns params = Some cols -> cols <> [] ->
  exists out,
    apply_data_transformations df [t] h = (Ok (S (length h)), (h ++ [d; out])%list) /\
    Pd.columns out = List.filter (fun c => negb (PyStr.mem c cols)) (Pd.columns d) /\
    Pd.nrows out = Pd.nrows d /\
    forall c, PyStr.mem c cols = false -> Pd.getitem out c = Pd.getitem d c.
Proof. independent.
  intros Hd Ht Hp Hc Hne.
  set (present := List.filter (fun col => PyStr.mem col (Pd.columns d)) cols).
  exists (drop_columns present d). split; [|split; [|split]].
  - unfold apply_data_transformations, prog_bind. rewrite (run_copy h df d Hd).
    cbn [transformations_loop]. unfold prog_bind, apply_transformation, prog_try,
      transformation_step.
    rewrite Ht, Hp. cbn [is_str String.eqb Ascii.eqb Bool.eqb get_default].
    unfold drop_listed_columns. rewrite Hc. cbn [get_default].
    destruct cols as [|c0 cs]; [done|].
    unfold prog_bind. rewrite run_read_new. unfold df_new, prog_ret. simpl.
    rewrite length_app. simpl. rewrite <- app_assoc. simpl.
    replace (length h + 1)%nat with (S (length h)) by lia. reflexivity.
  - rewrite columns_drop_columns. apply filter_ext_In'. intros c Hin.
    unfold present. by rewrite mem_present.
  - done.
  - intros c Hm. apply getitem_drop_columns.
    unfold present. clear - Hm. induction cols as [|x cols IH]; simpl; [done|].
    simpl in Hm. apply orb_false_iff in Hm as [Hx Hm].
    destruct (PyStr.mem x (Pd.columns d)); simpl; [|by apply IH].
    rewrite Hx. simpl. by apply IH.
Qed.

(** ** The extension of a file name *)

Lemma rfind_dot_none (s : string) :
  rfind_dot s = None -> forall i, String.get i s <> Some "."%char.
Proof. independent.
  induction s as [|a s IH]; simpl; intros H i; [by destruct i|].
  destruct (rfind_dot s); [discriminate H|].
  destruct (Ascii.eqb_spec a ".") as [->|Hne]; [discriminate H|].
  destruct i as [|i]; [congruence|by apply IH].
Qed.

Lemma rfind_dot_split (n : string) (i : nat) :
  rfind_dot n = Some i ->
  exists stem suffix,
    n = stem +:+ String "." suffix /\ String.length stem = i /\ rfind_dot suffix = None.
Proof. independent.
  revert i. induction n as [|a n IH]; simpl; intros i H; [discriminate H|].
  destruct (rfind_dot n) as [j|] eqn:E.
  - injection H as <-. destruct (IH j eq_refl) as (stem & suffix & -> & Hl & Hs).
    exists (String a stem), suffix. simpl. by rewrite Hl.
  - destruct (Ascii.eqb_spec a ".") as [->|Hne]; [|discriminate H].
    injection H as <-. by exists EmptyString, n.
Qed.

Lemma substring_all (s : string) : String.substring 0 (String.length s) s = s.
Proof. independent. induction s as [|a s IH]; simpl; [done|]. by rewrite IH. Qed.

Lemma substring_tail (stem rest : string) :
  String.substring (String.length stem) (String.length rest) (stem +:+ rest) = rest.
Proof. independent.
  induction stem as [|a stem IH]; simpl; [apply substring_all|exact IH].
Qed.

Lemma lower_ascii_dot (a : ascii) :
  Ascii.eqb (PyStr.lower_ascii a) "." = Ascii.eqb a ".".
Proof. independent. destruct a as [[] [] [] [] [] [] [] []]; reflexivity. Qed.

Lemma rfind_dot_lower (s : string) :
  rfind_dot s = None -> rfind_dot (PyStr.lower s) = None.
Proof. independent.
  induction s as [|a s IH]; simpl; [done|].
  destruct (rfind_dot s); [done|]. rewrite IH by done. by rewrite lower_ascii_dot.
Qed.

Lemma lstrip_dot_none (s : string) : rfind_dot s = None -> PyStr.lstrip_dot s = s.
Proof. independent.
  destruct s as [|a s]; simpl; [done|].
  destruct (rfind_dot s); [done|].
  destruct a as [[] [] [] [] [] [] [] []]; simpl; intros H; first [done|discriminate H].
Qed.

(** X26.  The extension [get_file_info] reports is in lower case and holds
    no dot.  It is empty, or the last component of the file name is a
    non-empty stem, a dot and a suffix, and the extension is that suffix
    in lower case. *)
Theorem extension_normal_form (uploaded_file : UploadedFile) :
  let extension := info_extension (get_file_info uploaded_file) in
  PyStr.lower extension = extension /\
  (forall i, String.get i extension <> Some "."%char) /\
  (extension = EmptyString \/
   exists stem suffix,
     path_name (file_name uploaded_file) = stem +:+ "." +:+ suffix /\
     stem <> EmptyString /\ extension = PyStr.lower suffix).
Proof. independent.
  cbv zeta. unfold get_file_info, file_extension, path_suffix. simpl. cbv zeta.
  set (n := path_name (file_name uploaded_file)).
  assert (Hempty : PyStr.lower EmptyString = EmptyString /\
                   (forall i, String.get i EmptyString <> Some "."%char) /\
                   (EmptyString = EmptyString \/
                    exists stem suffix,
                      n = stem +:+ "." +:+ suffix /\ stem <> EmptyString /\
                      EmptyString = PyStr.lower suffix)).
  { split; [done|]. split; [by intros []|by left]. }
  destruct (rfind_dot n) as [i|] eqn:E; [|exact Hempty].
  destruct (_ && _) eqn:Hb; [|exact Hempty].
  apply andb_true_iff in Hb as [Hi _]. apply Nat.ltb_lt in Hi.
  destruct (rfind_dot_split n i E) as (stem & suffix & Hn & Hl & Hs).
  assert (Hsub : String.substring i (String.length n - i) n = String "." suffix).
  { rewrite Hn, length_append, <- Hl.
    replace (String.length stem + String.length (String "." suffix) - String.length stem)%nat
      with (String.length (String "." suffix)) by lia.
    apply substring_tail. }
  rewrite Hsub.
  change (PyStr.lower (String "." suffix)) with (String "." (PyStr.lower suffix)).
  change (PyStr.lstrip_dot (String "." (PyStr.lower suffix)))
    with (PyStr.lstrip_dot (PyStr.lower suffix)).
  rewrite (lstrip_dot_none _ (rfind_dot_lower _ Hs)).
  split; [apply lower_idem|]. split; [apply rfind_dot_none, rfind_dot_lower, Hs|].
  right. exists stem, suffix. split; [exact Hn|]. split; [|done].
  intros ->. simpl in Hl. lia.
Qed.
End DataFusion.

(** * The properties on the small instance *)

Abbreviation toy_load_data :=
  (load_data toy_decode toy_detect toy_read_csv toy_unreadable toy_unreadable
             unit toy_json_load toy_normalize toy_record).

Abbreviation toy_process_files :=
  (process_files toy_decode toy_detect toy_read_csv toy_unreadable toy_unreadable
                 unit toy_json_load toy_normalize toy_record toy_ratio
                 toy_stat toy_stat toy_mode toy_merge toy_order toy_now).

Abbreviation toy_diagnostics :=
  (request_diagnostics toy_decode toy_detect toy_read_csv toy_unreadable toy_unreadable
                       unit toy_json_load toy_normalize toy_record toy_ratio).

Abbreviation toy_merge_tables := (merge_tables toy_ratio toy_merge toy_order).

Abbreviation toy_math_transform :=
  (math_transform PyStr.float (1 # 4503599627370496) toy_apply toy_power toy_agg).

Abbreviation toy_binning_transform :=
  (binning_transform PyStr.float toy_cut_width toy_qcut).

Abbreviation toy_calculated_column :=
  (create_calculated_column Pd.Series toy_eval toy_as_column).

Abbreviation toy_transform :=
  (transform PyStr.float toy_std (1 # 4503599627370496) toy_apply toy_power toy_agg
             toy_cut_width toy_qcut toy_to_datetime toy_strftime toy_component
             toy_seconds toy_series_op toy_series_op toy_str (fun s => s) (fun s => s)
             string toy_compile toy_search toy_replace).

Abbreviation toy_clean_dataframe := (clean_dataframe toy_stat toy_stat toy_mode).

(** C1 on two files, neither of which has the key [Nam]: the first has a
    similar label, which is suggested. *)
Lemma join_missing_key_fails_witness :
  let w := toy_world (toy_options "Join on key column (merge horizontally)" (Some "Nam")) in
  let files := [people_csv; cities_csv] in
  is_join (w_options w) = true /\
  truthy (join_key (w_options w)) = true /\
  fst (toy_process_files toy_merger files w)
  = Ok (None, Some ["File 'people.csv' is missing the key column 'nam'";
                    "  - Similar columns found: 'name'";
                    "File 'cities.csv' is missing the key column 'nam'"]).
Proof.
  intros w files.
  assert (H1 : is_join (w_options w) = true) by reflexivity.
  assert (H2 : truthy (join_key (w_options w)) = true) by reflexivity.
  assert (H3 : exists f df,
             In f files /\ toy_load_data toy_merger f = (Some df, None) /\
             has_column (normalized (w_options w) df) (norm_key (w_options w)) = false).
  { eexists people_csv, _. split; [by left|]. split; vm_compute; reflexivity. }
  split; [exact H1|]. split; [exact H2|].
  exact (proj1 (join_missing_key_fails
                  toy_decode toy_detect toy_read_csv toy_unreadable toy_unreadable
                  unit toy_json_load toy_normalize toy_record toy_ratio
                  toy_stat toy_stat toy_mode toy_merge toy_order toy_now
                  toy_merger files w H1 H2 H3)).
Defined.

(** C2 as stated fails: one file is too large, the other loads, the
    strategy is Append, and no table is returned. *)
Lemma load_failure_counterexample :
  ~ (forall m files w f e,
        is_join (w_options w) = false ->
        In f files -> toy_load_data m f = (None, Some e) ->
        (exists g df, In g files /\ toy_load_data m g = (Some df, None)) ->
        exists t errs, fst (toy_process_files m files w) = Ok (Some t, errs)).
Proof.
  intros H.
  destruct (H toy_merger [huge_csv; people_csv]
              (toy_world (toy_options "Append (stack vertically)" None))
              huge_csv "File huge.csv exceeds the maximum allowed size of 100MB.")
    as (t & errs & E).
  - reflexivity.
  - by left.
  - vm_compute. reflexivity.
  - eexists people_csv, _. split; [right; by left|]. vm_compute. reflexivity.
  - vm_compute in E. discriminate E.
Qed.

(** C2 as amended, on the same request. *)
Lemma load_failure_fails_merge_witness :
  let w := toy_world (toy_options "Append (stack vertically)" None) in
  let files := [huge_csv; people_csv] in
  let e := "File huge.csv exceeds the maximum allowed size of 100MB." in
  In huge_csv files /\
  toy_load_data toy_merger huge_csv = (None, Some e) /\
  fst (toy_process_files toy_merger files w) = Ok (None, Some [e]).
Proof.
  intros w files e.
  assert (H1 : is_join (w_options w) = true -> truthy (join_key (w_options w)) = true)
    by (vm_compute; discriminate).
  assert (H2 : In huge_csv files) by (by left).
  assert (H3 : toy_load_data toy_merger huge_csv = (None, Some e)) by (vm_compute; reflexivity).
  split; [exact H2|]. split; [exact H3|].
  exact (proj2 (proj2 (load_failure_fails_merge
                  toy_decode toy_detect toy_read_csv toy_unreadable toy_unreadable
                  unit toy_json_load toy_normalize toy_record toy_ratio
                  toy_stat toy_stat toy_mode toy_merge toy_order toy_now
                  toy_merger files w huge_csv e H1 H2 H3))).
Defined.

(** C3 on the two tables: three rows, the four labels in first-seen order. *)
Lemma append_rows_and_columns_witness :
  [people; cities] <> [] /\
  Forall Pd.wf_df [people; cities] /\
  exists out,
    Pd.concat [people; cities] = Ok out /\
    Pd.nrows out = 3%nat /\
    Pd.columns out = ["id"; "name"; "city"; "zip"].
Proof.
  assert (H1 : [people; cities] <> []) by discriminate.
  assert (H2 : Forall Pd.wf_df [people; cities]).
  { repeat apply List.Forall_cons; try apply List.Forall_nil;
      (split;
       [ apply NoDup_ListNoDup;
         repeat (apply List.NoDup_cons; [simpl; intuition discriminate|]);
         apply List.NoDup_nil
       | repeat apply List.Forall_cons; try apply List.Forall_nil; reflexivity ]). }
  split; [exact H1|]. split; [exact H2|].
  destruct (append_rows_and_columns toy_ratio toy_merge toy_order [people; cities] H1 H2)
    as (out & Hc & _ & _ & Hn & Hl & _).
  exists out. split; [exact Hc|]. split; [exact Hn|exact Hl].
Defined.

(** C4 on the two tables, which share no label: the Smart merge returns
    the three rows under the four labels. *)
Lemma smart_merge_falls_back_to_append_witness :
  let o := toy_options "Smart merge (auto-detect)" None in
  let dfs := [people; cities] in
  merge_method o = "Smart merge (auto-detect)" /\
  (2 <= length dfs)%nat /\
  Forall Pd.wf_df dfs /\
  (forall c, ~ (forall d, In d dfs -> In c (Pd.columns d))) /\
  exists out,
    fst (toy_merge_tables o dfs [] (toy_world o)) = Ok out /\
    Pd.nrows out = 3%nat /\
    Pd.columns out = ["id"; "name"; "city"; "zip"] /\
    Pd.cell out "city" 2 = Some (Pd.CText "Rome") /\
    Pd.cell out "city" 0 = Some Pd.NaN.
Proof.
  intros o dfs.
  assert (H1 : merge_method o = "Smart merge (auto-detect)") by reflexivity.
  assert (H2 : (2 <= length dfs)%nat) by (simpl; lia).
  assert (Hwf : Forall Pd.wf_df dfs).
  { repeat apply List.Forall_cons; try apply List.Forall_nil;
      (split;
       [ apply NoDup_ListNoDup;
         repeat (apply List.NoDup_cons; [simpl; intuition discriminate|]);
         apply List.NoDup_nil
       | repeat apply List.Forall_cons; try apply List.Forall_nil; reflexivity ]). }
  assert (H3 : forall c, ~ (forall d, In d dfs -> In c (Pd.columns d))).
  { intros c H.
    pose proof (H people (or_introl eq_refl)) as Hp.
    pose proof (H cities (or_intror (or_introl eq_refl))) as Hc.
    simpl in Hp, Hc. destruct Hp as [<-|[<-|[]]]; intuition discriminate. }
  split; [exact H1|]. split; [exact H2|]. split; [exact Hwf|]. split; [exact H3|].
  destruct (smart_merge_falls_back_to_append toy_ratio toy_merge toy_order
              o dfs [] (toy_world o) H1 H2 Hwf H3)
    as (out & _ & Hm & _ & _ & _ & Hn & Hl & Hcell).
  exists out. split; [exact Hm|]. split; [exact Hn|]. split; [exact Hl|].
  assert (Hin : In "city" (Pd.columns out)).
  { rewrite Hl. right. right. by left. }
  split.
  - destruct (Hcell 1%nat cities 0%nat "city" eq_refl ltac:(simpl; lia) Hin) as [Hown _].
    exact (proj2 (Hown ltac:(by left))).
  - destruct (Hcell 0%nat people 0%nat "city" eq_refl ltac:(simpl; lia) Hin) as [_ Hnan].
    apply Hnan. simpl. intuition discriminate.
Defined.

(** C5 on a table whose divisor column holds a zero in its second row. *)
Lemma division_by_zero_witness :
  let p := mkMath None (Some "age") (Some "/") (Some "n") None None None None None
                  (Some "ratio") in
  let h := [ages] in
  h !! 0%nat = Some ages /\
  exists out,
    toy_math_transform 0%nat p h = (Ok 1%nat, [ages; out]) /\
    Pd.cell out "ratio" 0 = Some (Pd.CFloat (10 / 2)) /\
    Pd.cell out "ratio" 1 = Some Pd.NaN /\
    Pd.cell out "ratio" 2 = Some (Pd.CFloat (70 / 7)).
Proof.
  intros p h.
  assert (H1 : h !! 0%nat = Some ages) by reflexivity.
  split; [exact H1|].
  destruct (division_by_zero PyStr.float (1 # 4503599627370496) toy_apply toy_power toy_agg
              h 0%nat ages p (Pd.plain [Pd.CInt 10; Pd.CInt 40; Pd.CInt 70]) Qdiv
              "Cannot divide by zero" H1 eq_refl eq_refl eq_refl eq_refl eq_refl)
    as [_ Hcol].
  destruct (Hcol (Pd.plain [Pd.CInt 2; Pd.CInt 0; Pd.CInt 7]) eq_refl eq_refl eq_refl)
    as (out & Hrun & Hcell).
  exists out. split; [exact Hrun|]. split; [|split].
  - exact (Hcell 0%nat (Some (inject_Z 10)) (Some (inject_Z 2)) eq_refl eq_refl).
  - exact (Hcell 1%nat (Some (inject_Z 40)) (Some (inject_Z 0)) eq_refl eq_refl).
  - exact (Hcell 2%nat (Some (inject_Z 70)) (Some (inject_Z 7)) eq_refl eq_refl).
Defined.

(** C6 on the same table.  Without labels the ages 10, 40 and 70 fall
    in the first, third and fifth of the five intervals; with four
    labels the transformer raises. *)
Lemma binning_custom_edges_witness :
  let p := mkBinning (Some "age") (Some "custom") None (Some "0,18,35,50,65,100")
                     None (Some "band") None in
  let q := mkBinning (Some "age") (Some "custom") None (Some "0,18,35,50,65,100")
                     (Some "child,young,adult,senior") (Some "band") None in
  let h := [ages] in
  h !! 0%nat = Some ages /\
  (exists out col,
      toy_binning_transform 0%nat p h = (Ok 1%nat, [ages; out]) /\
      Pd.getitem out "band" = Some col /\
      Pd.cats col
      = Some [Pd.CInterval (0 - (1 # 1000)) 18 true; Pd.CInterval 18 35 true;
              Pd.CInterval 35 50 true; Pd.CInterval 50 65 true;
              Pd.CInterval 65 100 true]%Q /\
      nth_error (Pd.data col) 0 = Some (Pd.CInterval (0 - (1 # 1000)) 18 true)%Q /\
      nth_error (Pd.data col) 1 = Some (Pd.CInterval 35 50 true)%Q /\
      nth_error (Pd.data col) 2 = Some (Pd.CInterval 65 100 true)%Q) /\
  toy_binning_transform 0%nat q h
  = (Raise (ValueError "Error binning data: Number of labels (4) must be one less than bin edges (6)"),
     [ages; ages]).
Proof.
  intros p q h.
  assert (H1 : h !! 0%nat = Some ages) by reflexivity.
  split; [exact H1|]. split.
  - destruct (binning_custom_edges PyStr.float toy_cut_width toy_qcut
                h 0%nat ages p (Pd.plain [Pd.CInt 10; Pd.CInt 40; Pd.CInt 70])
                H1 eq_refl eq_refl eq_refl eq_refl) as [Hgood _].
    destruct (Hgood eq_refl eq_refl)
      as (out & col & cs & Hrun & Hg & Hcats & _ & _ & Hcs & _ & Hplace & _).
    simpl in Hcs. subst cs.
    exists out, col. split; [exact Hrun|]. split; [exact Hg|]. split; [exact Hcats|].
    split; [|split].
    + apply (Hplace 0%nat (inject_Z 10) 0%nat 0%Q 18%Q eq_refl eq_refl eq_refl).
      left. split; [reflexivity|discriminate].
    + apply (Hplace 1%nat (inject_Z 40) 2%nat 35%Q 50%Q eq_refl eq_refl eq_refl).
      left. split; [reflexivity|discriminate].
    + apply (Hplace 2%nat (inject_Z 70) 4%nat 65%Q 100%Q eq_refl eq_refl eq_refl).
      left. split; [reflexivity|discriminate].
  - destruct (binning_custom_edges PyStr.float toy_cut_width toy_qcut
                h 0%nat ages q (Pd.plain [Pd.CInt 10; Pd.CInt 40; Pd.CInt 70])
                H1 eq_refl eq_refl eq_refl eq_refl) as [_ Hbad].
    destruct (Hbad [0; 18; 35; 50; 65; 100]%Q ["child"; "young"; "adult"; "senior"])
      as (msg & Hrun & Hmsg).
    + vm_compute. reflexivity.
    + vm_compute. reflexivity.
    + simpl. lia.
    + rewrite Hrun. rewrite Hmsg by (simpl; lia). vm_compute. reflexivity.
Defined.

(** C7 as stated fails: with case normalization on, the key [ID] of the
    caller's options is [id] after the merge. *)
Lemma options_mutated_counterexample :
  ~ (forall m files w,
        w_options (snd (toy_process_files m files w)) = w_options w).
Proof.
  intros H.
  specialize (H toy_merger [people_csv]
                (toy_world (toy_options "Append (stack vertically)" (Some "ID")))).
  vm_compute in H. discriminate H.
Qed.

(** C9.  The code at a failing input: a semicolon-separated file that
    is valid UTF-8 and has six semicolons in its first 4096 bytes, the
    last of which is the first byte of a two-byte character.  The
    sample does not decode, so no delimiter is chosen: [read_file]
    raises the decoding error and [load_data], when the encoding
    detected is utf-8, reports the file as failed. *)
Lemma delimiter_sample_cut_fails :
  let kw := mkKw (Some "utf-8") None None in
  let message := "'utf-8' codec can't decode bytes: unexpected end of data" in
  utf8_strict "utf-8" (file_bytes cut_csv) = Ok (file_bytes cut_csv) /\
  String.length (file_bytes cut_csv) = 4116%nat /\
  PyStr.count ";" (PyStr.take 4096 (file_bytes cut_csv)) = 6%nat /\
  kw_sep kw = None /\ kw_delimiter kw = None /\
  utf8_strict "utf-8" (PyStr.take 4096 (file_bytes cut_csv)) = Raise (ValueError message) /\
  read_file utf8_strict toy_read_csv toy_unreadable toy_unreadable
            unit toy_json_load toy_normalize toy_record cut_csv "csv" kw
  = Raise (ValueError message) /\
  load_data utf8_strict toy_detect toy_read_csv toy_unreadable toy_unreadable
            unit toy_json_load toy_normalize toy_record toy_merger cut_csv
  = (None, Some ("Error loading file cut.csv: " +:+ message)).
Proof.
  intros kw message. repeat split; vm_compute; reflexivity.
Qed.

(** C10 on a caller who holds one table. *)
Lemma cleaning_and_transformers_copy_witness :
  let t := MathOperation (mkMath None (Some "age") (Some "+") (Some "n") None None None
                                 None None (Some "age")) in
  [ages] !! 0%nat = Some ages /\
  snd (toy_transform t 0%nat [ages]) !! 0%nat = Some ages /\
  fst (toy_transform t 0%nat [ages]) = Ok 1%nat /\
  snd (toy_clean_dataframe 0%nat None [ages]) !! 0%nat = Some ages.
Proof.
  intros t.
  assert (H1 : [ages] !! 0%nat = Some ages) by reflexivity.
  destruct (cleaning_and_transformers_copy
              toy_stat toy_stat toy_mode PyStr.float toy_std (1 # 4503599627370496)
              toy_apply toy_power toy_agg toy_cut_width toy_qcut toy_to_datetime
              toy_strftime toy_component toy_seconds toy_series_op toy_series_op
              toy_str (fun s => s) (fun s => s) string toy_compile toy_search toy_replace
              [ages] 0%nat ages H1) as (_ & _ & Hc & Ht).
  split; [exact H1|]. split; [exact (Ht t)|]. split; [vm_compute; reflexivity|].
  exact (Hc None).
Defined.

Abbreviation toy_scaling_transform := (scaling_transform PyStr.float toy_std).

Abbreviation toy_apply_transformer :=
  (apply_transformer PyStr.float toy_std (1 # 4503599627370496) toy_apply toy_power
                     toy_agg toy_cut_width toy_qcut toy_to_datetime toy_strftime
                     toy_component toy_seconds toy_series_op toy_series_op toy_str
                     (fun s => s) (fun s => s) string toy_compile toy_search toy_replace).

Abbreviation toy_apply_data_transformations :=
  (apply_data_transformations PyStr.float toy_to_datetime toy_str Pd.Series toy_eval
                              toy_as_column toy_astype_bool toy_series_replace
                              toy_series_eq toy_series_eq toy_str_contains toy_py_float).

Abbreviation toy_transformation_step :=
  (transformation_step PyStr.float toy_to_datetime toy_str Pd.Series toy_eval
                       toy_as_column toy_astype_bool toy_series_replace
                       toy_series_eq toy_series_eq toy_str_contains toy_py_float).

Abbreviation toy_apply_transformation :=
  (apply_transformation PyStr.float toy_to_datetime toy_str Pd.Series toy_eval
                        toy_as_column toy_astype_bool toy_series_replace
                        toy_series_eq toy_series_eq toy_str_contains toy_py_float).
(** * Further properties on the small instance *)

(** The JSON fallback on a document [pd.read_json] refuses: a dictionary
    whose second field is the first list-valued one. *)
Lemma json_fallback_witness :
  let kw := mkKw None None None in
  toy_read_json items_json kw
  = Raise (ValueError "Mixing dicts with non-Series may lead to ambiguous ordering.") /\
  read_file toy_decode toy_read_csv toy_unreadable toy_read_json unit toy_json_document
            toy_rows toy_record items_json "json" kw
  = Ok (Some (Pd.mkDF 2 [])).
Proof.
  intros kw.
  assert (H : toy_read_json items_json kw
              = Raise (ValueError
                         "Mixing dicts with non-Series may lead to ambiguous ordering."))
    by reflexivity.
  split; [exact H|].
  destruct (json_fallback toy_decode toy_read_csv toy_unreadable toy_read_json unit
                          toy_json_document toy_rows toy_record items_json kw _ H)
    as (_ & Hd & _).
  apply (Hd [("count", inr tt)] "items" [tt; tt] [] eq_refl).
  apply List.Forall_cons; [exact I|apply List.Forall_nil].
Defined.

(** The mapping of [name] among [nam] and [zip], at the threshold one
    half. *)
Lemma mapping_is_best_match_witness :
  In ("name", "nam") (suggest_column_mappings toy_ratio ["name"] ["zip"; "nam"] (1 # 2)) /\
  (1 # 2 <= similarity toy_ratio "name" "nam")%Q /\
  forall t, In t ["zip"; "nam"] ->
            (similarity toy_ratio "name" t <= similarity toy_ratio "name" "nam")%Q.
Proof.
  assert (H : In ("name", "nam")
                 (suggest_column_mappings toy_ratio ["name"] ["zip"; "nam"] (1 # 2)))
    by (vm_compute; by left).
  split; [exact H|].
  destruct (mapping_is_best_match toy_ratio ["name"] ["zip"; "nam"] (1 # 2) "name" "nam" H)
    as (_ & _ & _ & Ht & _ & Hbest).
  split; [exact Ht|exact Hbest].
Defined.

(** The renaming of a later table whose label [nam] is close to the
    first table's [name]. *)
Lemma renaming_targets_first_table_witness :
  let o := toy_options "Join on key column (merge horizontally)" (Some "name") in
  let df := Pd.mkDF 1 [("nam", Pd.plain [Pd.CText "Cy"]); ("zip", Pd.plain [Pd.CInt 7])] in
  In ("nam", "name") (rename_dict toy_ratio (Pd.columns people) (Pd.columns df) (8 # 10)) /\
  match_columns toy_ratio o people "later.csv" df
  = (Pd.mkDF 1 [("name", Pd.plain [Pd.CText "Cy"]); ("zip", Pd.plain [Pd.CInt 7])],
     [("later.csv", [("nam", "name")])]).
Proof.
  intros o df.
  assert (H : In ("nam", "name")
                 (rename_dict toy_ratio (Pd.columns people) (Pd.columns df) (8 # 10)))
    by (vm_compute; by left).
  split; [exact H|].
  destruct (renaming_targets_first_table toy_ratio o people df "later.csv" "nam" "name" H)
    as (Hm & _).
  rewrite Hm. vm_compute. reflexivity.
Defined.

(** The report on a table of three rows whose third repeats the first. *)
Lemma duplicates_complement_kept_witness :
  valid_cols visits None <> Some [] /\
  duplicate_count (detect_duplicates visits None) = 1%nat /\
  (duplicate_count (detect_duplicates visits None)
   + Pd.nrows (Pd.drop_duplicates None visits) = 3)%nat.
Proof.
  assert (H : valid_cols visits None <> Some []) by discriminate.
  split; [exact H|].
  destruct (duplicates_complement_kept visits None H) as (_ & _ & Hsum).
  split; [reflexivity|exact Hsum].
Defined.

(** The third row of that table is reported, and its twin is the first. *)
Lemma duplicate_has_earlier_twin_witness :
  In 2%nat (duplicate_indices (detect_duplicates visits None)) /\
  exists j, (j < 2)%nat /\ ~ In j (duplicate_indices (detect_duplicates visits None)).
Proof.
  assert (H : In 2%nat (duplicate_indices (detect_duplicates visits None)))
    by (vm_compute; by left).
  split; [exact H|].
  destruct (duplicate_has_earlier_twin visits None 2 H) as (_ & j & _ & _ & Hj & Hn & _).
  exists j. split; [exact Hj|exact Hn].
Defined.

(** The duplicates stage on that table: one row is dropped, and the
    table left has no duplicate. *)
Lemma duplicates_stage_leaves_none_witness :
  let o := mkOptions "Append (stack vertically)" None "outer" false "merged"
                     true true false None None None in
  handle_duplicates o = true /\
  uniform visits /\
  exists out,
    fst (duplicates_stage o "visits.csv" visits (toy_world o)) = Ok out /\
    Pd.nrows out = 2%nat /\
    detect_duplicates out None = mkDuplicates 0 (loc out []) [] /\
    w_ui (snd (duplicates_stage o "visits.csv" visits (toy_world o)))
    = [StInfo "Removed 1 duplicate rows from 'visits.csv'"].
Proof.
  intros o.
  assert (H1 : handle_duplicates o = true) by reflexivity.
  assert (H2 : uniform visits).
  { repeat apply List.Forall_cons; try apply List.Forall_nil; reflexivity. }
  split; [exact H1|]. split; [exact H2|].
  destruct (duplicates_stage_leaves_none o "visits.csv" visits (toy_world o) H1 H2)
    as (out & Hr & Ho & _ & _ & Hd & Hui).
  exists out. split; [exact Hr|]. split; [rewrite Ho; reflexivity|].
  split; [exact Hd|]. rewrite Hui, Ho. reflexivity.
Defined.



(** After filling with zeros no cell of the table is missing. *)
Lemma zero_fill_leaves_no_missing_witness :
  let o := mkClean None (Some "Zero") None None None in
  [visits] !! 0%nat = Some visits /\
  co_fill_method o = Some "Zero" /\
  exists r out,
    fst (toy_clean_dataframe 0%nat (Some o) [visits]) = Ok r /\
    snd (toy_clean_dataframe 0%nat (Some o) [visits]) !! r = Some out /\
    forall c s, Pd.getitem out c = Some s ->
                Forall (fun x => Pd.isna x = false) (Pd.data s).
Proof.
  intros o.
  assert (H1 : [visits] !! 0%nat = Some visits) by reflexivity.
  assert (H2 : co_fill_method o = Some "Zero") by reflexivity.
  split; [exact H1|]. split; [exact H2|].
  exact (zero_fill_leaves_no_missing toy_stat toy_stat toy_mode [visits] 0%nat visits o
                                     H1 H2).
Defined.

(** A request with an oversized file: no table, and the message. *)
Lemma process_files_result_shape_witness :
  let w := toy_world (toy_options "Append (stack vertically)" None) in
  let e := "File huge.csv exceeds the maximum allowed size of 100MB." in
  fst (toy_process_files toy_merger [huge_csv; people_csv] w) = Ok (None, Some [e]) /\
  ((exists merged_df, @None Pd.DataFrame = Some merged_df /\ Some [e] = None) \/
   (exists msg msgs, @None Pd.DataFrame = None /\ Some [e] = Some (msg :: msgs))).
Proof.
  intros w e.
  assert (H : fst (toy_process_files toy_merger [huge_csv; people_csv] w)
              = Ok (None, Some [e])) by (vm_compute; reflexivity).
  split; [exact H|].
  exact (process_files_result_shape
           toy_decode toy_detect toy_read_csv toy_unreadable toy_unreadable
           unit toy_json_load toy_normalize toy_record toy_ratio
           toy_stat toy_stat toy_mode toy_merge toy_order toy_now
           toy_merger [huge_csv; people_csv] w None (Some [e]) H).
Defined.

(** Scaling with the default options adds the column [age_scaled] and
    keeps [age] and [n]. *)
Lemma scaling_adds_a_column_witness :
  let p := mkScaling (Some "age") None None None None None in
  let s := Pd.plain [Pd.CInt 10; Pd.CInt 40; Pd.CInt 70] in
  [ages] !! 0%nat = Some ages /\
  Pd.getitem ages "age" = Some s /\
  forallb is_none (to_numeric PyStr.float s) = false /\
  exists out,
    toy_scaling_transform 0%nat p [ages] = (Ok 1%nat, [ages; out]) /\
    scaling_target p = "age_scaled" /\
    is_Some (Pd.getitem out "age_scaled") /\
    Pd.getitem out "age" = Some s /\
    Pd.getitem out "n" = Pd.getitem ages "n".
Proof.
  intros p s.
  assert (H1 : [ages] !! 0%nat = Some ages) by reflexivity.
  assert (H2 : Pd.getitem ages (str_opt (sc_column p)) = Some s) by reflexivity.
  assert (H3 : has_column ages (sc_column p) = true) by reflexivity.
  assert (H4 : forallb is_none (to_numeric PyStr.float s) = false) by reflexivity.
  assert (H5 : In (get_default (sc_method p) "min_max")
                  ["min_max"; "z_score"; "max_abs"; "custom_range"]) by (by left).
  assert (H6 : get_default (sc_create_new_column p) true = true) by reflexivity.
  assert (H7 : truthy (sc_new_column_name p) = false) by reflexivity.
  split; [exact H1|]. split; [exact H2|]. split; [exact H4|].
  destruct (scaling_adds_a_column PyStr.float toy_std [ages] 0%nat ages p s
                                  H1 H2 H3 H4 H5 H6 H7)
    as (out & suffix & Hr & _ & _ & Hs & Hk & Ho).
  exists out. split; [exact Hr|]. split; [reflexivity|]. split; [exact Hs|].
  split; [exact Hk|]. apply Ho. discriminate.
Defined.

(** A text replacement whose replacement text is empty is refused, and
    no table is made. *)
Lemma missing_parameter_refused_witness :
  let params : gmap string ParamValue :=
    <["column" := PStr "name"]> (<["pattern" := PStr "n"]> (<["replacement" := PStr ""]> ∅)) in
  let p := mkParam "replacement" "string" "Replacement Text" true in
  get_transformer builtin_transformers "Text Replace Transformer"
  = Some TextReplaceTransformer /\
  In p (get_parameters TextReplaceTransformer) /\
  param_missing params (p_name p) = true /\
  exists errors,
    toy_apply_transformer builtin_transformers 0%nat "Text Replace Transformer" params
                          [people]
    = (Ok (inr errors), [people]) /\
    In ("replacement", "Parameter 'Replacement Text' is required") errors.
Proof.
  intros params p.
  assert (H1 : get_transformer builtin_transformers "Text Replace Transformer"
               = Some TextReplaceTransformer) by (vm_compute; reflexivity).
  assert (H2 : In p (get_parameters TextReplaceTransformer))
    by (right; right; by left).
  assert (H3 : p_required p = true) by reflexivity.
  assert (H4 : param_missing params (p_name p) = true) by (vm_compute; reflexivity).
  split; [exact H1|]. split; [exact H2|]. split; [exact H4|].
  exact (missing_parameter_refused
           PyStr.float toy_std (1 # 4503599627370496) toy_apply toy_power
           toy_agg toy_cut_width toy_qcut toy_to_datetime toy_strftime
           toy_component toy_seconds toy_series_op toy_series_op toy_str
           (fun s => s) (fun s => s) string toy_compile toy_search toy_replace
           builtin_transformers 0%nat "Text Replace Transformer" params [people]
           TextReplaceTransformer p H1 H2 H3 H4).
Defined.

(** A list whose first transformation fails (the comparison raises) and
    whose second renames a column: a table is returned all the same. *)
Lemma transformations_never_fail_witness :
  let keep := mkTransformation
                (Some "filter_rows")
                (Some (mkTransformParams None None (Some "name") None None None
                                         (Some "equals") (Some (Pd.CText "Ann"))
                                         None None)) in
  let rename := mkTransformation
                  (Some "rename_columns")
                  (Some (mkTransformParams None None None None None None None None
                                           (Some [("name", "who")]) None)) in
  [people] !! 0%nat = Some people /\
  exists result,
    fst (toy_apply_data_transformations 0%nat [keep; rename] [people]) = Ok result /\
    [people] `prefix_of` snd (toy_apply_data_transformations 0%nat [keep; rename] [people]) /\
    owned [people] result (snd (toy_apply_data_transformations 0%nat [keep; rename] [people])).
Proof.
  intros keep rename.
  assert (H : [people] !! 0%nat = Some people) by reflexivity.
  split; [exact H|].
  exact (transformations_never_fail
           PyStr.float toy_to_datetime toy_str Pd.Series toy_eval toy_as_column
           toy_astype_bool toy_series_replace toy_series_eq toy_series_eq
           toy_str_contains toy_py_float [people] 0%nat people [keep; rename] H).
Defined.

(** The failing filter on its own: the loop goes on with the table it
    had. *)
Lemma failed_transformation_skipped_witness :
  let keep := mkTransformation
                (Some "filter_rows")
                (Some (mkTransformParams None None (Some "name") None None None
                                         (Some "equals") (Some (Pd.CText "Ann"))
                                         None None)) in
  fst (toy_transformation_step 0%nat keep [people]) = Raise (OtherError "not comparable") /\
  fst (toy_apply_transformation 0%nat keep [people]) = Ok 0%nat /\
  snd (toy_apply_transformation 0%nat keep [people]) !! 0%nat = Some people.
Proof.
  intros keep.
  assert (H : fst (toy_transformation_step 0%nat keep [people])
              = Raise (OtherError "not comparable")) by reflexivity.
  split; [exact H|].
  destruct (failed_transformation_skipped
              PyStr.float toy_to_datetime toy_str Pd.Series toy_eval toy_as_column
              toy_astype_bool toy_series_replace toy_series_eq toy_series_eq
              toy_str_contains toy_py_float 0%nat keep [people] _ H)
    as (Hr & _ & Hk).
  split; [exact Hr|]. apply Hk. reflexivity.
Defined.

(** Dropping [name] and a label the table does not have. *)
Lemma drop_columns_ignores_unknown_witness :
  let params := mkTransformParams None None None None None None None None None
                                  (Some ["name"; "ghost"]) in
  let t := mkTransformation (Some "drop_columns") (Some params) in
  [people] !! 0%nat = Some people /\
  ["name"; "ghost"] <> [] /\
  exists out,
    toy_apply_data_transformations 0%nat [t] [people] = (Ok 2%nat, [people; people; out]) /\
    Pd.columns out = ["id"] /\
    Pd.nrows out = 2%nat.
Proof.
  intros params t.
  assert (H1 : [people] !! 0%nat = Some people) by reflexivity.
  assert (H2 : ["name"; "ghost"] <> []) by discriminate.
  split; [exact H1|]. split; [exact H2|].
  destruct (drop_columns_ignores_unknown
              PyStr.float toy_to_datetime toy_str Pd.Series toy_eval toy_as_column
              toy_astype_bool toy_series_replace toy_series_eq toy_series_eq
              toy_str_contains toy_py_float [people] 0%nat people t params
              ["name"; "ghost"] H1 eq_refl eq_refl eq_refl H2)
    as (out & Hr & Hc & Hn & _).
  exists out. split; [exact Hr|]. split; [exact Hc|exact Hn].
Defined.
